(** * GA4 to Google Sheets sync: a model of [ga4_to_excel.py]

    The development follows the three stages of [GA4SheetsSync]:
    the fetcher ([fetch_ga4_data], [format_dataframe]), the reconciler
    and the writer ([get_existing_sheet_data], [update_google_sheet],
    [format_sheet_header]) and the driver [sync_data]; then [main], the
    loop of [continuous_sync] and [get_credentials].

    A pandas [DataFrame] is a list of column labels and a list of rows;
    a row maps a label to the value of its cell.  A cell that holds the
    null marker of pandas ([NaN], [None], [NaT], [<NA>]) is an absent key
    of the row, so a cell read is an [option value].  Column labels of a
    frame are taken to be distinct. *)

From Stdlib Require Import ZArith Lia Ascii String.
From stdpp Require Import base option list strings gmap sorting pretty.

Set Warnings "-clear-no-such-hyp".

Local Open Scope string_scope.
Local Open Scope list_scope.
Local Open Scope Z_scope.

(** ** Cell values *)

(** A float64 is kept as the exact decimal it was read from, [m / 10^k],
    or as an infinity; the rounding error of binary64 is not part of the
    model.  The float [NaN] is the null marker. *)
Inductive float64 :=
  | Fin (m : Z) (k : nat)
  | Inf (neg : bool).

Inductive value :=
  | Str (s : string)
  | Int (z : Z)
  | Flt (x : float64).

Abbreviation cell := (option value).
Abbreviation row := (gmap string value).

Global Instance float64_eq_dec : EqDecision float64.
Proof. solve_decision. Defined.
Global Instance value_eq_dec : EqDecision value.
Proof. solve_decision. Defined.

Definition is_Str (c : cell) : bool :=
  match c with Some (Str _) => true | _ => false end.
Definition is_Int (c : cell) : bool :=
  match c with Some (Int _) => true | _ => false end.
Definition is_num (v : value) : bool :=
  match v with Str _ => false | _ => true end.

(** ** Numbers: comparison of numeric values, as Python's [==] and [<] *)

Definition as_float (v : value) : option float64 :=
  match v with
  | Str _ => None
  | Int z => Some (Fin z 0)
  | Flt x => Some x
  end.

Definition float_compare (x y : float64) : comparison :=
  match x, y with
  | Fin m k, Fin n j => (m * 10 ^ Z.of_nat j ?= n * 10 ^ Z.of_nat k)
  | Fin _ _, Inf neg => if neg then Gt else Lt
  | Inf neg, Fin _ _ => if neg then Lt else Gt
  | Inf a, Inf b =>
      match a, b with
      | true, false => Lt
      | false, true => Gt
      | _, _ => Eq
      end
  end.

(** [a == b] on two cell values. A string never equals a number. *)
Definition value_eqb (a b : value) : bool :=
  match a, b with
  | Str s, Str t => bool_decide (s = t)
  | Str _, _ | _, Str _ => false
  | _, _ =>
      match as_float a, as_float b with
      | Some x, Some y =>
          match float_compare x y with Eq => true | _ => false end
      | _, _ => false
      end
  end.

(** [a <= b]; [None] is the [TypeError] of comparing a string with a number. *)
Definition value_leb (a b : value) : option bool :=
  match a, b with
  | Str s, Str t => Some (String.leb s t)
  | Str _, _ | _, Str _ => None
  | _, _ =>
      match as_float a, as_float b with
      | Some x, Some y =>
          Some (match float_compare x y with Gt => false | _ => true end)
      | _, _ => None
      end
  end.

(** Equality of cells as [isin] and set membership see it: the null marker
    is one object and matches itself. *)
Definition cell_eqb (a b : cell) : bool :=
  match a, b with
  | None, None => true
  | Some x, Some y => value_eqb x y
  | _, _ => false
  end.

Definition cell_in (c : cell) (l : list cell) : bool := existsb (cell_eqb c) l.

(** ** Reading numbers: [pd.to_numeric(..., errors='coerce')] on one value *)

Definition int64_min : Z := - 2 ^ 63.
Definition int64_max : Z := 2 ^ 63 - 1.
Definition in_int64 (z : Z) : bool := (int64_min <=? z) && (z <=? int64_max).

Definition digit (c : ascii) : option Z := Z.of_nat <$> Ascii.is_nat c.

(** Reads the longest run of digits: the number read so far, how many
    digits were read, and the rest of the text. *)
Fixpoint read_digits (s : string) (acc : Z) (n : nat) : Z * nat * string :=
  match s with
  | String c s' =>
      match digit c with
      | Some d => read_digits s' (10 * acc + d) (S n)
      | None => (acc, n, s)
      end
  | EmptyString => (acc, n, s)
  end.

Fixpoint skip_spaces (s : string) : string :=
  match s with
  | String c s' => if Ascii.is_space c then skip_spaces s' else s
  | EmptyString => s
  end.

Definition strip (s : string) : string :=
  String.rev (skip_spaces (String.rev (skip_spaces s))).

Definition read_sign (s : string) : bool * string :=
  match s with
  | String "-" s' => (true, s')
  | String "+" s' => (false, s')
  | _ => (false, s)
  end.

Definition lower (c : ascii) : ascii :=
  let n := nat_of_ascii c in
  if ((65 <=? n) && (n <=? 90))%nat then ascii_of_nat (n + 32) else c.

Fixpoint lowercase (s : string) : string :=
  match s with
  | String c s' => String (lower c) (lowercase s')
  | EmptyString => EmptyString
  end.

(** The exponent part: [e] or [E], a sign, digits, then the end. *)
Definition read_exponent (s : string) : option Z :=
  match s with
  | EmptyString => Some 0
  | String c s' =>
      if bool_decide (lower c = "e"%char) then
        let '(neg, s1) := read_sign s' in
        match read_digits s1 0 0 with
        | (e, S _, EmptyString) => Some (if neg then - e else e)
        | _ => None
        end
      else None
  end.

Definition scale (m : Z) (k : nat) (e : Z) : float64 :=
  if Z.of_nat k <=? e then Fin (m * 10 ^ (e - Z.of_nat k)) 0
  else Fin m (Z.to_nat (Z.of_nat k - e)).

(** A decimal numeral: sign, digits, a fraction, an exponent.  A numeral
    with neither a point nor an exponent that fits int64 is an integer. *)
Definition parse_decimal (s : string) : cell :=
  let '(neg, s0) := read_sign s in
  let '(ip, ni, s1) := read_digits s0 0 0 in
  let sgn (m : Z) := if neg then - m else m in
  match s1 with
  | EmptyString =>
      match ni with
      | O => None
      | S _ => Some (if in_int64 (sgn ip) then Int (sgn ip) else Flt (Fin (sgn ip) 0))
      end
  | String "." s2 =>
      let '(m, nf, s3) := read_digits s2 ip 0 in
      match (ni + nf)%nat with
      | O => None
      | S _ => (fun e => Flt (scale (sgn m) nf e)) <$> read_exponent s3
      end
  | _ =>
      match ni with
      | O => None
      | S _ => (fun e => Flt (scale (sgn ip) 0 e)) <$> read_exponent s1
      end
  end.

Definition parse_special (s : string) : cell :=
  let '(neg, s') := read_sign (lowercase s) in
  if bool_decide (s' = "inf") || bool_decide (s' = "infinity")
  then Some (Flt (Inf neg)) else None.

Definition parse_number (s : string) : cell :=
  let t := strip s in
  match parse_decimal t with
  | Some v => Some v
  | None => parse_special t
  end.

Definition to_numeric_scalar (c : cell) : cell :=
  match c with
  | Some (Str s) => parse_number s
  | _ => c
  end.

Definition to_float (v : value) : value :=
  match v with Int z => Flt (Fin z 0) | _ => v end.

(** [pd.to_numeric(col, errors='coerce')]: a column of integers stays
    int64; a null or a float makes the whole column float64. *)
Definition to_numeric (col : list cell) : list cell :=
  let ps := to_numeric_scalar <$> col in
  if forallb is_Int ps then ps else fmap to_float <$> ps.

(** ** Errors *)

Inductive exn :=
  | KeyError
  | TypeError
  | ValueError
  | WorksheetNotFound
  | ExternalError (what : string).

Inductive result (A : Type) :=
  | Ok (a : A)
  | Raise (e : exn).
Arguments Ok {A} a.
Arguments Raise {A} e.

Global Instance result_ret : MRet result := λ A a, Ok a.
Global Instance result_bind : MBind result := λ A B f m,
  match m with
  | Ok a => f a
  | Raise e => Raise e
  end.

Definition is_Ok {A} (r : result A) : bool :=
  match r with Ok _ => true | Raise _ => false end.

Fixpoint mapR {A B} (f : A → result B) (l : list A) : result (list B) :=
  match l with
  | [] => Ok []
  | x :: l' => y ← f x; ys ← mapR f l'; Ok (y :: ys)
  end.

Fixpoint foldR {A B} (f : B → A → result B) (b : B) (l : list A) : result B :=
  match l with
  | [] => Ok b
  | x :: l' => b' ← f b x; foldR f b' l'
  end.

(** ** Metric coercion: [.round(4)] and [.fillna(0).astype('Int64')] *)

(** [m / d] rounded to the nearest integer, halves to the even one. *)
Definition round_half_even (m d : Z) : Z :=
  let q := m / d in
  let r := m mod d in
  if 2 * r <? d then q
  else if d <? 2 * r then q + 1
  else if Z.even q then q else q + 1.

Definition round4 (x : float64) : float64 :=
  match x with
  | Fin m k =>
      if (k <=? 4)%nat then Fin m k
      else Fin (round_half_even m (10 ^ Z.of_nat (k - 4))) 4
  | Inf neg => Inf neg
  end.

(** [Series.round(4)]: an int64 column is left as it is, nulls stay null. *)
Definition round_cell (c : cell) : cell :=
  match c with
  | Some (Flt x) => Some (Flt (round4 x))
  | _ => c
  end.

(** [Series.fillna(0)]; a null only occurs in a float64 column. *)
Definition fillna0 (c : cell) : cell :=
  match c with
  | None => Some (Flt (Fin 0 0))
  | _ => c
  end.

(** [astype('Int64')] on one value: a float that is no int64 is the
    [TypeError] "cannot safely cast non-equivalent float64 to int64". *)
Definition astype_Int64 (c : cell) : result cell :=
  match c with
  | None => Ok None
  | Some (Int z) => Ok (Some (Int z))
  | Some (Flt (Fin m k)) =>
      let d := 10 ^ Z.of_nat k in
      if (m mod d =? 0) && in_int64 (m / d) then Ok (Some (Int (m / d)))
      else Raise TypeError
  | Some (Flt (Inf _)) => Raise TypeError
  | Some (Str _) => Raise ValueError
  end.

Definition ratio_metrics : list string := ["bounceRate"; "averageSessionDuration"].

(** ** Dates: [pd.to_datetime(..., format='%Y%m%d', errors='coerce')] and
    [.dt.strftime('%Y-%m-%d')] *)

Definition is_leap (y : Z) : bool :=
  ((y mod 4 =? 0) && negb (y mod 100 =? 0)) || (y mod 400 =? 0).

Definition days_in_month (y m : Z) : Z :=
  if m =? 2 then (if is_leap y then 29 else 28)
  else if (m =? 4) || (m =? 6) || (m =? 9) || (m =? 11) then 30
  else 31.

Definition valid_date (y m d : Z) : bool :=
  (1 <=? y) && (y <=? 9999) && (1 <=? m) && (m <=? 12)
  && (1 <=? d) && (d <=? days_in_month y m).

(** Reads exactly [n] digits. *)
Fixpoint read_fixed (n : nat) (s : string) (acc : Z) : option (Z * string) :=
  match n with
  | O => Some (acc, s)
  | S n' =>
      match s with
      | String c s' => d ← digit c; read_fixed n' s' (10 * acc + d)
      | EmptyString => None
      end
  end.

(** The compact form: four digits of year, two of month, two of day. *)
Definition strptime_Ymd (s : string) : option (Z * Z * Z) :=
  '(y, s1) ← read_fixed 4 s 0;
  '(m, s2) ← read_fixed 2 s1 0;
  '(d, s3) ← read_fixed 2 s2 0;
  if bool_decide (s3 = "") && valid_date y m d then Some (y, m, d) else None.

Definition digit_char (d : Z) : ascii := ascii_of_nat (48 + Z.to_nat d).

Definition pad2 (n : Z) : string :=
  String (digit_char (n / 10 mod 10)) (String (digit_char (n mod 10)) "").

Definition pad4 (n : Z) : string :=
  String (digit_char (n / 1000 mod 10))
    (String (digit_char (n / 100 mod 10)) (pad2 n)).

Definition compact_date (y m d : Z) : string := pad4 y +:+ pad2 m +:+ pad2 d.

Definition strftime_iso (t : Z * Z * Z) : string :=
  let '(y, m, d) := t in pad4 y +:+ "-" +:+ pad2 m +:+ "-" +:+ pad2 d.

(** One value of the column: [None] is [NaT].  An integer is read through
    its decimal text; a float never has the compact form. *)
Definition to_datetime (c : cell) : option (Z * Z * Z) :=
  match c with
  | Some (Str s) => strptime_Ymd s
  | Some (Int z) => strptime_Ymd (pretty z)
  | _ => None
  end.

Definition format_date (c : cell) : cell := Str ∘ strftime_iso <$> to_datetime c.

(** ** Data frames *)

Record DataFrame := mkDF { columns : list string; rows : list row }.

Global Instance DataFrame_eq_dec : EqDecision DataFrame.
Proof. solve_decision. Defined.

(** [pd.DataFrame()] *)
Definition empty_frame : DataFrame := mkDF [] [].

(** [df.empty]: some axis has length 0. *)
Definition empty (df : DataFrame) : bool :=
  match columns df, rows df with
  | [], _ | _, [] => true
  | _, _ => false
  end.

(** ['c' in df.columns] *)
Definition has_column (c : string) (df : DataFrame) : bool :=
  bool_decide (c ∈ columns df).

(** [df[c]], for a label of the frame. *)
Definition column (c : string) (df : DataFrame) : list cell :=
  (λ r : row, r !! c) <$> rows df.

Definition set_cell (c : string) (v : cell) (r : row) : row :=
  match v with
  | Some x => <[c := x]> r
  | None => delete c r
  end.

(** [df[c] = vals], for a label of the frame and one value per row. *)
Definition set_column (c : string) (vals : list cell) (df : DataFrame) : DataFrame :=
  mkDF (columns df) (zip_with (set_cell c) vals (rows df)).

(** [df.insert(loc, c, v)] with a scalar [v]; a label that is already
    there is a [ValueError]. *)
Definition insert_column (loc : nat) (c : string) (v : value) (df : DataFrame)
    : result DataFrame :=
  if has_column c df then Raise ValueError
  else Ok (mkDF (take loc (columns df) ++ c :: drop loc (columns df))
                (insert c v <$> rows df)).

(** [pd.DataFrame(data, columns=cols)] for rows of API strings: the widest
    row must have as many values as there are labels; a shorter row is
    filled with nulls. *)
Definition make_row (cols : list string) (vals : list string) : row :=
  list_to_map (zip cols (Str <$> vals)).

Definition DataFrame_of (data : list (list string)) (cols : list string)
    : result DataFrame :=
  if bool_decide (max_list (length <$> data) = length cols)
  then Ok (mkDF cols (make_row cols <$> data))
  else Raise ValueError.

(** ** [format_dataframe] *)

(** One turn of the loop over [metrics]. Reading [df[metric]] for a label
    that is not in the frame is a [KeyError]. *)
Definition convert_metric (df : DataFrame) (metric : string) : result DataFrame :=
  if has_column metric df then
    let col := to_numeric (column metric df) in
    if bool_decide (metric ∈ ratio_metrics) then
      Ok (set_column metric (round_cell <$> col) df)
    else
      vals ← mapR astype_Int64 (fillna0 <$> col);
      Ok (set_column metric vals df)
  else Raise KeyError.

(** [now] is the text of [datetime.now().strftime('%Y-%m-%d %H:%M:%S')]. *)
Definition format_dataframe (now : string) (df : DataFrame)
    (dimensions metrics : list string) : result DataFrame :=
  if empty df then Ok df
  else
    let df1 :=
      if has_column "date" df
      then set_column "date" (format_date <$> column "date" df) df
      else df in
    df2 ← foldR convert_metric df1 metrics;
    df3 ← insert_column 0 "last_updated" (Str now) df2;
    insert_column 1 "data_freshness" (Str "live") df3.

(** ** The world around a sync run *)

(** The calls the program makes on the spreadsheet service. *)
Inductive sheet_call :=
  | OpenByKey
  | GetWorksheet
  | AddWorksheet
  | ReadAll
  | Clear
  | Write (df : DataFrame)
  | FormatHeader
  | AutoResize.

Inductive level := INFO | WARNING | ERROR.

(** The destination worksheet holds a table; [calls] and [log] record, in
    order, the calls made on the service and the log lines. *)
Record World := mkWorld {
  sheet : DataFrame;
  calls : list sheet_call;
  log : list (level * string)
}.

Inductive lookup_outcome :=
  | Found
  | Missing
  | LookupFails (e : exn).

(** What the collaborators answer during one run: [None] and [Ok] are a
    call that succeeds, [Some e] and [Raise e] one that raises [e]. *)
Record Env := mkEnv {
  now : string;
  setup : option exn;
  run_report : result (list (list string * list string));
  open_by_key : option exn;
  worksheet : lookup_outcome;
  add_worksheet : option exn;
  get_as_dataframe : option exn;
  clear : option exn;
  set_with_dataframe : option exn;
  format : option exn;
  columns_auto_resize : option exn
}.

(** State and exceptions; the state reached when an exception is raised is
    kept. *)
Definition M (A : Type) : Type := World → result A * World.

Global Instance M_ret : MRet M := λ A a w, (Ok a, w).
Global Instance M_bind : MBind M := λ A B f m w,
  match m w with
  | (Ok a, w') => f a w'
  | (Raise e, w') => (Raise e, w')
  end.

Definition raise {A} (e : exn) : M A := λ w, (Raise e, w).

Definition lift {A} (r : result A) : M A := λ w, (r, w).

(** [try: body except Exception as e: handler e] *)
Definition try_except {A} (body : M A) (handler : exn → M A) : M A := λ w,
  match body w with
  | (Ok a, w') => (Ok a, w')
  | (Raise e, w') => handler e w'
  end.

Definition logger (l : level) (msg : string) : M unit := λ w,
  (Ok (), mkWorld (sheet w) (calls w) (log w ++ [(l, msg)])).

(** A call on the spreadsheet service: it is recorded, then it either
    raises or has its effect on the worksheet. *)
Definition sheet_op (c : sheet_call) (outcome : option exn)
    (effect : DataFrame → DataFrame) : M unit := λ w,
  let cs := calls w ++ [c] in
  match outcome with
  | Some e => (Raise e, mkWorld (sheet w) cs (log w))
  | None => (Ok (), mkWorld (effect (sheet w)) cs (log w))
  end.

Definition read_sheet : M DataFrame := λ w, (Ok (sheet w), w).

(** ** The fetcher *)

Definition default_dimensions : list string :=
  ["date"; "country"; "deviceCategory"; "sessionSource"].

Definition default_metrics : list string :=
  ["sessions"; "totalUsers"; "newUsers"; "bounceRate";
   "averageSessionDuration"; "screenPageViews"; "conversions"].

(** [fetch_ga4_data]. The request only selects the response, which [env]
    holds: one pair of dimension values and metric values per row. *)
Definition fetch_ga4_data (env : Env) (dimensions metrics : option (list string))
    : M DataFrame :=
  _ ← logger INFO "Fetching GA4 data";
  let dimensions := default default_dimensions dimensions in
  let metrics := default default_metrics metrics in
  try_except
    (response ← lift (run_report env);
     match response with
     | [] =>
         _ ← logger WARNING "No data returned from GA4 API";
         mret empty_frame
     | _ =>
         let data := (λ r : list string * list string, r.1 ++ r.2) <$> response in
         let columns := dimensions ++ metrics in
         df ← lift (DataFrame_of data columns);
         df ← lift (format_dataframe (now env) df dimensions metrics);
         _ ← logger INFO "Fetched rows of data";
         mret df
     end)
    (λ e, _ ← logger ERROR "Error fetching GA4 data"; raise e).

(** ** Sorting: [final_df.sort_values('date', ascending=False)] *)

Global Instance value_inhabited : Inhabited value := populate (Int 0).

Definition value_le (a b : value) : Prop := value_leb a b = Some true.

(** Sorting a column of strings and numbers is a [TypeError]; a column of
    one kind is sorted. *)
Definition comparable (ks : list value) : bool :=
  forallb (negb ∘ is_num) ks || forallb is_num ks.

(** [ndarray.argsort(kind='quicksort')], the kind [sort_values] uses when
    none is given: the indexes of the keys in ascending order of the keys.
    The library documents this kind as not stable, so the order among equal
    keys is left open; the model takes any routine that returns the indexes
    in ascending order of their keys. *)
Class ArgSort := {
  argsort : list value → list nat;
  argsort_perm ks : argsort ks ≡ₚ seq 0 (length ks);
  argsort_sorted ks :
    comparable ks = true → Sorted value_le ((λ i, ks !!! i) <$> argsort ks)
}.

(** The keys that are not null with their positions, and the positions of
    the nulls ([items[~mask]], [idx[~mask]] and [np.nonzero(mask)]). *)
Fixpoint split_nulls (i : nat) (keys : list cell) : list (nat * value) * list nat :=
  match keys with
  | [] => ([], [])
  | c :: keys' =>
      let '(non_nan, nan_idx) := split_nulls (S i) keys' in
      match c with
      | Some v => ((i, v) :: non_nan, nan_idx)
      | None => (non_nan, i :: nan_idx)
      end
  end.

(** [nargsort(items, kind='quicksort', ascending=False, na_position='last')]:
    the keys are reversed, sorted in ascending order, and the result is
    reversed; the nulls come last, in their order. *)
Definition nargsort `{ArgSort} (keys : list cell) : list nat :=
  let '(non_nan, nan_idx) := split_nulls 0 keys in
  let non_nans := reverse (non_nan.*2) in
  let non_nan_idx := reverse (non_nan.*1) in
  let indexer := (λ j, non_nan_idx !!! j) <$> argsort non_nans in
  reverse indexer ++ nan_idx.

Definition sort_values `{ArgSort} (key : string) (df : DataFrame) : result DataFrame :=
  let keys := column key df in
  if comparable (omap id keys)
  then Ok (mkDF (columns df) ((λ i, rows df !!! i) <$> nargsort keys))
  else Raise TypeError.

(** ** The reconciler *)

(** [Series.unique()]: the values in order of first appearance. *)
Fixpoint unique_go (seen : list cell) (l : list cell) : list cell :=
  match l with
  | [] => []
  | c :: l' =>
      if cell_in c seen then unique_go seen l'
      else c :: unique_go (c :: seen) l'
  end.

Definition unique (l : list cell) : list cell := unique_go [] l.

(** [df.dropna(how='all')] and [df.dropna(axis=1, how='all')] *)
Definition dropna_rows (df : DataFrame) : DataFrame :=
  mkDF (columns df)
       (filter (λ r : row, existsb (λ c, bool_decide (is_Some (r !! c))) (columns df))
               (rows df)).

Definition dropna_columns (df : DataFrame) : DataFrame :=
  mkDF (filter (λ c, existsb (λ r : row, bool_decide (is_Some (r !! c))) (rows df))
               (columns df))
       (rows df).

(** Lines 211 to 220: the rows of the sheet whose date is also a date of
    the new rows are dropped. *)
Definition drop_duplicate_dates (df existing_df : DataFrame) : DataFrame :=
  if negb (empty existing_df) && has_column "date" df && has_column "date" existing_df
  then
    let new_dates := unique (column "date" df) in
    let existing_dates := unique (column "date" existing_df) in
    let duplicate_dates := filter (λ d, cell_in d existing_dates) new_dates in
    match duplicate_dates with
    | [] => existing_df
    | _ =>
        mkDF (columns existing_df)
             (filter (λ r : row, negb (cell_in (r !! "date") duplicate_dates))
                     (rows existing_df))
    end
  else existing_df.

(** [pd.concat([a, b], ignore_index=True)]: the labels of [a], then the
    labels only [b] has; a row has nulls at the labels it did not have. *)
Definition concat (a b : DataFrame) : DataFrame :=
  mkDF (columns a ++ filter (λ c, c ∉ columns a) (columns b)) (rows a ++ rows b).

(** Lines 222 to 228 *)
Definition combine (df existing_df : DataFrame) : DataFrame :=
  if empty existing_df then df else concat df existing_df.

(** Lines 230 to 232 *)
Definition sort_by_date `{ArgSort} (final_df : DataFrame) : result DataFrame :=
  if has_column "date" final_df then sort_values "date" final_df else Ok final_df.

(** ** The writer *)

Definition format_sheet_header (env : Env) : M unit :=
  try_except
    (_ ← sheet_op FormatHeader (format env) id;
     sheet_op AutoResize (columns_auto_resize env) id)
    (λ e, logger WARNING "Header formatting failed").

Definition get_existing_sheet_data (env : Env) : M DataFrame :=
  try_except
    (_ ← logger INFO "Reading existing sheet data";
     _ ← sheet_op ReadAll (get_as_dataframe env) id;
     existing_df ← read_sheet;
     let existing_df := dropna_rows existing_df in
     let existing_df := dropna_columns existing_df in
     if empty existing_df then
       _ ← logger INFO "Sheet is empty";
       mret empty_frame
     else
       _ ← logger INFO "Found existing rows";
       mret existing_df)
    (λ e, _ ← logger WARNING "Could not read existing data"; mret empty_frame).

Definition get_worksheet (env : Env) : M unit :=
  sheet_op GetWorksheet
    match worksheet env with
    | Found => None
    | Missing => Some WorksheetNotFound
    | LookupFails e => Some e
    end id.

(** With a name, a worksheet that is not found is created; without one the
    first worksheet is taken. [worksheet_name] is [None] for a Python value
    that is [None] or the empty string, which [if worksheet_name:] treats
    alike. *)
Definition select_worksheet (env : Env) (worksheet_name : option string) : M unit :=
  match worksheet_name with
  | Some _ =>
      try_except (get_worksheet env)
        (λ e, match e with
              | WorksheetNotFound =>
                  _ ← logger INFO "Creating new worksheet";
                  sheet_op AddWorksheet (add_worksheet env) (λ _, empty_frame)
              | _ => raise e
              end)
  | None => get_worksheet env
  end.

Definition update_google_sheet `{ArgSort} (env : Env) (df : DataFrame)
    (worksheet_name : option string) : M unit :=
  if empty df then logger WARNING "No data to update"
  else
    try_except
      (_ ← sheet_op OpenByKey (open_by_key env) id;
       _ ← select_worksheet env worksheet_name;
       _ ← logger INFO "Opened Google Sheet";
       existing_df ← get_existing_sheet_data env;
       let existing_df := drop_duplicate_dates df existing_df in
       let final_df := combine df existing_df in
       final_df ← lift (sort_by_date final_df);
       _ ← sheet_op Clear (clear env) (λ _, empty_frame);
       _ ← sheet_op (Write final_df) (set_with_dataframe env) (λ _, final_df);
       _ ← format_sheet_header env;
       logger INFO "Successfully updated Google Sheet")
      (λ e, _ ← logger ERROR "Error updating Google Sheet"; raise e).

(** ** The driver *)

Definition setup_clients (env : Env) : M unit :=
  _ ← logger INFO "Setting up clients";
  match setup env with
  | Some e => raise e
  | None => mret ()
  end.

Definition sync_data `{ArgSort} (env : Env) (dimensions metrics : option (list string))
    (worksheet_name : option string) : M unit :=
  _ ← logger INFO "Starting GA4 to Google Sheets sync";
  try_except
    (_ ← setup_clients env;
     df ← fetch_ga4_data env dimensions metrics;
     if empty df then logger INFO "No data to sync"
     else
       _ ← update_google_sheet env df worksheet_name;
       logger INFO "Sync completed successfully")
    (λ e, _ ← logger ERROR "Sync failed"; raise e).

(** ** [main] and [continuous_sync] *)

(** The two lists of [CONFIG]; its worksheet name is [None]. The identifiers
    of the property and of the spreadsheet, and the date range, select what
    the collaborators answer, which [env] holds. What [main] prints is left
    out. *)
Definition CONFIG_DIMENSIONS : list string :=
  ["date"; "country"; "deviceCategory"; "sessionSource"; "sessionMedium"].

Definition CONFIG_METRICS : list string :=
  ["sessions"; "totalUsers"; "newUsers"; "bounceRate"; "averageSessionDuration";
   "screenPageViews"; "conversions"; "totalRevenue"].

Definition main `{ArgSort} (env : Env) : M unit :=
  try_except
    (sync_data env (Some CONFIG_DIMENSIONS) (Some CONFIG_METRICS) None)
    (λ e, logger ERROR "Application failed").

(** The loop of [continuous_sync]: one turn for each element of [runs], which
    holds what the collaborators answer during that turn. The end of [runs]
    is the [KeyboardInterrupt] that arrives while the loop sleeps. *)
Fixpoint continuous_sync_loop `{ArgSort} (runs : list Env) : M unit :=
  match runs with
  | [] => logger INFO "Continuous sync stopped by user"
  | env :: runs' =>
      _ ← try_except
            (_ ← main env;
             logger INFO "Waiting for next sync")
            (λ e, _ ← logger ERROR "Error in continuous sync";
                  logger INFO "Waiting before retry");
      continuous_sync_loop runs'
  end.

Definition continuous_sync `{ArgSort} (runs : list Env) : M unit :=
  _ ← logger INFO "Starting continuous sync";
  continuous_sync_loop runs.

(** ** [get_credentials] *)

Inductive Credentials :=
  | from_service_account_info (creds_json : string)
  | from_service_account_file (path : string).

(** The host of the program as [get_credentials] sees it: the value of
    GOOGLE_CREDENTIALS_JSON, whether [json.loads] reads a text, the paths that
    exist, the path [os.path.join(os.getcwd(), "credentials.json")], and what
    the two constructors of the library raise, if anything. *)
Record Host := mkHost {
  getenv : option string;
  json_loads : string → bool;
  info_raises : string → option exn;
  path_exists : string → bool;
  file_raises : string → option exn;
  cwd_credentials : string
}.

Definition local_paths (h : Host) : list string :=
  ["credentials.json"; "service_account.json"; "C:\GA4_Project\credentials.json";
   cwd_credentials h].

(** The loop over [local_paths], and the [ValueError] after it. *)
Fixpoint first_local_file (h : Host) (paths : list string) : M Credentials :=
  match paths with
  | [] => raise ValueError
  | path :: paths' =>
      if path_exists h path then
        _ ← logger INFO "Using local credentials file";
        match file_raises h path with
        | Some e => raise e
        | None => mret (from_service_account_file path)
        end
      else first_local_file h paths'
  end.

(** [if creds_json:] holds for a variable that is set and not empty; a
    [JSONDecodeError] is a [ValueError]. *)
Definition get_credentials (h : Host) : M Credentials :=
  _ ← logger INFO "Getting credentials";
  match getenv h with
  | Some (String c s as creds_json) =>
      _ ← logger INFO "Using credentials from environment variable";
      if json_loads h creds_json then
        match info_raises h creds_json with
        | Some e => raise e
        | None => mret (from_service_account_info creds_json)
        end
      else
        _ ← logger ERROR "Error parsing GOOGLE_CREDENTIALS_JSON";
        raise ValueError
  | _ => first_local_file h (local_paths h)
  end.

(** ** Two sorting routines that meet [ArgSort]

    Both insert the indexes, last to first, into a sorted list. The first
    puts an index before the indexes of equal keys, which keeps ties in
    their order; the second puts it after them, which reverses ties. *)

Fixpoint insert_index (before : nat → nat → bool) (i : nat) (l : list nat) : list nat :=
  match l with
  | [] => [i]
  | j :: l' => if before i j then i :: l else j :: insert_index before i l'
  end.

Definition insertion_argsort (before : value → value → bool) (ks : list value)
    : list nat :=
  foldr (insert_index (λ i j, before (ks !!! i) (ks !!! j))) [] (seq 0 (length ks)).

Definition before_or_equal (a b : value) : bool := default false (value_leb a b).
Definition strictly_before (a b : value) : bool := negb (default true (value_leb b a)).

(** * The vocabulary of the properties *)

Definition float_le (x y : float64) : Prop := float_compare x y ≠ Gt.

(** The descending order of date cells, nulls last: [date_ge a b] reads
    "[a] may come before [b]". *)
Definition date_ge (a b : cell) : Prop :=
  match b with
  | None => True
  | Some y => ∃ x, a = Some x ∧ value_le y x
  end.

(** The rows of the sheet that survive lines 211 to 220. *)
Definition surviving (df existing_df : DataFrame) : list row :=
  filter (λ r : row, negb (cell_in (r !! "date") (column "date" df))) (rows existing_df).

(** The rows of each date are in the order they had before the sort. *)
Definition ties_kept (final_df out : DataFrame) : Prop :=
  ∀ d : cell,
    filter (λ r : row, r !! "date" = d) (rows out)
    = filter (λ r : row, r !! "date" = d) (rows final_df).

(** The value a cell has after [to_numeric]: read as a number, and made a
    float when the column is not one of integers. *)
Definition numeric_of (x n : cell) : Prop :=
  n = to_numeric_scalar x ∨ n = to_float <$> to_numeric_scalar x.

Definition is_Int_cell (c : cell) : Prop := ∃ z, c = Some (Int z).

(** A value of a ratio column after the conversion: null, an integer, an
    infinity, or a number of at most four decimal digits. *)
Definition rounded (c : cell) : Prop :=
  match c with
  | None | Some (Int _) | Some (Flt (Inf _)) => True
  | Some (Flt (Fin _ k)) => (k ≤ 4)%nat
  | Some (Str _) => False
  end.

(** A source value that is no number is, at each turn of the loop, still no
    number, or already the 0 of a count column. *)
Definition count_source (x y : cell) : Prop :=
  to_numeric_scalar x = None → to_numeric_scalar y = None ∨ y = Some (Int 0).

(** The same for a ratio column, where it ends as a null. *)
Definition ratio_source (x y : cell) : Prop :=
  to_numeric_scalar x = None → to_numeric_scalar y = None.

(** Lines 149 to 151 *)
Definition format_date_column (df : DataFrame) : DataFrame :=
  if has_column "date" df
  then set_column "date" (format_date <$> column "date" df) df
  else df.

(** The value [y] of a count column for the source value [src]: the number
    read from [src], 0 for a null, cast to an integer. *)
Definition parsed_as_integer (src y : cell) : Prop :=
  ∃ n, numeric_of src n ∧ astype_Int64 (fillna0 n) = Ok y.

(** The value [y] of a ratio column for the source value [src]: the number
    read from [src], rounded to four decimal digits. *)
Definition parsed_and_rounded (src y : cell) : Prop :=
  ∃ n, numeric_of src n ∧ y = round_cell n.

(** Two frames that differ at most in the values of the 'date' column. *)
Definition same_but_date (a b : DataFrame) : Prop :=
  columns a = columns b
  ∧ length (rows a) = length (rows b)
  ∧ ∀ c, c ≠ "date" → column c a = column c b.

Definition same_outcome (x y : result DataFrame) : Prop :=
  match x, y with
  | Ok a, Ok b => same_but_date a b
  | Raise e, Raise e' => e = e'
  | _, _ => False
  end.

(** What [get_existing_sheet_data] returns for a worksheet that holds [sh]. *)
Definition existing_of (env : Env) (sh : DataFrame) : DataFrame :=
  match get_as_dataframe env with
  | Some _ => empty_frame
  | None =>
      let existing_df := dropna_columns (dropna_rows sh) in
      if empty existing_df then empty_frame else existing_df
  end.

(** The exception, if any, of selecting the worksheet. *)
Definition select_outcome (env : Env) (worksheet_name : option string) : option exn :=
  match worksheet env, worksheet_name with
  | Found, _ => None
  | Missing, Some _ => add_worksheet env
  | Missing, None => Some WorksheetNotFound
  | LookupFails WorksheetNotFound, Some _ => add_worksheet env
  | LookupFails e, _ => Some e
  end.

(** The outcome of [update_google_sheet] for a non-empty record set, read off
    the answers of the service: the record set that is written, or the first
    exception raised. *)
Definition update_outcome `{ArgSort} (env : Env) (df : DataFrame)
    (worksheet_name : option string) (sh : DataFrame) : result DataFrame :=
  match open_by_key env with
  | Some e => Raise e
  | None =>
      match select_outcome env worksheet_name with
      | Some e => Raise e
      | None =>
          let sh :=
            match worksheet env, worksheet_name with
            | Found, _ => sh
            | _, _ => empty_frame
            end in
          let existing_df := drop_duplicate_dates df (existing_of env sh) in
          match sort_by_date (combine df existing_df) with
          | Raise e => Raise e
          | Ok final_df =>
              match clear env with
              | Some e => Raise e
              | None =>
                  match set_with_dataframe env with
                  | Some e => Raise e
                  | None => Ok final_df
                  end
              end
          end
      end
  end.

(** What [fetch_ga4_data] returns or raises, read off the response. *)
Definition fetch_outcome (env : Env) (dimensions metrics : option (list string))
    : result DataFrame :=
  let dimensions := default default_dimensions dimensions in
  let metrics := default default_metrics metrics in
  response ← run_report env;
  match response with
  | [] => Ok empty_frame
  | _ =>
      df ← DataFrame_of ((λ r : list string * list string, r.1 ++ r.2) <$> response)
                        (dimensions ++ metrics);
      format_dataframe (now env) df dimensions metrics
  end.

(** The same answers of the collaborators, but for the two calls that format
    the header. *)
Definition with_formatting (env : Env) (f r : option exn) : Env :=
  mkEnv (now env) (setup env) (run_report env) (open_by_key env) (worksheet env)
        (add_worksheet env) (get_as_dataframe env) (clear env)
        (set_with_dataframe env) f r.

(** A value as the API gives it: a string, or nothing. *)
Definition raw_cell (c : cell) : Prop := c = None ∨ is_Str c = true.

(** A source value a count column accepts: nothing, a text that is no
    number, or a number that is an integer of 64 bits. *)
Definition castable (x : cell) : bool :=
  match to_numeric_scalar x with
  | Some (Flt (Fin m k)) =>
      (m mod 10 ^ Z.of_nat k =? 0) && in_int64 (m / 10 ^ Z.of_nat k)
  | Some (Flt (Inf _)) => false
  | _ => true
  end.

(** A row with a value under one of the labels, and a label with a value in
    one of the rows. *)
Definition has_value (cols : list string) (r : row) : Prop :=
  ∃ c, c ∈ cols ∧ is_Some (r !! c).

Definition holds_value (rs : list row) (c : string) : Prop :=
  ∃ r : row, r ∈ rs ∧ is_Some (r !! c).

(** Lines 211 to 228: the record set of the new rows and the rows of the
    sheet, before it is sorted. *)
Definition reconcile (df existing_df : DataFrame) : DataFrame :=
  combine df (drop_duplicate_dates df existing_df).

(** Every value of a row is under a label of the record set. *)
Definition well_formed (df : DataFrame) : Prop :=
  ∀ (r : row) c, r ∈ rows df → is_Some (r !! c) → c ∈ columns df.

(** The rows of one date come from one fetch: they carry the same
    'last_updated'. *)
Definition one_fetch_per_date (df : DataFrame) : Prop :=
  ∀ (r1 r2 : row) s, r1 ∈ rows df → r2 ∈ rows df →
    r1 !! "date" = Some (Str s) → r2 !! "date" = Some (Str s) →
    r1 !! "last_updated" = r2 !! "last_updated".

(** The loop of [continuous_sync] without its handler for the exceptions of
    a turn. *)
Fixpoint loop_without_retry `{ArgSort} (runs : list Env) : M unit :=
  match runs with
  | [] => logger INFO "Continuous sync stopped by user"
  | env :: runs' =>
      _ ← main env;
      _ ← logger INFO "Waiting for next sync";
      loop_without_retry runs'
  end.

(** * Sample record sets, responses and answers of the service *)

(** A report of one day with eighteen rows. *)
Definition day_report : DataFrame :=
  mkDF ["date"; "sessions"]
       ((λ n : nat, ({[ "date" := Str "2024-01-03";
                        "sessions" := Int (Z.of_nat n) ]} : row)) <$> seq 0 18).

(** A report of three days, oldest first, one row without a date. *)
Definition three_days : DataFrame :=
  mkDF ["date"; "sessions"]
       [ {[ "date" := Str "2024-01-01"; "sessions" := Int 7 ]};
         {[ "date" := Str "2024-01-02"; "sessions" := Int 5 ]};
         {[ "sessions" := Int 1 ]};
         {[ "date" := Str "2024-01-03"; "sessions" := Int 9 ]} ].

(** A response of three rows: a negative count, a count and a ratio that are
    no numbers, an empty ratio, an infinite ratio, and a date that is no
    date. *)
Definition report : list (list string * list string) :=
  [ (["20240315"; "US"], ["-5"; "0.456789"]);
    (["20240314"; "DE"], ["abc"; ""]);
    (["(other)"; "FR"], ["12"; "inf"]) ].

(** The record set [fetch_ga4_data] builds from [report] before it formats
    it. *)
Definition raw_report : DataFrame :=
  let cols := ["date"; "country"; "sessions"; "bounceRate"] in
  mkDF cols (make_row cols <$> ((λ r : list string * list string, r.1 ++ r.2) <$> report)).

Definition quiet_env (response : list (list string * list string)) : Env :=
  mkEnv "2024-03-16 08:00:00" None (Ok response) None Found None None None None None None.

Definition fresh_world : World := mkWorld empty_frame [] [].

(** Three rows fetched for 2024-01-03 and 2024-01-04. *)
Definition new_rows : DataFrame :=
  mkDF ["date"; "sessions"]
       [ {[ "date" := Str "2024-01-03"; "sessions" := Int 9 ]};
         {[ "date" := Str "2024-01-04"; "sessions" := Int 4 ]};
         {[ "date" := Str "2024-01-03"; "sessions" := Int 2 ]} ].

(** A sheet with rows for 2024-01-01 to 2024-01-03. *)
Definition old_sheet : DataFrame :=
  mkDF ["date"; "sessions"]
       [ {[ "date" := Str "2024-01-03"; "sessions" := Int 1 ]};
         {[ "date" := Str "2024-01-02"; "sessions" := Int 5 ]};
         {[ "date" := Str "2024-01-01"; "sessions" := Int 7 ]} ].

(** The service answers every call but the read of the sheet. *)
Definition read_fails_env : Env :=
  mkEnv "2024-03-16 08:00:00" None (Ok []) None Found None
        (Some (ExternalError "read")) None None None None.

(** The service clears the sheet, and then fails to write it. *)
Definition write_fails_env : Env :=
  mkEnv "2024-03-16 08:00:00" None (Ok []) None Found None None None
        (Some (ExternalError "write")) None None.

(** * Properties *)

(** ** The readers on examples *)

Example parse_number_int : parse_number "42" = Some (Int 42).
Proof. reflexivity. Qed.
Example parse_number_neg : parse_number "-5" = Some (Int (-5)).
Proof. reflexivity. Qed.
Example parse_number_frac : parse_number "0.45678" = Some (Flt (Fin 45678 5)).
Proof. reflexivity. Qed.
Example parse_number_exp : parse_number "1.5e3" = Some (Flt (Fin 1500 0)).
Proof. reflexivity. Qed.
Example parse_number_bad : parse_number "abc" = None.
Proof. reflexivity. Qed.
Example parse_number_empty : parse_number "" = None.
Proof. reflexivity. Qed.
Example parse_number_inf : parse_number "-Infinity" = Some (Flt (Inf true)).
Proof. reflexivity. Qed.

Example format_date_20240315 :
  format_date (Some (Str "20240315")) = Some (Str "2024-03-15").
Proof. reflexivity. Qed.
Example format_date_feb30 : format_date (Some (Str "20240230")) = None.
Proof. reflexivity. Qed.
Example format_date_text : format_date (Some (Str "(other)")) = None.
Proof. reflexivity. Qed.

(** ** The order on values *)

Lemma pow10_pos (k : nat) : 0 < 10 ^ Z.of_nat k.
Proof. apply Z.pow_pos_nonneg; lia. Qed.

Lemma float_compare_refl x : float_compare x x = Eq.
Proof. destruct x as [m k|[]]; simpl; auto using Z.compare_refl. Qed.

Lemma float_compare_antisym x y : float_compare y x = CompOpp (float_compare x y).
Proof.
  destruct x as [m k|[]], y as [n j|[]]; simpl; auto using Z.compare_antisym.
Qed.

Lemma fin_le_trans m1 k1 m2 k2 m3 k3 :
  m1 * 10 ^ Z.of_nat k2 ≤ m2 * 10 ^ Z.of_nat k1 →
  m2 * 10 ^ Z.of_nat k3 ≤ m3 * 10 ^ Z.of_nat k2 →
  m1 * 10 ^ Z.of_nat k3 ≤ m3 * 10 ^ Z.of_nat k1.
Proof.
  pose proof (pow10_pos k1). pose proof (pow10_pos k2). pose proof (pow10_pos k3).
  generalize dependent (10 ^ Z.of_nat k1). generalize dependent (10 ^ Z.of_nat k2).
  generalize dependent (10 ^ Z.of_nat k3). intros c Hc b Hb a Ha H1 H2.
  apply (Z.mul_le_mono_pos_l _ _ b); [done|].
  transitivity (a * (m2 * c)).
  - replace (b * (m1 * c)) with (c * (m1 * b)) by ring.
    replace (a * (m2 * c)) with (c * (m2 * a)) by ring.
    apply Z.mul_le_mono_nonneg_l; lia.
  - replace (b * (m3 * a)) with (a * (m3 * b)) by ring.
    apply Z.mul_le_mono_nonneg_l; lia.
Qed.

Lemma float_le_fin m k n j :
  float_le (Fin m k) (Fin n j) ↔ m * 10 ^ Z.of_nat j ≤ n * 10 ^ Z.of_nat k.
Proof. unfold float_le; simpl. rewrite Z.compare_le_iff. done. Qed.

Lemma float_le_trans x y z : float_le x y → float_le y z → float_le x z.
Proof.
  destruct x as [m1 k1|[]], y as [m2 k2|[]], z as [m3 k3|[]];
    rewrite ?float_le_fin; try (unfold float_le; simpl; congruence).
  apply fin_le_trans.
Qed.

Lemma float_le_total x y : float_le x y ∨ float_le y x.
Proof.
  unfold float_le. rewrite (float_compare_antisym x y).
  destruct (float_compare x y); simpl; auto.
Qed.

Lemma float_compare_eq x y : float_compare x y = Eq ↔ float_le x y ∧ float_le y x.
Proof.
  unfold float_le. rewrite (float_compare_antisym x y).
  destruct (float_compare x y); simpl; naive_solver.
Qed.

Lemma value_le_num a b x y :
  as_float a = Some x → as_float b = Some y → value_le a b ↔ float_le x y.
Proof.
  unfold value_le, value_leb, float_le.
  destruct a, b; cbn -[float_compare]; intros; simplify_eq;
    destruct (float_compare _ _); naive_solver.
Qed.

Lemma value_le_str s t : value_le (Str s) (Str t) ↔ String.le s t.
Proof.
  unfold value_le, String.le; simpl. destruct (String.leb s t); naive_solver.
Qed.

Lemma value_le_kind a b : value_le a b → is_num a = is_num b.
Proof. unfold value_le. destruct a, b; simpl; congruence. Qed.

Lemma is_num_as_float a : is_num a = true → ∃ x, as_float a = Some x.
Proof. destruct a; simpl; eauto; congruence. Qed.

Global Instance value_le_trans : Transitive value_le.
Proof.
  intros a b c Hab Hbc.
  pose proof (value_le_kind _ _ Hab) as K1. pose proof (value_le_kind _ _ Hbc) as K2.
  destruct (is_num b) eqn:Kb.
  - destruct (is_num_as_float a K1) as [x Hx], (is_num_as_float b Kb) as [y Hy],
      (is_num_as_float c (eq_sym K2)) as [z Hz].
    rewrite (value_le_num _ _ _ _ Hx Hy) in Hab.
    rewrite (value_le_num _ _ _ _ Hy Hz) in Hbc.
    rewrite (value_le_num _ _ _ _ Hx Hz). eauto using float_le_trans.
  - destruct a, b, c; simplify_eq/=.
    rewrite value_le_str in *. by etrans.
Qed.

Lemma value_le_total a b : is_num a = is_num b → value_le a b ∨ value_le b a.
Proof.
  intros K. destruct (is_num a) eqn:Ka.
  - destruct (is_num_as_float a Ka) as [x Hx], (is_num_as_float b (eq_sym K)) as [y Hy].
    rewrite (value_le_num _ _ _ _ Hx Hy), (value_le_num _ _ _ _ Hy Hx).
    apply float_le_total.
  - destruct a, b; simplify_eq/=. rewrite !value_le_str. apply total, _.
Qed.

Lemma value_eqb_le a b : value_eqb a b = true ↔ value_le a b ∧ value_le b a.
Proof.
  destruct (is_num a) eqn:Ka, (is_num b) eqn:Kb.
  - destruct (is_num_as_float a Ka) as [x Hx], (is_num_as_float b Kb) as [y Hy].
    rewrite (value_le_num _ _ _ _ Hx Hy), (value_le_num _ _ _ _ Hy Hx),
      <-float_compare_eq.
    destruct a, b; cbn -[float_compare] in *; simplify_eq;
      destruct (float_compare _ _); naive_solver.
  - destruct a, b; simplify_eq/=; unfold value_le; naive_solver.
  - destruct a, b; simplify_eq/=; unfold value_le; naive_solver.
  - destruct a, b; simplify_eq/=. rewrite bool_decide_eq_true, !value_le_str.
    split; [intros ->; done|]. intros [??]. by apply (anti_symm String.le).
Qed.

Lemma value_eqb_refl a : value_eqb a a = true.
Proof.
  apply value_eqb_le. destruct (value_le_total a a eq_refl); done.
Qed.

Lemma value_eqb_sym a b : value_eqb a b = value_eqb b a.
Proof.
  apply eq_true_iff_eq. rewrite !value_eqb_le. naive_solver.
Qed.

Lemma value_eqb_trans a b c :
  value_eqb a b = true → value_eqb b c = true → value_eqb a c = true.
Proof.
  rewrite !value_eqb_le. intros [??] [??]. split; by etrans.
Qed.

Lemma cell_eqb_refl c : cell_eqb c c = true.
Proof. destruct c; simpl; auto using value_eqb_refl. Qed.

Lemma cell_eqb_sym c d : cell_eqb c d = cell_eqb d c.
Proof. destruct c, d; simpl; auto using value_eqb_sym. Qed.

Lemma cell_eqb_trans c d e :
  cell_eqb c d = true → cell_eqb d e = true → cell_eqb c e = true.
Proof. destruct c, d, e; simpl; try done. apply value_eqb_trans. Qed.

Lemma cell_eqb_str s c : cell_eqb (Some (Str s)) c = true ↔ c = Some (Str s).
Proof.
  destruct c as [[]|]; simpl; rewrite ?bool_decide_eq_true; naive_solver.
Qed.

(** ** The insertion sorts are sorting routines *)

Lemma insert_index_perm before i l : insert_index before i l ≡ₚ i :: l.
Proof.
  induction l as [|j l IH]; simpl; [done|].
  destruct (before i j); [done|]. rewrite IH. apply Permutation_swap.
Qed.

Lemma insert_all_perm before l : foldr (insert_index before) [] l ≡ₚ l.
Proof.
  induction l as [|i l IH]; simpl; [done|]. by rewrite insert_index_perm, IH.
Qed.

Lemma insertion_argsort_perm before ks :
  insertion_argsort before ks ≡ₚ seq 0 (length ks).
Proof. apply insert_all_perm. Qed.

Lemma insert_index_sorted (R : relation nat) before i l :
  (∀ j, j ∈ l → before i j = true → R i j) →
  (∀ j, j ∈ l → before i j = false → R j i) →
  Sorted R l → Sorted R (insert_index before i l).
Proof.
  intros Hlt Hge. induction 1 as [|j l Hs IH Hhd]; simpl.
  { repeat constructor. }
  destruct (before i j) eqn:Hb.
  - constructor; [by constructor|]. constructor. apply Hlt; [left|done].
  - constructor.
    + apply IH; intros; [apply Hlt|apply Hge]; try done; by right.
    + destruct Hhd as [|k l Hjk]; simpl.
      * constructor. apply Hge; [left|done].
      * destruct (before i k); constructor; [|done]. apply Hge; [left|done].
Qed.

Lemma comparable_kind ks a b :
  comparable ks = true → a ∈ ks → b ∈ ks → is_num a = is_num b.
Proof.
  unfold comparable. rewrite orb_true_iff, !forallb_forall.
  setoid_rewrite <-list_elem_of_In.
  intros [H|H] Ha Hb; pose proof (H _ Ha) as Ka; pose proof (H _ Hb) as Kb;
    simpl in *; destruct (is_num a), (is_num b); done.
Qed.

Section insertion.
Variable before : value → value → bool.
Hypothesis before_le : ∀ a b, is_num a = is_num b → before a b = true → value_le a b.
Hypothesis before_ge : ∀ a b, is_num a = is_num b → before a b = false → value_le b a.

Lemma insertion_argsort_sorted ks :
  comparable ks = true →
  Sorted value_le ((λ i, ks !!! i) <$> insertion_argsort before ks).
Proof.
  intros Hc.
  apply (Sorted_fmap _ (λ i j, value_le (ks !!! i) (ks !!! j))); [done|].
  unfold insertion_argsort.
  assert (∀ i, i ∈ seq 0 (length ks) → ks !!! i ∈ ks) as Hin.
  { intros i Hi%elem_of_seq. apply list_elem_of_lookup_total_2. lia. }
  induction (seq 0 (length ks)) as [|i l IH]; simpl; [constructor|].
  assert (∀ j, j ∈ foldr (insert_index (λ i j, before (ks !!! i) (ks !!! j))) [] l →
               is_num (ks !!! i) = is_num (ks !!! j)) as Hk.
  { intros j Hj. rewrite insert_all_perm in Hj.
    apply (comparable_kind ks); [done|apply Hin..]; [left|by right]. }
  apply insert_index_sorted.
  - intros j Hj. by apply before_le, Hk.
  - intros j Hj. by apply before_ge, Hk.
  - apply IH. intros; apply Hin; by right.
Qed.
End insertion.

Lemma before_or_equal_le a b :
  is_num a = is_num b → before_or_equal a b = true → value_le a b.
Proof.
  unfold before_or_equal, value_le. destruct (value_leb a b) as [[]|]; done.
Qed.

Lemma before_or_equal_ge a b :
  is_num a = is_num b → before_or_equal a b = false → value_le b a.
Proof.
  intros K Hb. destruct (value_le_total a b K) as [H|H]; [|done].
  unfold before_or_equal in Hb. rewrite H in Hb. done.
Qed.

Lemma strictly_before_le a b :
  is_num a = is_num b → strictly_before a b = true → value_le a b.
Proof.
  intros K Hb. destruct (value_le_total a b K) as [H|H]; [done|].
  unfold strictly_before in Hb. rewrite H in Hb. done.
Qed.

Lemma strictly_before_ge a b :
  is_num a = is_num b → strictly_before a b = false → value_le b a.
Proof.
  intros K Hb. destruct (value_le_total a b K) as [H|H]; [|done].
  unfold strictly_before, value_le in *.
  destruct (value_leb b a) as [[]|] eqn:E; try done.
  destruct a, b; simplify_eq/=.
Qed.

(** The sort that keeps ties in their order. *)
Definition stable_sort : ArgSort :=
  {| argsort := insertion_argsort before_or_equal;
     argsort_perm := insertion_argsort_perm before_or_equal;
     argsort_sorted :=
       insertion_argsort_sorted before_or_equal before_or_equal_le before_or_equal_ge |}.

(** The sort that reverses ties. *)
Definition tie_reversing_sort : ArgSort :=
  {| argsort := insertion_argsort strictly_before;
     argsort_perm := insertion_argsort_perm strictly_before;
     argsort_sorted :=
       insertion_argsort_sorted strictly_before strictly_before_le strictly_before_ge |}.

(** ** Membership in a column of dates *)

Lemma cell_in_true c l : cell_in c l = true ↔ ∃ d, d ∈ l ∧ cell_eqb c d = true.
Proof.
  unfold cell_in. rewrite existsb_exists. setoid_rewrite list_elem_of_In. done.
Qed.

Lemma cell_in_eqb c d l : cell_eqb c d = true → cell_in c l = cell_in d l.
Proof.
  intros E. apply eq_true_iff_eq. rewrite !cell_in_true.
  split; intros (x & Hx & Ex); exists x; split; try done.
  - apply (cell_eqb_trans d c x); [by rewrite cell_eqb_sym | done].
  - by apply (cell_eqb_trans c d x).
Qed.

Lemma cell_in_unique_go c seen l :
  cell_in c (unique_go seen l) || cell_in c seen = cell_in c l || cell_in c seen.
Proof.
  revert seen. induction l as [|d l IH]; intros seen; simpl; [done|].
  destruct (cell_in d seen) eqn:Hd.
  - rewrite IH. destruct (cell_eqb c d) eqn:E; simpl; [|done].
    rewrite (cell_in_eqb c d seen E), Hd. by rewrite !orb_true_r.
  - simpl. specialize (IH (d :: seen)). simpl in IH.
    destruct (cell_eqb c d); simpl in *; [done|]. done.
Qed.

Lemma cell_in_unique c l : cell_in c (unique l) = cell_in c l.
Proof.
  pose proof (cell_in_unique_go c [] l) as H. simpl in H.
  by rewrite !orb_false_r in H.
Qed.

Lemma cell_in_filter c (P : cell → bool) l :
  (∀ d, cell_eqb c d = true → P d = P c) →
  cell_in c (filter (λ d, P d) l) = cell_in c l && P c.
Proof.
  intros HP. induction l as [|d l IH]; simpl; [done|].
  rewrite filter_cons. destruct (cell_eqb c d) eqn:E.
  - rewrite <-(HP d E). destruct (P d) eqn:Hd; simpl; rewrite ?E; [done|].
    rewrite IH, <-(HP d E), Hd. by rewrite andb_false_r.
  - destruct (P d) eqn:Hd; simpl; rewrite ?E; done.
Qed.

Lemma cell_in_column (r : row) c df : r ∈ rows df → cell_in (r !! c) (column c df) = true.
Proof.
  intros Hr. apply cell_in_true. exists (r !! c). split; [|apply cell_eqb_refl].
  unfold column. apply list_elem_of_fmap. eauto.
Qed.

(** The dates that are dropped are the dates of the new rows. *)
Lemma duplicate_dates_isin df existing_df (r : row) :
  r ∈ rows existing_df →
  cell_in (r !! "date")
    (filter (λ d, cell_in d (unique (column "date" existing_df)))
            (unique (column "date" df)))
  = cell_in (r !! "date") (column "date" df).
Proof.
  intros Hr.
  rewrite (cell_in_filter _ (λ d, cell_in d (unique (column "date" existing_df)))).
  - rewrite !cell_in_unique, (cell_in_column r "date" existing_df Hr).
    by rewrite andb_true_r.
  - intros d E. symmetry. by apply cell_in_eqb.
Qed.

Lemma filter_ext_in {A} (P Q : A → bool) (l : list A) :
  (∀ x, x ∈ l → P x = Q x) → filter (λ x, P x) l = filter (λ x, Q x) l.
Proof.
  intros H. induction l as [|x l IH]; [done|].
  rewrite !filter_cons, (H x) by left. rewrite IH; [done|].
  intros; apply H. by right.
Qed.

Lemma filter_all {A} (P : A → bool) (l : list A) :
  (∀ x, x ∈ l → P x = true) → filter (λ x, P x) l = l.
Proof.
  intros H. induction l as [|x l IH]; [done|].
  rewrite filter_cons, decide_True by (rewrite H; [done|left]).
  f_equal. apply IH. intros; apply H. by right.
Qed.

Lemma drop_duplicate_dates_rows df existing_df :
  empty existing_df = false →
  has_column "date" df = true →
  has_column "date" existing_df = true →
  rows (drop_duplicate_dates df existing_df) = surviving df existing_df.
Proof.
  intros He Hd Hx. unfold drop_duplicate_dates, surviving. rewrite He, Hd, Hx. simpl.
  pose proof (duplicate_dates_isin df existing_df) as Hin.
  destruct (filter _ (unique (column "date" df))) as [|d ds] eqn:Hdup.
  - symmetry. apply filter_all. intros r Hr. by rewrite <-(Hin r Hr).
  - cbn [rows]. apply filter_ext_in. intros r Hr. by rewrite (Hin r Hr).
Qed.

Lemma drop_duplicate_dates_columns df existing_df :
  columns (drop_duplicate_dates df existing_df) = columns existing_df.
Proof. unfold drop_duplicate_dates. repeat case_match; done. Qed.

Lemma has_column_nonempty c df : has_column c df = true → columns df ≠ [].
Proof.
  unfold has_column. rewrite bool_decide_eq_true. destruct (columns df); [|done].
  by intros ?%elem_of_nil.
Qed.

Lemma combine_rows df existing_df :
  columns existing_df ≠ [] → rows (combine df existing_df) = rows df ++ rows existing_df.
Proof.
  intros Hc. unfold combine, empty, concat.
  destruct (columns existing_df); [done|].
  destruct (rows existing_df); simpl; [by rewrite app_nil_r|done].
Qed.

(** C1. When the new record set and a non-empty existing record set both have
    a 'date' column, the reconciled rows are all the new rows, followed by
    exactly the existing rows whose date is not a date of a new row; so no
    surviving existing row shares its date with a new row, and the rows of a
    date come from one source only. *)
Theorem C1_new_dates_supersede df existing_df :
  empty existing_df = false →
  has_column "date" df = true →
  has_column "date" existing_df = true →
  rows (combine df (drop_duplicate_dates df existing_df))
    = rows df ++ surviving df existing_df
  ∧ Forall (λ r : row, cell_in (r !! "date") (column "date" df) = false)
           (surviving df existing_df)
  ∧ ∀ r1 r2 : row, r1 ∈ rows df → r2 ∈ surviving df existing_df →
      cell_eqb (r2 !! "date") (r1 !! "date") = false.
Proof.
  intros He Hd Hx.
  assert (Forall (λ r : row, cell_in (r !! "date") (column "date" df) = false)
                 (surviving df existing_df)) as Hs.
  { apply Forall_forall. intros r [Hr _]%list_elem_of_filter.
    by apply negb_prop_elim, Is_true_false in Hr. }
  split; [|split; [done|]].
  - rewrite combine_rows.
    + by rewrite drop_duplicate_dates_rows.
    + rewrite drop_duplicate_dates_columns. by apply (has_column_nonempty "date").
  - intros r1 r2 H1 H2. rewrite Forall_forall in Hs. specialize (Hs r2 H2).
    destruct (cell_eqb (r2 !! "date") (r1 !! "date")) eqn:E; [|done].
    rewrite (cell_in_eqb _ _ _ E), (cell_in_column r1 "date" df H1) in Hs. done.
Qed.

(** ** Sorting by date *)

Lemma split_nulls_spec pre keys :
  ∀ non_nan nan_idx, split_nulls (length pre) keys = (non_nan, nan_idx) →
    Forall (λ p, (pre ++ keys) !! p.1 = Some (Some p.2)) non_nan
    ∧ Forall (λ i, (pre ++ keys) !! i = Some None) nan_idx
    ∧ non_nan.*1 ++ nan_idx ≡ₚ seq (length pre) (length keys)
    ∧ non_nan.*2 = omap id keys.
Proof.
  revert pre. induction keys as [|c keys IH]; intros pre non_nan nan_idx; simpl.
  { intros [= <- <-]. repeat split; constructor. }
  destruct (split_nulls (S (length pre)) keys) as [nn na] eqn:E.
  specialize (IH (pre ++ [c]) nn na).
  rewrite length_app, Nat.add_1_r, <-(assoc_L (++)) in IH. simpl in IH.
  destruct (IH E) as (H1 & H2 & H3 & H4).
  assert ((pre ++ c :: keys) !! length pre = Some c) as Hc.
  { by rewrite lookup_app_r, Nat.sub_diag by lia. }
  destruct c as [v|]; intros [= <- <-]; csimpl; repeat split; try done.
  - by constructor.
  - by rewrite H3.
  - by rewrite H4.
  - by constructor.
  - rewrite <-H3. by rewrite Permutation_middle.
Qed.

Lemma comparable_reverse ks : comparable (reverse ks) = comparable ks.
Proof.
  unfold comparable. f_equal; apply eq_true_iff_eq; rewrite !forallb_forall;
    setoid_rewrite <-list_elem_of_In; setoid_rewrite elem_of_reverse; done.
Qed.

Lemma fmap_lookup_total_seq `{Inhabited A} (l : list A) :
  (λ j, l !!! j) <$> seq 0 (length l) = l.
Proof.
  apply list_eq. intros i.
  rewrite list_lookup_fmap. destruct (decide (i < length l)%nat) as [Hi|Hi].
  - rewrite lookup_seq_lt by done. simpl. by rewrite list_lookup_lookup_total_lt.
  - rewrite lookup_seq_ge, lookup_ge_None_2 by lia. done.
Qed.

Section sorting.
Context `{ArgSort}.

Lemma nargsort_perm keys : nargsort keys ≡ₚ seq 0 (length keys).
Proof.
  unfold nargsort. destruct (split_nulls 0 keys) as [nn na] eqn:E.
  destruct (split_nulls_spec [] keys nn na E) as (_ & _ & H3 & _).
  simpl in H3. rewrite <-H3, reverse_Permutation.
  apply Permutation_app_tail.
  rewrite (argsort_perm (reverse nn.*2)).
  replace (length (reverse nn.*2)) with (length (reverse nn.*1))
    by (by rewrite !length_reverse, !length_fmap).
  rewrite fmap_lookup_total_seq. apply reverse_Permutation.
Qed.

(** The keys along the indexer: the keys that are not null in descending
    order, then the nulls. *)
Lemma nargsort_keys keys :
  ∃ vs n,
    (λ i, keys !!! i) <$> nargsort keys = (Some <$> vs) ++ replicate n None
    ∧ (comparable (omap id keys) = true → Sorted (flip value_le) vs).
Proof.
  unfold nargsort. destruct (split_nulls 0 keys) as [nn na] eqn:E.
  destruct (split_nulls_spec [] keys nn na E) as (H1 & H2 & H3 & H4).
  simpl in *.
  set (V := reverse nn.*2). set (I := reverse nn.*1).
  exists (reverse ((λ j, V !!! j) <$> argsort V)), (length na).
  split.
  - rewrite fmap_app. f_equal.
    + rewrite !fmap_reverse. f_equal. rewrite <-!list_fmap_compose.
      apply list_fmap_ext. intros ? j Hj%list_elem_of_lookup_2. simpl.
      rewrite (argsort_perm V) in Hj. apply elem_of_seq in Hj.
      assert (j < length (reverse nn))%nat as Hlt.
      { unfold V in Hj. rewrite length_reverse, length_fmap in Hj.
        rewrite length_reverse. lia. }
      destruct (lookup_lt_is_Some_2 _ _ Hlt) as [[k v] Hkv].
      unfold I, V. rewrite <-!fmap_reverse.
      rewrite !(list_lookup_total_fmap _ _ j) by (rewrite ?length_fmap; done).
      rewrite (list_lookup_total_correct _ _ _ Hkv). simpl.
      apply list_lookup_total_correct.
      rewrite Forall_forall in H1. apply (H1 (k, v)).
      apply elem_of_reverse. by eapply list_elem_of_lookup_2.
    + clear -H2. induction H2 as [|i na Hi _ IH]; csimpl; [done|].
      by rewrite IH, (list_lookup_total_correct _ _ _ Hi).
  - intros Hc. apply Sorted_reverse, argsort_sorted.
    unfold V. rewrite H4. by rewrite comparable_reverse.
Qed.
End sorting.

Global Instance flip_value_le_trans : Transitive (flip value_le).
Proof. intros a b c ??. unfold flip in *. by etrans. Qed.

Lemma date_ge_sorted vs n :
  Sorted (flip value_le) vs →
  StronglySorted date_ge ((Some <$> vs) ++ replicate n None).
Proof.
  intros Hs%Sorted_StronglySorted; [|apply _].
  apply StronglySorted_app_2.
  - intros a b _ ->%elem_of_replicate_inv. done.
  - apply (StronglySorted_fmap _ (flip value_le)); [|done].
    intros x y Hxy. exists x. done.
  - induction n; simpl; constructor; [done|].
    apply Forall_forall. intros b ->%elem_of_replicate_inv. done.
Qed.

Lemma comparable_strings keys :
  Forall (λ c : cell, c = None ∨ is_Str c = true) keys →
  comparable (omap id keys) = true.
Proof.
  intros Hk. unfold comparable. apply orb_true_iff. left.
  apply forallb_forall. intros v Hv%list_elem_of_In%list_elem_of_omap.
  destruct Hv as (c & Hc & Hv). simpl in Hv. subst c.
  rewrite Forall_forall in Hk. destruct (Hk _ Hc) as [?|Hs]; [done|].
  by destruct v.
Qed.

Section sort_values.
Context `{ArgSort}.

Lemma sort_values_Ok key df out :
  sort_values key df = Ok out →
  columns out = columns df
  ∧ rows out ≡ₚ rows df
  ∧ StronglySorted date_ge (column key out).
Proof.
  unfold sort_values. case_match eqn:Hc; [|done]. intros [= <-]. simpl.
  pose proof (nargsort_perm (column key df)) as Hp.
  unfold column in Hp at 2. rewrite length_fmap in Hp.
  split; [done|split].
  - rewrite Hp. by rewrite fmap_lookup_total_seq.
  - destruct (nargsort_keys (column key df)) as (vs & n & Hk & Hs).
    unfold column at 1. simpl.
    replace ((λ r : row, r !! key) <$> ((λ i, rows df !!! i) <$> nargsort (column key df)))
      with ((λ i, column key df !!! i) <$> nargsort (column key df)).
    { rewrite Hk. apply date_ge_sorted. auto. }
    rewrite <-list_fmap_compose. apply list_fmap_ext.
    intros ? i Hi%list_elem_of_lookup_2. simpl.
    rewrite Hp in Hi. apply elem_of_seq in Hi.
    unfold column. by rewrite (list_lookup_total_fmap (λ r : row, r !! key)) by lia.
Qed.

Lemma sort_values_comparable key df :
  comparable (omap id (column key df)) = true → is_Ok (sort_values key df) = true.
Proof. unfold sort_values. by intros ->. Qed.

Lemma sort_values_Raise key df e :
  sort_values key df = Raise e →
  e = TypeError ∧ comparable (omap id (column key df)) = false.
Proof. unfold sort_values. case_match; [done|]. by intros [= <-]. Qed.
End sort_values.

Lemma StronglySorted_lookup_lt {A} (R : relation A) l i j x y :
  StronglySorted R l → (i < j)%nat → l !! i = Some x → l !! j = Some y → R x y.
Proof.
  intros Hs. revert i j. induction Hs as [|a l Hs IH Ha]; intros i j Hij Hi Hj.
  { by rewrite lookup_nil in Hi. }
  destruct j as [|j]; [lia|]. simpl in Hj. destruct i as [|i].
  - simpl in Hi. simplify_eq. rewrite Forall_forall in Ha.
    by eapply Ha, list_elem_of_lookup_2.
  - simpl in Hi. apply (IH i j); [lia|done..].
Qed.

Lemma sort_by_date_Ok `{ArgSort} final_df out :
  has_column "date" final_df = true →
  sort_by_date final_df = Ok out →
  columns out = columns final_df
  ∧ rows out ≡ₚ rows final_df
  ∧ StronglySorted date_ge (column "date" out).
Proof. unfold sort_by_date. intros ->. apply sort_values_Ok. Qed.

Lemma sort_by_date_no_date `{ArgSort} final_df :
  has_column "date" final_df = false → sort_by_date final_df = Ok final_df.
Proof. unfold sort_by_date. by intros ->. Qed.

Lemma sort_by_date_strings `{ArgSort} final_df :
  Forall (λ c : cell, c = None ∨ is_Str c = true) (column "date" final_df) →
  is_Ok (sort_by_date final_df) = true.
Proof.
  intros Hk. unfold sort_by_date. case_match; [|done].
  by apply sort_values_comparable, comparable_strings.
Qed.

(** C2 as stated fails: with a sorting routine that sorts, but puts equal
    keys in reverse, the eighteen rows of one day are written in another
    order than the one they had after the concatenation. *)
Lemma C2_ties_counterexample :
  ∃ out, @sort_by_date tie_reversing_sort day_report = Ok out
         ∧ StronglySorted date_ge (column "date" out)
         ∧ ¬ ties_kept day_report out.
Proof.
  eexists. split; [vm_compute; reflexivity|]. split.
  - eapply (@sort_by_date_Ok tie_reversing_sort day_report); [reflexivity|].
    vm_compute; reflexivity.
  - intros Hk. specialize (Hk (Some (Str "2024-01-03"))).
    apply (f_equal (fmap (λ r : row, r !! "sessions"))) in Hk.
    vm_compute in Hk. discriminate.
Qed.

(** ** Columns of a frame under the steps of [format_dataframe] *)

Lemma set_cell_lookup c v (r : row) : set_cell c v r !! c = v.
Proof.
  destruct v; simpl; [apply lookup_insert_eq|apply lookup_delete_eq].
Qed.

Lemma set_cell_lookup_ne c c' v (r : row) : c ≠ c' → set_cell c v r !! c' = r !! c'.
Proof.
  intros. destruct v; simpl; [by apply lookup_insert_ne|by apply lookup_delete_ne].
Qed.

Lemma length_column c df : length (column c df) = length (rows df).
Proof. unfold column. apply length_fmap. Qed.

Lemma length_set_column c vals df :
  length vals = length (rows df) → length (rows (set_column c vals df)) = length (rows df).
Proof. intros Hl. simpl. rewrite length_zip_with. lia. Qed.

Lemma column_set_column c vals df :
  length vals = length (rows df) → column c (set_column c vals df) = vals.
Proof.
  unfold column, set_column. simpl. generalize (rows df). intros rs. revert rs.
  induction vals as [|v vals IH]; intros [|r rs] Hl; simplify_eq/=; [done|].
  by rewrite set_cell_lookup, IH.
Qed.

Lemma column_set_column_ne c c' vals df :
  c ≠ c' → length vals = length (rows df) →
  column c' (set_column c vals df) = column c' df.
Proof.
  intros Hne. unfold column, set_column. simpl. generalize (rows df). intros rs. revert rs.
  induction vals as [|v vals IH]; intros [|r rs] Hl; simplify_eq/=; [done|].
  by rewrite set_cell_lookup_ne, IH.
Qed.

Lemma mapR_Forall2 {A B} (f : A → result B) l l' :
  mapR f l = Ok l' → Forall2 (λ x y, f x = Ok y) l l'.
Proof.
  revert l'. induction l as [|x l IH]; intros l'; simpl.
  { intros [= <-]. constructor. }
  destruct (f x) as [y|] eqn:Hx; simpl; [|done].
  destruct (mapR f l) as [ys|]; simpl; [|done].
  intros [= <-]. constructor; auto.
Qed.

Lemma length_to_numeric col : length (to_numeric col) = length col.
Proof. unfold to_numeric. case_match; by rewrite !length_fmap. Qed.

Lemma insert_column_Ok loc c v df df' :
  insert_column loc c v df = Ok df' →
  (c ∉ columns df)
  ∧ columns df' = take loc (columns df) ++ c :: drop loc (columns df)
  ∧ rows df' = insert c v <$> rows df.
Proof.
  unfold insert_column, has_column. case_bool_decide; [done|]. by intros [= <-].
Qed.

Lemma column_insert_column loc c c' v df df' :
  insert_column loc c v df = Ok df' → c' ∈ columns df → column c' df' = column c' df.
Proof.
  intros (Hc & _ & Hr)%insert_column_Ok Hc'. unfold column. rewrite Hr.
  rewrite <-list_fmap_compose. apply list_fmap_ext. intros _ r _. simpl.
  apply lookup_insert_ne. by intros ->.
Qed.

(** What one conversion does to the frame. *)
Lemma convert_metric_Ok df metric df' :
  convert_metric df metric = Ok df' →
  metric ∈ columns df
  ∧ columns df' = columns df
  ∧ length (rows df') = length (rows df)
  ∧ (∀ c, c ≠ metric → column c df' = column c df)
  ∧ (if bool_decide (metric ∈ ratio_metrics)
     then column metric df' = round_cell <$> to_numeric (column metric df)
     else Forall2 (λ x y, astype_Int64 (fillna0 x) = Ok y)
                  (to_numeric (column metric df)) (column metric df')).
Proof.
  unfold convert_metric, has_column. case_bool_decide as Hm; [|done].
  case_bool_decide as Hr.
  - intros [= <-].
    assert (length (round_cell <$> to_numeric (column metric df)) = length (rows df)) as Hl.
    { by rewrite length_fmap, length_to_numeric, length_column. }
    repeat split; try done.
    + by apply length_set_column.
    + intros c Hc. by apply column_set_column_ne.
    + by apply column_set_column.
  - destruct (mapR _ _) as [vals|] eqn:Hv; simpl; [|done]. intros [= <-].
    apply mapR_Forall2 in Hv. apply Forall2_fmap_l in Hv.
    assert (length vals = length (rows df)) as Hl.
    { rewrite <-(Forall2_length _ _ _ Hv). by rewrite length_to_numeric, length_column. }
    repeat split; try done.
    + by apply length_set_column.
    + intros c Hc. by apply column_set_column_ne.
    + by rewrite column_set_column.
Qed.

Lemma foldR_convert_metric_Ok df metrics df' :
  foldR convert_metric df metrics = Ok df' →
  columns df' = columns df
  ∧ length (rows df') = length (rows df)
  ∧ Forall (λ m, m ∈ columns df) metrics
  ∧ ∀ c, c ∉ metrics → column c df' = column c df.
Proof.
  revert df. induction metrics as [|m ms IH]; intros df; simpl.
  { intros [= <-]. repeat split; try done. }
  destruct (convert_metric df m) as [df1|] eqn:H1; simpl; [|done].
  intros (Hc & Hl & Hf & Ho)%IH.
  destruct (convert_metric_Ok _ _ _ H1) as (Hm & Hc1 & Hl1 & Ho1 & _).
  repeat split.
  - congruence.
  - congruence.
  - constructor; [done|]. by rewrite <-Hc1.
  - intros c Hn. rewrite not_elem_of_cons in Hn. destruct Hn as [Hn1 Hn2].
    by rewrite Ho, Ho1.
Qed.

(** ** What a conversion does to one value *)

Lemma read_digits_acc s acc n :
  ∃ acc' k rest, read_digits s acc n = (acc', (n + k)%nat, rest).
Proof.
  revert acc n. induction s as [|c s IH]; intros acc n; simpl.
  { exists acc, 0%nat, "". by rewrite Nat.add_0_r. }
  destruct (digit c) as [d|].
  - destruct (IH (10 * acc + d) (S n)) as (a & k & rest & ->).
    exists a, (S k), rest. do 2 f_equal. lia.
  - exists acc, 0%nat, (String c s). by rewrite Nat.add_0_r.
Qed.

Lemma parse_decimal_not_Str s t : parse_decimal s ≠ Some (Str t).
Proof.
  unfold parse_decimal. destruct (read_sign s) as [neg s0].
  destruct (read_digits s0 0 0) as [[ip ni] s1].
  destruct s1 as [|c s2].
  { destruct ni; [done|]. by destruct (in_int64 _). }
  assert (∀ m k, ((λ e, Flt (scale m k e)) <$> read_exponent (String c s2)) ≠ Some (Str t)) as He.
  { intros m k. by destruct (read_exponent _). }
  destruct (decide (c = "."%char)) as [->|Hc].
  - destruct (read_digits s2 ip 0) as [[m nf] s3].
    destruct (ni + nf)%nat; [done|]. by destruct (read_exponent s3).
  - destruct c as [[] [] [] [] [] [] [] []]; try done; destruct ni; try done; apply He.
Qed.

Lemma parse_number_not_Str s t : parse_number s ≠ Some (Str t).
Proof.
  unfold parse_number. destruct (parse_decimal _) as [v|] eqn:E.
  - intros [= ->]. by apply parse_decimal_not_Str in E.
  - unfold parse_special. destruct (read_sign _). by case_match.
Qed.

Lemma to_numeric_Forall2 col : Forall2 numeric_of col (to_numeric col).
Proof.
  unfold to_numeric. case_match.
  - apply Forall2_fmap_r, Forall_Forall2_diag, Forall_forall. intros x _. by left.
  - rewrite <-list_fmap_compose.
    apply Forall2_fmap_r, Forall_Forall2_diag, Forall_forall. intros x _. by right.
Qed.

Lemma convert_count_cell x n y :
  numeric_of x n → astype_Int64 (fillna0 n) = Ok y →
  is_Int_cell y
  ∧ (to_numeric_scalar x = None → y = Some (Int 0))
  ∧ (∀ z, x = Some (Int z) → y = Some (Int z)).
Proof.
  intros Hn Hy.
  assert (is_Int_cell y) as Hi.
  { destruct n as [[s|z|[m k|neg]]|]; simplify_eq/=; try (by eexists).
    case_match; simplify_eq. by eexists. }
  split; [done|]. split.
  - intros Hx. destruct Hn as [->| ->]; rewrite Hx in Hy; by simplify_eq/=.
  - intros z ->. destruct Hn as [->| ->]; simpl in Hy; [by simplify_eq|].
    rewrite Z.mod_1_r, Z.div_1_r in Hy. simpl in Hy.
    by destruct (in_int64 z); simplify_eq.
Qed.

Lemma round4_rounded x : rounded (Some (Flt (round4 x))).
Proof.
  destruct x as [m k|neg]; simpl; [|done].
  destruct (k <=? 4)%nat eqn:E; simpl; [|done]. by apply Nat.leb_le.
Qed.

Lemma to_numeric_scalar_not_Str x t : to_numeric_scalar x ≠ Some (Str t).
Proof. destruct x as [[s|z|f]|]; simpl; try done. apply parse_number_not_Str. Qed.

Lemma convert_ratio_cell x n :
  numeric_of x n →
  rounded (round_cell n) ∧ (to_numeric_scalar x = None → round_cell n = None).
Proof.
  intros Hn. split.
  - pose proof (to_numeric_scalar_not_Str x) as Hs.
    destruct Hn as [->| ->]; destruct (to_numeric_scalar x) as [[s|z|f]|];
      simpl; try done; try apply round4_rounded; try lia; by destruct (Hs s).
  - intros Hx. destruct Hn as [->| ->]; by rewrite Hx.
Qed.

Lemma Forall2_compose {A B C} (P : A → B → Prop) (Q : B → C → Prop) l1 l2 l3 :
  Forall2 P l1 l2 → Forall2 Q l2 l3 → Forall2 (λ a c, ∃ b, P a b ∧ Q b c) l1 l3.
Proof.
  intros H. revert l3. induction H; intros l3 H3; inv H3; constructor; eauto.
Qed.

Lemma Forall2_right {A B} (P : A → B → Prop) (Q : B → Prop) l k :
  Forall2 P l k → (∀ x y, P x y → Q y) → Forall Q k.
Proof. induction 1; intros HQ; constructor; eauto. Qed.

(** ** Columns of metrics along the loop of [format_dataframe] *)

Lemma convert_metric_count df x df' m :
  convert_metric df x = Ok df' → m ∉ ratio_metrics →
  (∀ src, Forall2 count_source src (column m df) → Forall2 count_source src (column m df'))
  ∧ (x = m ∨ Forall is_Int_cell (column m df) → Forall is_Int_cell (column m df')).
Proof.
  intros (_ & _ & _ & Ho & Hx)%convert_metric_Ok Hm.
  destruct (decide (x = m)) as [->|Hne].
  - rewrite bool_decide_eq_false_2 in Hx by done.
    pose proof (Forall2_compose _ _ _ _ _ (to_numeric_Forall2 (column m df)) Hx) as Hc.
    split.
    + intros src Hs. pose proof (Forall2_compose _ _ _ _ _ Hs Hc) as Hsc.
      eapply Forall2_impl; [exact Hsc|]. simpl.
      intros x0 y' (y & Hxy & n & Hn & Hy) Hx0.
      destruct (convert_count_cell _ _ _ Hn Hy) as (_ & H0 & Hz).
      right. destruct (Hxy Hx0) as [Hnone| ->]; [auto|]. by apply Hz.
    + intros _. eapply Forall2_right; [exact Hc|]. simpl.
      intros y y' (n & Hn & Hy). by destruct (convert_count_cell _ _ _ Hn Hy).
  - rewrite (Ho m) by done. split; [done|]. by intros [?|?].
Qed.

Lemma rounded_ratio_source y : rounded y → to_numeric_scalar y = None → y = None.
Proof. by destruct y as [[s|z|[m k|neg]]|]. Qed.

Lemma convert_metric_ratio df x df' m :
  convert_metric df x = Ok df' → m ∈ ratio_metrics →
  (∀ src, Forall2 ratio_source src (column m df) → Forall2 ratio_source src (column m df'))
  ∧ (x = m ∨ Forall rounded (column m df) → Forall rounded (column m df')).
Proof.
  intros (_ & _ & _ & Ho & Hx)%convert_metric_Ok Hm.
  destruct (decide (x = m)) as [->|Hne].
  - rewrite bool_decide_eq_true_2 in Hx by done. rewrite Hx.
    assert (Forall2 (λ x y', ∃ n, numeric_of x n ∧ y' = round_cell n)
              (column m df) (round_cell <$> to_numeric (column m df))) as Hn.
    { apply Forall2_fmap_r. eapply Forall2_impl; [apply to_numeric_Forall2|].
      simpl; eauto. }
    split.
    + intros src Hs. pose proof (Forall2_compose _ _ _ _ _ Hs Hn) as Hsc.
      eapply Forall2_impl; [exact Hsc|]. simpl.
      intros x0 y' (y & Hxy & n & Hy & ->) Hx0.
      destruct (convert_ratio_cell _ _ Hy) as [_ H0].
      rewrite H0; [done|]. by apply Hxy.
    + intros _. eapply Forall2_right; [exact Hn|]. simpl.
      intros y y' (n & Hy & ->). by destruct (convert_ratio_cell _ _ Hy).
  - rewrite (Ho m) by done. split; [done|]. by intros [?|?].
Qed.

(** The loop over the metrics, for one column. *)
Lemma foldR_convert_metric_count df metrics df' m :
  foldR convert_metric df metrics = Ok df' → m ∉ ratio_metrics →
  (∀ src, Forall2 count_source src (column m df) → Forall2 count_source src (column m df'))
  ∧ (m ∈ metrics ∨ Forall is_Int_cell (column m df) → Forall is_Int_cell (column m df')).
Proof.
  intros Hf Hm. revert df Hf. induction metrics as [|x ms IH]; intros df; simpl.
  { intros [= <-]. split; [done|]. intros [?%elem_of_nil|?]; done. }
  destruct (convert_metric df x) as [df1|] eqn:H1; simpl; [|done].
  intros [IH1 IH2]%IH. destruct (convert_metric_count _ _ _ m H1 Hm) as [C1 C2].
  split; [by auto|].
  intros [[->|Hin]%elem_of_cons|Hi]; auto.
Qed.

Lemma foldR_convert_metric_ratio df metrics df' m :
  foldR convert_metric df metrics = Ok df' → m ∈ ratio_metrics →
  (∀ src, Forall2 ratio_source src (column m df) → Forall2 ratio_source src (column m df'))
  ∧ (m ∈ metrics ∨ Forall rounded (column m df) → Forall rounded (column m df')).
Proof.
  intros Hf Hm. revert df Hf. induction metrics as [|x ms IH]; intros df; simpl.
  { intros [= <-]. split; [done|]. intros [?%elem_of_nil|?]; done. }
  destruct (convert_metric df x) as [df1|] eqn:H1; simpl; [|done].
  intros [IH1 IH2]%IH. destruct (convert_metric_ratio _ _ _ m H1 Hm) as [C1 C2].
  split; [by auto|].
  intros [[->|Hin]%elem_of_cons|Hi]; auto.
Qed.

(** ** [format_dataframe] as a whole *)

Lemma format_date_column_columns df : columns (format_date_column df) = columns df.
Proof. unfold format_date_column. by case_match. Qed.

Lemma format_date_column_length df :
  length (rows (format_date_column df)) = length (rows df).
Proof.
  unfold format_date_column. case_match; [|done].
  apply length_set_column. by rewrite length_fmap, length_column.
Qed.

Lemma format_date_column_date df :
  has_column "date" df = true →
  column "date" (format_date_column df) = format_date <$> column "date" df.
Proof.
  unfold format_date_column. intros ->.
  apply column_set_column. by rewrite length_fmap, length_column.
Qed.

Lemma format_date_column_other df c :
  c ≠ "date" → column c (format_date_column df) = column c df.
Proof.
  intros Hc. unfold format_date_column. case_match; [|done].
  apply column_set_column_ne; [done|]. by rewrite length_fmap, length_column.
Qed.

Lemma format_dataframe_Ok now df dimensions metrics out :
  empty df = false →
  format_dataframe now df dimensions metrics = Ok out →
  ∃ df2, foldR convert_metric (format_date_column df) metrics = Ok df2
    ∧ columns out = "last_updated" :: "data_freshness" :: columns df
    ∧ length (rows out) = length (rows df)
    ∧ ∀ c, c ∈ columns df → column c out = column c df2.
Proof.
  intros He. unfold format_dataframe. rewrite He. fold (format_date_column df).
  destruct (foldR _ _ _) as [df2|] eqn:H2; simpl; [|done].
  destruct (insert_column 0 _ _ df2) as [df3|] eqn:H3; simpl; [|done].
  intros H4. exists df2.
  destruct (foldR_convert_metric_Ok _ _ _ H2) as (Hc2 & Hl2 & _ & _).
  rewrite format_date_column_columns in Hc2. rewrite format_date_column_length in Hl2.
  destruct (insert_column_Ok _ _ _ _ _ H3) as (_ & Hc3 & Hr3).
  destruct (insert_column_Ok _ _ _ _ _ H4) as (_ & Hc4 & Hr4).
  simpl in Hc3. rewrite Hc3 in Hc4. simpl in Hc4. rewrite drop_0 in Hc4.
  repeat split.
  - by rewrite Hc4, Hc2.
  - by rewrite Hr4, Hr3, !length_fmap.
  - intros c Hc. rewrite (column_insert_column _ _ _ _ _ _ H4).
    + apply (column_insert_column _ _ _ _ _ _ H3). by rewrite Hc2.
    + rewrite Hc3, Hc2. by right.
Qed.

Lemma format_dataframe_empty now df dimensions metrics :
  empty df = true → format_dataframe now df dimensions metrics = Ok df.
Proof. unfold format_dataframe. by intros ->. Qed.

Lemma Forall2_diag {A} (R : A → A → Prop) l : (∀ x, R x x) → Forall2 R l l.
Proof. intros HR. induction l; constructor; auto. Qed.

Lemma format_dataframe_metric now df dimensions metrics out m :
  empty df = false →
  format_dataframe now df dimensions metrics = Ok out →
  m ∈ metrics →
  m ∈ columns df
  ∧ (if bool_decide (m ∈ ratio_metrics)
     then Forall rounded (column m out)
          ∧ (m ≠ "date" → Forall2 ratio_source (column m df) (column m out))
     else Forall is_Int_cell (column m out)
          ∧ (m ≠ "date" → Forall2 count_source (column m df) (column m out))).
Proof.
  intros He (df2 & H2 & Hc & Hl & Ho)%format_dataframe_Ok Hm; [|done].
  destruct (foldR_convert_metric_Ok _ _ _ H2) as (_ & _ & Hf & _).
  rewrite Forall_forall in Hf. pose proof (Hf m Hm) as Hin.
  rewrite format_date_column_columns in Hin. split; [done|].
  rewrite (Ho m Hin). case_bool_decide as Hr.
  - destruct (foldR_convert_metric_ratio _ _ _ m H2 Hr) as [F1 F2].
    split; [by auto|]. intros Hd. apply F1.
    rewrite format_date_column_other by done. apply Forall2_diag. by intros x Hx.
  - destruct (foldR_convert_metric_count _ _ _ m H2 Hr) as [F1 F2].
    split; [by auto|]. intros Hd. apply F1.
    rewrite format_date_column_other by done. apply Forall2_diag. intros x Hx. by left.
Qed.

(** With distinct metric names, the column of a metric is converted once,
    from the values the frame had for it. *)
Lemma foldR_convert_metric_once df metrics df' m :
  NoDup metrics → m ∈ metrics →
  foldR convert_metric df metrics = Ok df' →
  ∃ dfa dfb, column m dfa = column m df
    ∧ convert_metric dfa m = Ok dfb
    ∧ column m df' = column m dfb.
Proof.
  intros Hnd Hm. revert df. induction metrics as [|x ms IH]; intros df; simpl.
  { by apply elem_of_nil in Hm. }
  apply NoDup_cons in Hnd as [Hx Hnd].
  destruct (convert_metric df x) as [df1|] eqn:H1; simpl; [|done]. intros H2.
  destruct (decide (x = m)) as [->|Hne].
  - exists df, df1. repeat split; [done|].
    by destruct (foldR_convert_metric_Ok _ _ _ H2) as (_ & _ & _ & ->).
  - apply elem_of_cons in Hm as [->|Hm]; [done|].
    destruct (IH Hnd Hm df1 H2) as (dfa & dfb & Ha & Hb & Hc).
    exists dfa, dfb. repeat split; try done.
    destruct (convert_metric_Ok _ _ _ H1) as (_ & _ & _ & Ho & _).
    by rewrite Ha, Ho.
Qed.

Lemma format_dataframe_once now df dimensions metrics out m :
  empty df = false →
  format_dataframe now df dimensions metrics = Ok out →
  NoDup metrics → m ∈ metrics → m ≠ "date" →
  if bool_decide (m ∈ ratio_metrics)
  then Forall2 parsed_and_rounded (column m df) (column m out)
  else Forall2 parsed_as_integer (column m df) (column m out).
Proof.
  intros He (df2 & H2 & Hc & Hl & Ho)%format_dataframe_Ok Hnd Hm Hd; [|done].
  destruct (foldR_convert_metric_Ok _ _ _ H2) as (_ & _ & Hf & _).
  rewrite Forall_forall in Hf. pose proof (Hf m Hm) as Hin.
  rewrite format_date_column_columns in Hin. rewrite (Ho m Hin).
  destruct (foldR_convert_metric_once _ _ _ m Hnd Hm H2) as (dfa & dfb & Ha & Hb & ->).
  rewrite format_date_column_other in Ha by done. rewrite <-Ha.
  destruct (convert_metric_Ok _ _ _ Hb) as (_ & _ & _ & _ & Hx).
  case_bool_decide.
  - rewrite Hx. apply Forall2_fmap_r.
    eapply Forall2_impl; [apply to_numeric_Forall2|]. intros x n Hn. by exists n.
  - eapply Forall2_impl;
      [exact (Forall2_compose _ _ _ _ _ (to_numeric_Forall2 (column m dfa)) Hx)|].
    done.
Qed.

Lemma Forall2_and_right {A B} (P : A → B → Prop) (Q : B → Prop) l k :
  Forall2 P l k → Forall Q k → Forall2 (λ x y, P x y ∧ Q y) l k.
Proof. induction 1; intros HQ; inv HQ; constructor; auto. Qed.



(** ** Dates *)

Arguments digit_char : simpl never.
Arguments pad2 : simpl never.
Arguments pad4 : simpl never.

Lemma digit_digit_char a : 0 ≤ a < 10 → digit (digit_char a) = Some a.
Proof.
  intros Ha.
  assert (a = 0 ∨ a = 1 ∨ a = 2 ∨ a = 3 ∨ a = 4 ∨ a = 5 ∨ a = 6 ∨ a = 7 ∨ a = 8 ∨ a = 9)
    as Hc by lia.
  repeat (destruct Hc as [->|Hc]; [reflexivity|]). by subst.
Qed.

Lemma read_fixed_S n c s acc d :
  digit c = Some d →
  read_fixed (S n) (String c s) acc = read_fixed n s (10 * acc + d).
Proof. intros Hd. cbn [read_fixed]. by rewrite Hd. Qed.

Lemma read_fixed_pad2 n s acc :
  0 ≤ n < 100 → read_fixed 2 (pad2 n +:+ s) acc = Some (100 * acc + n, s).
Proof.
  intros Hn. unfold pad2. cbv [String.append].
  rewrite (read_fixed_S _ _ _ _ (n / 10 mod 10))
    by (apply digit_digit_char, Z.mod_pos_bound; lia).
  rewrite (read_fixed_S _ _ _ _ (n mod 10))
    by (apply digit_digit_char, Z.mod_pos_bound; lia).
  cbn [read_fixed]. do 2 f_equal. Z.div_mod_to_equations; lia.
Qed.

Lemma read_fixed_pad4 n s :
  0 ≤ n < 10000 → read_fixed 4 (pad4 n +:+ s) 0 = Some (n, s).
Proof.
  intros Hn. unfold pad4, pad2. cbv [String.append].
  rewrite (read_fixed_S _ _ _ _ (n / 1000 mod 10))
    by (apply digit_digit_char, Z.mod_pos_bound; lia).
  rewrite (read_fixed_S _ _ _ _ (n / 100 mod 10))
    by (apply digit_digit_char, Z.mod_pos_bound; lia).
  rewrite (read_fixed_S _ _ _ _ (n / 10 mod 10))
    by (apply digit_digit_char, Z.mod_pos_bound; lia).
  rewrite (read_fixed_S _ _ _ _ (n mod 10))
    by (apply digit_digit_char, Z.mod_pos_bound; lia).
  cbn [read_fixed]. do 2 f_equal.
  replace (n / 1000) with (n / 10 / 10 / 10) by (by rewrite !Z.div_div by lia).
  replace (n / 100) with (n / 10 / 10) by (by rewrite !Z.div_div by lia).
  Z.div_mod_to_equations; lia.
Qed.

Lemma valid_date_bounds y m d :
  valid_date y m d = true → 1 ≤ y ≤ 9999 ∧ 1 ≤ m ≤ 12 ∧ 1 ≤ d ≤ 31.
Proof.
  unfold valid_date. rewrite !andb_true_iff, !Z.leb_le.
  intros [[[[[??]?]?]?] Hd].
  assert (days_in_month y m ≤ 31); [|lia].
  unfold days_in_month. repeat case_match; lia.
Qed.

(** A date in the compact form is read as that date. *)
Lemma strptime_compact_date y m d :
  valid_date y m d = true → strptime_Ymd (compact_date y m d) = Some (y, m, d).
Proof.
  intros Hv. destruct (valid_date_bounds _ _ _ Hv) as (Hy & Hm & Hd).
  unfold strptime_Ymd, compact_date.
  rewrite read_fixed_pad4 by lia. cbn [mbind option_bind].
  rewrite read_fixed_pad2 by lia. cbn [mbind option_bind].
  replace (pad2 d) with (pad2 d +:+ "") by (unfold pad2; reflexivity).
  rewrite read_fixed_pad2 by lia. cbn [mbind option_bind].
  replace (100 * 0 + m) with m by lia. replace (100 * 0 + d) with d by lia.
  by rewrite Hv, bool_decide_eq_true_2 by done.
Qed.

Lemma same_but_date_set_column a b m vals :
  same_but_date a b → length vals = length (rows a) →
  same_but_date (set_column m vals a) (set_column m vals b).
Proof.
  intros (Hc & Hl & Ho) Hv. repeat split; [done|..].
  - rewrite !length_set_column; congruence.
  - intros c Hd. destruct (decide (m = c)) as [->|Hne].
    + rewrite !column_set_column; congruence.
    + rewrite !column_set_column_ne; try congruence. by apply Ho.
Qed.

Lemma same_but_date_format_date_column df : same_but_date (format_date_column df) df.
Proof.
  repeat split.
  - apply format_date_column_columns.
  - apply format_date_column_length.
  - intros c Hc. by apply format_date_column_other.
Qed.

Lemma same_but_date_sym a b : same_but_date a b → same_but_date b a.
Proof. intros (Hc & Hl & Ho). repeat split; try done. intros c Hd. by rewrite Ho. Qed.

Lemma same_but_date_trans a b c :
  same_but_date a b → same_but_date b c → same_but_date a c.
Proof.
  intros (Hc & Hl & Ho) (Hc' & Hl' & Ho'). repeat split; try congruence.
  intros x Hd. by rewrite Ho, Ho'.
Qed.

Lemma convert_metric_same a b m :
  same_but_date a b → m ≠ "date" →
  same_outcome (convert_metric a m) (convert_metric b m).
Proof.
  intros Hs Hd. pose proof Hs as (Hc & Hl & Ho).
  unfold convert_metric, has_column. rewrite <-Hc, <-(Ho m Hd).
  case_bool_decide; [|done]. case_bool_decide.
  - apply same_but_date_set_column; [done|].
    by rewrite length_fmap, length_to_numeric, length_column.
  - destruct (mapR _ _) as [vals|] eqn:Hv; simpl; [|done].
    apply same_but_date_set_column; [done|].
    apply mapR_Forall2, Forall2_length in Hv.
    by rewrite <-Hv, length_fmap, length_to_numeric, length_column.
Qed.

Lemma foldR_convert_metric_same a b metrics :
  same_but_date a b → "date" ∉ metrics →
  same_outcome (foldR convert_metric a metrics) (foldR convert_metric b metrics).
Proof.
  revert a b. induction metrics as [|m ms IH]; intros a b Hs Hd; simpl; [done|].
  apply not_elem_of_cons in Hd as [Hm Hd].
  pose proof (convert_metric_same a b m Hs (not_eq_sym Hm)) as H1.
  destruct (convert_metric a m), (convert_metric b m); simpl in *; try done.
  by apply IH.
Qed.

Lemma insert_column_same a b loc c v :
  same_but_date a b →
  same_outcome (insert_column loc c v a) (insert_column loc c v b).
Proof.
  intros (Hc & Hl & Ho). unfold insert_column, has_column. rewrite <-Hc.
  case_bool_decide as Hin; [done|]. repeat split; simpl.
  - by rewrite !length_fmap.
  - intros x Hd. unfold column in *. simpl. rewrite <-!list_fmap_compose.
    destruct (decide (c = x)) as [->|Hne].
    + apply list_eq_same_length with (length (rows a));
        rewrite ?length_fmap; [done|done|].
      intros i y z _. rewrite !list_lookup_fmap.
      destruct (rows a !! i), (rows b !! i); simpl; try done.
      rewrite !lookup_insert_eq. congruence.
    + specialize (Ho x Hd). etrans; [|etrans; [exact Ho|]].
      * apply list_fmap_ext. intros _ r _. simpl. by apply lookup_insert_ne.
      * apply list_fmap_ext. intros _ r _. simpl. symmetry. by apply lookup_insert_ne.
Qed.

Lemma empty_same a b : same_but_date a b → empty a = empty b.
Proof.
  intros (Hc & Hl & _). unfold empty. rewrite <-Hc.
  destruct (columns a), (rows a), (rows b); simplify_eq/=; done.
Qed.

(** Whether [format_dataframe] returns or raises does not depend on the
    values of the 'date' column. *)
Lemma format_dataframe_same now a b dimensions metrics :
  same_but_date a b → "date" ∉ metrics →
  is_Ok (format_dataframe now a dimensions metrics)
  = is_Ok (format_dataframe now b dimensions metrics).
Proof.
  intros Hs Hd. unfold format_dataframe. rewrite <-(empty_same a b Hs).
  destruct (empty a); [done|].
  fold (format_date_column a). fold (format_date_column b).
  assert (same_but_date (format_date_column a) (format_date_column b)) as Hf.
  { eapply same_but_date_trans; [apply same_but_date_format_date_column|].
    eapply same_but_date_trans; [exact Hs|].
    apply same_but_date_sym, same_but_date_format_date_column. }
  pose proof (foldR_convert_metric_same _ _ metrics Hf Hd) as H2.
  destruct (foldR _ (format_date_column a) _) as [a2|],
    (foldR _ (format_date_column b) _) as [b2|]; simpl in *; try done.
  pose proof (insert_column_same a2 b2 0 "last_updated" (Str now) H2) as H3.
  destruct (insert_column 0 _ _ a2) as [a3|], (insert_column 0 _ _ b2) as [b3|];
    simpl in *; try done.
  pose proof (insert_column_same a3 b3 1 "data_freshness" (Str "live") H3) as H4.
  by destruct (insert_column 1 _ _ a3), (insert_column 1 _ _ b3).
Qed.


Example compact_date_20240315 : compact_date 2024 3 15 = "20240315".
Proof. reflexivity. Qed.

Example strftime_iso_20240315 : strftime_iso (2024, 3, 15) = "2024-03-15".
Proof. reflexivity. Qed.






(** ** Running the fetcher, the writer and the driver *)

Ltac run :=
  unfold sync_data, setup_clients, update_google_sheet, select_worksheet,
    get_worksheet, get_existing_sheet_data, format_sheet_header, fetch_ga4_data,
    try_except, sheet_op, read_sheet, logger, lift, raise,
    mbind, M_bind, mret, M_ret in *;
  cbn [sheet calls log fst snd] in *.

Lemma get_existing_sheet_data_run env w :
  ∃ w', get_existing_sheet_data env w = (Ok (existing_of env (sheet w)), w')
    ∧ sheet w' = sheet w
    ∧ calls w' = calls w ++ [ReadAll].
Proof.
  unfold existing_of. run. destruct (get_as_dataframe env); simpl.
  { eexists. split; [reflexivity|]. done. }
  destruct (empty (dropna_columns (dropna_rows (sheet w)))); simpl;
    eexists; (split; [reflexivity|]); done.
Qed.

Lemma format_sheet_header_run env w :
  ∃ w', format_sheet_header env w = (Ok (), w')
    ∧ sheet w' = sheet w
    ∧ calls w `prefix_of` calls w'
    ∧ (format env = None → columns_auto_resize env = None → log w' = log w)
    ∧ (format env ≠ None ∨ columns_auto_resize env ≠ None →
       log w' = log w ++ [(WARNING, "Header formatting failed")]).
Proof.
  run. destruct (format env), (columns_auto_resize env); simpl;
    eexists; (split; [reflexivity|]); (split; [done|]); simpl;
    (split; [rewrite <-?(assoc_L (++)); by eexists|]); naive_solver.
Qed.

Ltac run_reader :=
  match goal with
  | |- context [get_existing_sheet_data ?e ?w] =>
      let w' := fresh "w" in
      let Hs := fresh "Hs" in
      let Hc := fresh "Hc" in
      destruct (get_existing_sheet_data_run e w) as (w' & -> & Hs & Hc);
      cbn [sheet calls log] in Hs, Hc
  end.

Ltac run_header :=
  match goal with
  | |- context [format_sheet_header ?e ?w] =>
      let w' := fresh "w" in
      let Hs := fresh "Hs" in
      let Hl := fresh "Hl" in
      let Hw := fresh "Hw" in
      let Hp := fresh "Hp" in
      destruct (format_sheet_header_run e w) as (w' & -> & Hs & Hp & Hl & Hw);
      cbn [sheet calls log] in Hs, Hp, Hl, Hw
  end.

Ltac run_update :=
  unfold update_google_sheet, select_worksheet, get_worksheet, try_except,
    sheet_op, logger, lift, raise, mbind, M_bind, mret, M_ret;
  cbn [sheet calls log fst snd].

Lemma update_google_sheet_run `{ArgSort} env df worksheet_name w :
  empty df = false →
  ∃ r w', update_google_sheet env df worksheet_name w = (r, w')
    ∧ match update_outcome env df worksheet_name (sheet w) with
      | Ok final_df =>
          r = Ok () ∧ sheet w' = final_df
          ∧ Clear ∈ calls w' ∧ Write final_df ∈ calls w'
          ∧ (format env ≠ None ∨ columns_auto_resize env ≠ None →
             (WARNING, "Header formatting failed") ∈ log w')
      | Raise e => r = Raise e
      end.
Proof.
  intros He. unfold update_outcome, select_outcome. run_update. rewrite He.
  destruct (open_by_key env) as [e|]; simpl; [eauto|].
  destruct worksheet_name as [name|], (worksheet env) as [| |[]];
    simpl; eauto; try (destruct (add_worksheet env); simpl; eauto);
    run_reader; rewrite Hs;
    (destruct (sort_by_date _) as [final_df|]; simpl; [|by eauto]);
    (destruct (clear env); simpl; [by eauto|]);
    (destruct (set_with_dataframe env); simpl; [by eauto|]);
    run_header; simpl; eexists _, _; (split; [reflexivity|]);
    (split; [done|]); (split; [done|]);
    (split; [eapply elem_of_prefix; [|exact Hp]; set_solver|]);
    (split; [eapply elem_of_prefix; [|exact Hp]; set_solver|]);
    intros Hf; rewrite (Hw Hf); set_solver.
Qed.

Lemma fetch_ga4_data_run env dimensions metrics w :
  ∃ w', fetch_ga4_data env dimensions metrics w
        = (fetch_outcome env dimensions metrics, w')
    ∧ sheet w' = sheet w ∧ calls w' = calls w.
Proof.
  unfold fetch_outcome. run.
  destruct (run_report env) as [[|r rs]|e]; simpl; try (by eexists).
  destruct (DataFrame_of _ _) as [df|e]; simpl; try (by eexists).
  destruct (format_dataframe _ _ _ _) as [out|e]; simpl; by eexists.
Qed.

Arguments fetch_ga4_data : simpl never.
Arguments update_google_sheet : simpl never.

Lemma sync_data_run `{ArgSort} env dimensions metrics worksheet_name w :
  ∃ r w', sync_data env dimensions metrics worksheet_name w = (r, w')
    ∧ match setup env with
      | Some e => r = Raise e ∧ sheet w' = sheet w ∧ calls w' = calls w
      | None =>
          match fetch_outcome env dimensions metrics with
          | Raise e => r = Raise e ∧ sheet w' = sheet w ∧ calls w' = calls w
          | Ok df =>
              if empty df
              then r = Ok () ∧ sheet w' = sheet w ∧ calls w' = calls w
              else
                match update_outcome env df worksheet_name (sheet w) with
                | Ok final_df => r = Ok () ∧ sheet w' = final_df
                | Raise e => r = Raise e
                end
          end
      end.
Proof.
  unfold sync_data, setup_clients, try_except, logger, raise, mbind, M_bind, mret, M_ret.
  cbn [sheet calls log].
  destruct (setup env) as [e|]; simpl; [by eexists _, _|].
  match goal with
  | |- context [fetch_ga4_data ?e ?d ?m ?w0] =>
      destruct (fetch_ga4_data_run e d m w0) as (w1 & -> & Hs1 & Hc1)
  end.
  cbn [sheet calls log] in Hs1, Hc1.
  destruct (fetch_outcome env dimensions metrics) as [df|e]; simpl;
    [|by eexists _, _].
  destruct (empty df) eqn:He; simpl; [by eexists _, _|].
  destruct (update_google_sheet_run env df worksheet_name w1 He) as (r & w2 & -> & Hr).
  rewrite Hs1 in Hr.
  destruct (update_outcome env df worksheet_name (sheet w)) as [final_df|e].
  - destruct Hr as (-> & Hsh & _). simpl. by eexists _, _.
  - rewrite Hr. simpl. by eexists _, _.
Qed.

(** C6. When the API returns no rows, the fetch returns the empty record set
    and raises nothing; the sync then leaves the sheet as it was and makes no
    call on it, neither a clear nor a write, and it returns normally when the
    clients were set up. Called with an empty record set, the writer does the
    same. *)
Theorem C6_empty_fetch_is_no_op `{ArgSort} env dimensions metrics worksheet_name w :
  run_report env = Ok [] →
  (∃ w1, fetch_ga4_data env dimensions metrics w = (Ok empty_frame, w1))
  ∧ (∃ r w', sync_data env dimensions metrics worksheet_name w = (r, w')
       ∧ sheet w' = sheet w ∧ calls w' = calls w
       ∧ (setup env = None → r = Ok ()))
  ∧ (∀ df, empty df = true →
       ∃ w', update_google_sheet env df worksheet_name w = (Ok (), w')
         ∧ sheet w' = sheet w ∧ calls w' = calls w).
Proof.
  intros Hr.
  assert (fetch_outcome env dimensions metrics = Ok empty_frame) as Hf.
  { unfold fetch_outcome. by rewrite Hr. }
  split; [|split].
  - destruct (fetch_ga4_data_run env dimensions metrics w) as (w1 & Hw & _).
    exists w1. by rewrite Hw, Hf.
  - destruct (sync_data_run env dimensions metrics worksheet_name w) as (r & w' & Hs & Ho).
    exists r, w'. split; [done|]. rewrite Hf in Ho. simpl in Ho.
    destruct (setup env); naive_solver.
  - intros df He. unfold update_google_sheet, logger. rewrite He. by eexists.
Qed.

Lemma update_outcome_formatting `{ArgSort} env f r df worksheet_name sh :
  update_outcome (with_formatting env f r) df worksheet_name sh
  = update_outcome env df worksheet_name sh.
Proof. reflexivity. Qed.

Lemma update_outcome_not_Ok `{ArgSort} env df worksheet_name sh :
  open_by_key env ≠ None ∨ select_outcome env worksheet_name ≠ None
  ∨ clear env ≠ None ∨ set_with_dataframe env ≠ None →
  is_Ok (update_outcome env df worksheet_name sh) = false.
Proof.
  unfold update_outcome. intros Hf.
  destruct (open_by_key env); [done|].
  destruct (select_outcome env worksheet_name); [done|].
  destruct (sort_by_date _); [|done].
  destruct (clear env); [done|].
  destruct (set_with_dataframe env); [done|]. naive_solver.
Qed.

(** C7. For a non-empty record set, a failure of the header formatting or of
    the column resize does not change the result of the writer: it is the
    result the writer has when the formatting succeeds; when the writer
    returns, the sheet holds the same data in both cases, the data was
    written, and the failure has been logged as a warning. A failure of
    opening the spreadsheet is raised to the caller as it is, and a failure of
    selecting the worksheet, of the clear or of the write makes the writer
    raise; the driver then raises the same exception. *)
Theorem C7_only_formatting_failures_are_caught `{ArgSort}
    env f r df worksheet_name w :
  empty df = false →
  let env' := with_formatting env f r in
  let run := update_google_sheet env' df worksheet_name w in
  let run0 := update_google_sheet (with_formatting env None None) df worksheet_name w in
  run.1 = run0.1
  ∧ (run.1 = Ok () →
     sheet run.2 = sheet run0.2
     ∧ Write (sheet run.2) ∈ calls run.2
     ∧ (f ≠ None ∨ r ≠ None → (WARNING, "Header formatting failed") ∈ log run.2))
  ∧ (∀ e, open_by_key env = Some e → run.1 = Raise e)
  ∧ (open_by_key env ≠ None ∨ select_outcome env worksheet_name ≠ None
     ∨ clear env ≠ None ∨ set_with_dataframe env ≠ None →
     is_Ok run.1 = false)
  ∧ (∀ dimensions metrics e w0,
       setup env = None →
       fetch_outcome env' dimensions metrics = Ok df →
       sheet w0 = sheet w →
       run.1 = Raise e →
       (sync_data env' dimensions metrics worksheet_name w0).1 = Raise e).
Proof.
  intros He env' run run0.
  destruct (update_google_sheet_run env' df worksheet_name w He) as (r1 & w1 & Hrun & H1).
  destruct (update_google_sheet_run (with_formatting env None None) df worksheet_name w He)
    as (r0 & w0 & Hrun0 & H0).
  subst run run0. rewrite Hrun, Hrun0. cbn [fst snd].
  unfold env' in H1. rewrite update_outcome_formatting in H1, H0.
  assert (∀ e, update_outcome env df worksheet_name (sheet w) = Raise e → r1 = Raise e)
    as Hraise.
  { intros e He'. by rewrite He' in H1. }
  split; [|split; [|split; [|split]]].
  - destruct (update_outcome env df worksheet_name (sheet w)) as [final_df|e].
    + by destruct H1 as (-> & _), H0 as (-> & _).
    + by subst.
  - intros ->. destruct (update_outcome env df worksheet_name (sheet w)) as [final_df|e];
      [|done].
    destruct H1 as (_ & -> & _ & Hw & Hl), H0 as (_ & -> & _). done.
  - intros e Ho. apply Hraise. unfold update_outcome. by rewrite Ho.
  - intros Hf. pose proof (update_outcome_not_Ok env df worksheet_name (sheet w) Hf) as Hn.
    destruct (update_outcome env df worksheet_name (sheet w)); [done|]. by subst.
  - intros dimensions metrics e w2 Hs Hfo Hsh ->.
    destruct (sync_data_run env' dimensions metrics worksheet_name w2)
      as (r2 & w3 & -> & Ho).
    cbn [fst]. change (setup env') with (setup env) in Ho.
    rewrite Hs, Hfo, He, Hsh in Ho. unfold env' in Ho.
    rewrite update_outcome_formatting in Ho.
    destruct (update_outcome env df worksheet_name (sheet w)) as [final_df|e'].
    + by destruct H1.
    + congruence.
Qed.

(** ** An empty existing record set *)

Lemma existing_of_empty_frame env : existing_of env empty_frame = empty_frame.
Proof. unfold existing_of. by destruct (get_as_dataframe env). Qed.

Lemma existing_of_read_fails env e sh :
  get_as_dataframe env = Some e → existing_of env sh = empty_frame.
Proof. unfold existing_of. by intros ->. Qed.

Lemma combine_empty_existing df existing_df :
  empty existing_df = true →
  combine df (drop_duplicate_dates df existing_df) = df.
Proof.
  intros He. unfold drop_duplicate_dates, combine. rewrite He. simpl. by rewrite He.
Qed.

(** A run of the writer that returns, with nothing read from the sheet,
    writes the new record set sorted by date. *)
Lemma update_google_sheet_new_only `{ArgSort} env df worksheet_name w w' :
  empty df = false →
  empty (existing_of env (sheet w)) = true →
  update_google_sheet env df worksheet_name w = (Ok (), w') →
  sort_by_date df = Ok (sheet w').
Proof.
  intros He Hx Hrun.
  destruct (update_google_sheet_run env df worksheet_name w He) as (r & w1 & Hrun1 & Ho).
  rewrite Hrun in Hrun1. simplify_eq. unfold update_outcome in Ho.
  destruct (open_by_key env); [done|].
  destruct (select_outcome env worksheet_name); [done|].
  assert (empty (existing_of env
            match worksheet env, worksheet_name with
            | Found, _ => sheet w
            | _, _ => empty_frame
            end) = true) as Hx'.
  { destruct (worksheet env), worksheet_name; try done;
      by rewrite existing_of_empty_frame. }
  rewrite (combine_empty_existing _ _ Hx') in Ho.
  destruct (sort_by_date df) as [final_df|]; [|done].
  destruct (clear env); [done|]. destruct (set_with_dataframe env); [done|].
  by destruct Ho as (_ & -> & _).
Qed.

Lemma sort_by_date_same_rows `{ArgSort} df out :
  sort_by_date df = Ok out →
  columns out = columns df
  ∧ rows out ≡ₚ rows df
  ∧ (has_column "date" df = false → out = df)
  ∧ (has_column "date" df = true → StronglySorted date_ge (column "date" out)).
Proof.
  intros Hs. destruct (has_column "date" df) eqn:Hd.
  - destruct (sort_by_date_Ok df out Hd Hs) as (Hc & Hp & Hsorted). by repeat split.
  - rewrite sort_by_date_no_date in Hs by done. simplify_eq. by repeat split.
Qed.

(** ** What the writer writes *)

Lemma sort_by_date_descending `{ArgSort} final_df out :
  has_column "date" final_df = true →
  sort_by_date final_df = Ok out →
  columns out = columns final_df
  ∧ rows out ≡ₚ rows final_df
  ∧ StronglySorted date_ge (column "date" out)
  ∧ ∀ i j s t, (i < j)%nat →
      column "date" out !! i = Some (Some (Str s)) →
      column "date" out !! j = Some (Some (Str t)) →
      String.le t s.
Proof.
  intros Hd (Hc & Hp & Hs)%sort_by_date_Ok; [|done]. repeat split; try done.
  intros i j s t Hij Hi Hj.
  destruct (StronglySorted_lookup_lt _ _ _ _ _ _ Hs Hij Hi Hj) as (x & [= <-] & Hle).
  by apply value_le_str.
Qed.

(** A run of the writer that returns has written the reconciled record set,
    sorted by date. *)
Lemma update_google_sheet_Ok `{ArgSort} env df worksheet_name w w' :
  empty df = false →
  update_google_sheet env df worksheet_name w = (Ok (), w') →
  ∃ sh, (sh = sheet w ∨ sh = empty_frame)
    ∧ sort_by_date (combine df (drop_duplicate_dates df (existing_of env sh)))
      = Ok (sheet w')
    ∧ Clear ∈ calls w' ∧ Write (sheet w') ∈ calls w'.
Proof.
  intros He Hrun.
  destruct (update_google_sheet_run env df worksheet_name w He) as (r & w1 & Hrun1 & Ho).
  rewrite Hrun in Hrun1. simplify_eq. unfold update_outcome in Ho.
  destruct (open_by_key env); [done|].
  destruct (select_outcome env worksheet_name); [done|].
  match type of Ho with
  | context [existing_of env ?s] => exists s
  end.
  split; [destruct (worksheet env), worksheet_name; auto|].
  destruct (sort_by_date _) as [final_df|]; [|done].
  destruct (clear env); [done|]. destruct (set_with_dataframe env); [done|].
  by destruct Ho as (_ & -> & ? & ? & _).
Qed.

(** The writer returns when the service answers its calls and the sort of the
    reconciled record set returns. *)
Lemma update_google_sheet_returns `{ArgSort} env df worksheet_name w :
  empty df = false →
  open_by_key env = None →
  select_outcome env worksheet_name = None →
  clear env = None →
  set_with_dataframe env = None →
  (∀ sh, sh = sheet w ∨ sh = empty_frame →
     is_Ok (sort_by_date (combine df (drop_duplicate_dates df (existing_of env sh))))
     = true) →
  (update_google_sheet env df worksheet_name w).1 = Ok ().
Proof.
  intros He Ho Hsel Hc Hw Hs.
  destruct (update_google_sheet_run env df worksheet_name w He) as (r & w1 & -> & Hr).
  unfold update_outcome in Hr. rewrite Ho, Hsel, Hc, Hw in Hr.
  match type of Hr with
  | context [existing_of env ?s] =>
      assert (s = sheet w ∨ s = empty_frame) as Hsh
        by (destruct (worksheet env), worksheet_name; auto);
      specialize (Hs s Hsh)
  end.
  destruct (sort_by_date _); [|done]. by destruct Hr.
Qed.

(** With nothing read from the sheet, the writer returns when the service
    answers its calls and the sort of the new record set returns. *)
Lemma update_google_sheet_new_only_returns `{ArgSort} env df worksheet_name w :
  empty df = false →
  empty (existing_of env (sheet w)) = true →
  open_by_key env = None →
  select_outcome env worksheet_name = None →
  clear env = None →
  set_with_dataframe env = None →
  is_Ok (sort_by_date df) = true →
  (update_google_sheet env df worksheet_name w).1 = Ok ().
Proof.
  intros He Hx Ho Hsel Hc Hw Hs.
  apply update_google_sheet_returns; try done.
  intros sh [->| ->]; rewrite combine_empty_existing; try done.
  by rewrite existing_of_empty_frame.
Qed.

(** C8, as the code has it. When the record set read from the sheet is empty
    and the writer returns, the sheet holds the new record set sorted by date:
    the same columns and the same rows, in descending order of the dates when
    there is a 'date' column, and the new record set itself when there is
    none. The writer does return when the service answers its calls and the
    sort of the new record set returns. *)
Theorem C8_empty_existing_writes_new_sorted `{ArgSort}
    env df worksheet_name w w' existing_df :
  empty df = false →
  (get_existing_sheet_data env w).1 = Ok existing_df →
  empty existing_df = true →
  update_google_sheet env df worksheet_name w = (Ok (), w') →
  sort_by_date df = Ok (sheet w')
  ∧ columns (sheet w') = columns df
  ∧ rows (sheet w') ≡ₚ rows df
  ∧ (has_column "date" df = false → sheet w' = df)
  ∧ (has_column "date" df = true → StronglySorted date_ge (column "date" (sheet w')))
  ∧ (open_by_key env = None → select_outcome env worksheet_name = None →
     clear env = None → set_with_dataframe env = None →
     is_Ok (sort_by_date df) = true →
     ∀ w0, sheet w0 = sheet w →
       (update_google_sheet env df worksheet_name w0).1 = Ok ()).
Proof.
  intros He Hread Hx Hrun.
  destruct (get_existing_sheet_data_run env w) as (w1 & Hr & _).
  rewrite Hr in Hread. simpl in Hread. simplify_eq.
  pose proof (update_google_sheet_new_only env df worksheet_name w w' He Hx Hrun) as Hs.
  split; [done|].
  destruct (sort_by_date_same_rows _ _ Hs) as (? & ? & ? & ?).
  repeat (split; [done|]).
  intros Ho Hsel Hc Hw Hok w0 Hw0.
  apply update_google_sheet_new_only_returns; try done. by rewrite Hw0.
Qed.

(** C9. Reading the sheet never raises: [get_existing_sheet_data] returns a
    record set whatever the service answers, and the empty one when the read
    fails. After a failed read, a run of the writer that returns has written
    the new record set sorted by date, and nothing of what the sheet held;
    the writer does return when the service answers its other calls and the
    sort of the new record set returns. *)
Theorem C9_failed_read_discards_sheet `{ArgSort} env df worksheet_name w e :
  get_as_dataframe env = Some e →
  (∀ env0 w0, is_Ok (get_existing_sheet_data env0 w0).1 = true)
  ∧ (∃ w1, get_existing_sheet_data env w = (Ok empty_frame, w1) ∧ sheet w1 = sheet w)
  ∧ (empty df = false →
     ∀ w', update_google_sheet env df worksheet_name w = (Ok (), w') →
       sort_by_date df = Ok (sheet w')
       ∧ columns (sheet w') = columns df
       ∧ rows (sheet w') ≡ₚ rows df)
  ∧ (empty df = false →
     open_by_key env = None → select_outcome env worksheet_name = None →
     clear env = None → set_with_dataframe env = None →
     is_Ok (sort_by_date df) = true →
     (update_google_sheet env df worksheet_name w).1 = Ok ()).
Proof.
  intros Hread.
  assert (empty (existing_of env (sheet w)) = true) as Hx0.
  { by rewrite (existing_of_read_fails _ _ _ Hread). }
  split; [|split; [|split]];
    [| | |intros; by apply update_google_sheet_new_only_returns].
  - intros env0 w0. destruct (get_existing_sheet_data_run env0 w0) as (w1 & -> & _). done.
  - destruct (get_existing_sheet_data_run env w) as (w1 & Hr & Hs & _).
    rewrite (existing_of_read_fails _ _ _ Hread) in Hr. eauto.
  - intros He w' Hrun.
    assert (empty (existing_of env (sheet w)) = true) as Hx.
    { by rewrite (existing_of_read_fails _ _ _ Hread). }
    pose proof (update_google_sheet_new_only env df worksheet_name w w' He Hx Hrun) as Hs.
    split; [done|]. destruct (sort_by_date_same_rows _ _ Hs) as (? & ? & _). done.
Qed.

(** C10. [format_dataframe] returns an empty record set as it is: no column
    is converted and none is added. A record set that [fetch_ga4_data] returns
    and that is empty has no columns. *)
Theorem C10_empty_record_set_is_returned_unchanged now df dimensions metrics :
  empty df = true →
  format_dataframe now df dimensions metrics = Ok df
  ∧ ∀ env dims mets w out w',
      fetch_ga4_data env dims mets w = (Ok out, w') →
      empty out = true → columns out = [].
Proof.
  intros He. split; [by apply format_dataframe_empty|].
  intros env dims mets w out w' Hf Ho.
  destruct (fetch_ga4_data_run env dims mets w) as (w1 & Hr & _).
  rewrite Hf in Hr. injection Hr as Hr _. symmetry in Hr.
  unfold fetch_outcome in Hr.
  destruct (run_report env) as [[|r rs]|]; simplify_eq/=; [done|].
  unfold DataFrame_of in Hr. case_bool_decide; simplify_eq/=.
  match type of Hr with
  | format_dataframe _ ?d _ _ = _ => destruct (empty d) eqn:Hraw
  end.
  - rewrite format_dataframe_empty in Hr by done. simplify_eq.
    unfold empty in Hraw. simpl in *. by destruct (_ ++ _).
  - destruct (format_dataframe_Ok _ _ _ _ _ Hraw Hr) as (_ & _ & Hc & Hl & _).
    unfold empty in Ho. rewrite Hc in Ho. simpl in Hl.
    destruct (rows out); [done|]. done.
Qed.

(** ** The claims on concrete runs *)

Lemma C1_new_dates_supersede_witness :
  surviving new_rows old_sheet
    = [ {[ "date" := Str "2024-01-02"; "sessions" := Int 5 ]};
        {[ "date" := Str "2024-01-01"; "sessions" := Int 7 ]} ]
  ∧ rows (combine new_rows (drop_duplicate_dates new_rows old_sheet))
    = rows new_rows ++ surviving new_rows old_sheet.
Proof.
  split; [vm_compute; reflexivity|].
  apply (C1_new_dates_supersede new_rows old_sheet); vm_compute; reflexivity.
Defined.

Lemma C6_empty_fetch_is_no_op_witness :
  ∃ r w', @sync_data stable_sort (quiet_env []) None None None
            (mkWorld old_sheet [] []) = (r, w')
    ∧ sheet w' = old_sheet ∧ calls w' = []
    ∧ (setup (quiet_env []) = None → r = Ok ()).
Proof.
  exact (proj1 (proj2 (@C6_empty_fetch_is_no_op stable_sort (quiet_env []) None None None
                         (mkWorld old_sheet [] []) eq_refl))).
Defined.

Lemma C7_only_formatting_failures_are_caught_witness :
  let env := with_formatting (quiet_env []) (Some (ExternalError "format")) None in
  let run := @update_google_sheet stable_sort env new_rows None (mkWorld old_sheet [] []) in
  run.1 = Ok ()
  ∧ column "date" (sheet run.2)
    = [Some (Str "2024-01-04"); Some (Str "2024-01-03"); Some (Str "2024-01-03");
       Some (Str "2024-01-02"); Some (Str "2024-01-01")]
  ∧ (WARNING, "Header formatting failed") ∈ log run.2.
Proof.
  split; [vm_compute; reflexivity|]. split; [vm_compute; reflexivity|].
  refine (proj2 (proj2 (proj1 (proj2
    (@C7_only_formatting_failures_are_caught stable_sort (quiet_env [])
       (Some (ExternalError "format")) None new_rows None
       (mkWorld old_sheet [] []) eq_refl)) _)) _).
  - vm_compute; reflexivity.
  - left. discriminate.
Defined.

Lemma C8_empty_existing_writes_new_sorted_witness :
  ∃ w', @update_google_sheet stable_sort (quiet_env []) three_days None fresh_world
        = (Ok (), w')
    ∧ @sort_by_date stable_sort three_days = Ok (sheet w')
    ∧ column "date" (sheet w')
      = [Some (Str "2024-01-03"); Some (Str "2024-01-02"); Some (Str "2024-01-01"); None].
Proof.
  eexists. split; [vm_compute; reflexivity|]. split; [|vm_compute; reflexivity].
  refine (proj1 (@C8_empty_existing_writes_new_sorted stable_sort (quiet_env [])
                   three_days None fresh_world _ empty_frame _ _ _ _));
    vm_compute; reflexivity.
Defined.

(** C8 as stated fails: nothing is read from the sheet, the three days of
    the new record set come oldest first, and the sheet ends with the newest
    day first, so that it does not hold the new record set as it was. *)
Lemma C8_written_is_sorted_counterexample :
  ∃ w', @update_google_sheet stable_sort (quiet_env []) three_days None fresh_world
        = (Ok (), w')
    ∧ (get_existing_sheet_data (quiet_env []) fresh_world).1 = Ok empty_frame
    ∧ column "date" three_days
      = [Some (Str "2024-01-01"); Some (Str "2024-01-02"); None; Some (Str "2024-01-03")]
    ∧ column "date" (sheet w')
      = [Some (Str "2024-01-03"); Some (Str "2024-01-02"); Some (Str "2024-01-01"); None]
    ∧ sheet w' ≠ three_days.
Proof.
  eexists. split; [vm_compute; reflexivity|]. split; [vm_compute; reflexivity|].
  split; [vm_compute; reflexivity|]. split; [vm_compute; reflexivity|].
  intros Heq. apply (f_equal (column "date")) in Heq. vm_compute in Heq. discriminate.
Qed.

Lemma C9_failed_read_discards_sheet_witness :
  ∃ w', @update_google_sheet stable_sort read_fails_env new_rows None
          (mkWorld old_sheet [] []) = (Ok (), w')
    ∧ column "sessions" (sheet w') = [Some (Int 4); Some (Int 9); Some (Int 2)]
    ∧ rows (sheet w') ≡ₚ rows new_rows.
Proof.
  eexists. split; [vm_compute; reflexivity|]. split; [vm_compute; reflexivity|].
  refine (proj2 (proj2 (proj1 (proj2 (proj2
    (@C9_failed_read_discards_sheet stable_sort read_fails_env new_rows None
       (mkWorld old_sheet [] []) (ExternalError "read") eq_refl))) eq_refl _ _))).
  vm_compute; reflexivity.
Defined.

Lemma C10_empty_record_set_is_returned_unchanged_witness :
  format_dataframe "2024-03-16 08:00:00" (mkDF ["date"; "sessions"] [])
    ["date"] ["sessions"]
  = Ok (mkDF ["date"; "sessions"] []).
Proof.
  exact (proj1 (C10_empty_record_set_is_returned_unchanged "2024-03-16 08:00:00"
                  (mkDF ["date"; "sessions"] []) ["date"] ["sessions"] eq_refl)).
Defined.

(** A count that is no integer stops the fetch: the cast to Int64 raises. *)
Example fetch_fractional_count_raises :
  (fetch_ga4_data (quiet_env [(["20240315"], ["12.5"])]) (Some ["date"])
     (Some ["totalRevenue"]) fresh_world).1 = Raise TypeError.
Proof. vm_compute; reflexivity. Qed.

(** C2, as the code has it. When the writer returns for a non-empty record
    set and what it wrote has a 'date' column, the written record set is the
    reconciled record set (the new rows, then the surviving existing rows)
    sorted by date: the same columns and the same rows, the dates in
    descending order with the null dates last, so that of two written rows
    with date strings the later never has the greater string. The sort
    returns whenever the dates are strings or null. The order among the rows
    of one date is whatever the sorting routine gives. *)
Theorem C2_sorted_by_date_descending `{ArgSort} env df worksheet_name w w' :
  empty df = false →
  update_google_sheet env df worksheet_name w = (Ok (), w') →
  has_column "date" (sheet w') = true →
  (∃ existing_df,
     let final_df := combine df (drop_duplicate_dates df existing_df) in
     sort_by_date final_df = Ok (sheet w')
     ∧ columns (sheet w') = columns final_df
     ∧ rows (sheet w') ≡ₚ rows final_df)
  ∧ StronglySorted date_ge (column "date" (sheet w'))
  ∧ (∀ i j s t, (i < j)%nat →
       column "date" (sheet w') !! i = Some (Some (Str s)) →
       column "date" (sheet w') !! j = Some (Some (Str t)) →
       String.le t s)
  ∧ (∀ final_df,
       Forall (λ c : cell, c = None ∨ is_Str c = true) (column "date" final_df) →
       is_Ok (sort_by_date final_df) = true).
Proof.
  intros He Hrun Hd.
  destruct (update_google_sheet_Ok env df worksheet_name w w' He Hrun)
    as (sh & _ & Hs & _).
  destruct (sort_by_date_same_rows _ _ Hs) as (Hc & Hp & _ & _).
  assert (has_column "date"
            (combine df (drop_duplicate_dates df (existing_of env sh))) = true) as Hd'.
  { unfold has_column in *. by rewrite <-Hc. }
  destruct (sort_by_date_descending _ _ Hd' Hs) as (_ & _ & Hsorted & Hstr).
  split; [by exists (existing_of env sh)|].
  split; [done|]. split; [done|]. apply @sort_by_date_strings.
Qed.

Lemma C2_sorted_by_date_descending_witness :
  ∃ w', @update_google_sheet stable_sort (quiet_env []) new_rows None
          (mkWorld old_sheet [] []) = (Ok (), w')
    ∧ column "date" (sheet w')
      = [Some (Str "2024-01-04"); Some (Str "2024-01-03"); Some (Str "2024-01-03");
         Some (Str "2024-01-02"); Some (Str "2024-01-01")]
    ∧ StronglySorted date_ge (column "date" (sheet w')).
Proof.
  eexists. split; [vm_compute; reflexivity|]. split; [vm_compute; reflexivity|].
  refine (proj1 (proj2 (@C2_sorted_by_date_descending stable_sort (quiet_env [])
                          new_rows None (mkWorld old_sheet [] []) _ _ _ _)));
    vm_compute; reflexivity.
Defined.

(** * Further properties of the fetcher *)

Lemma format_dataframe_rows now df dimensions metrics out :
  empty df = false →
  format_dataframe now df dimensions metrics = Ok out →
  ∃ df2, foldR convert_metric (format_date_column df) metrics = Ok df2
    ∧ rows out
      = insert "data_freshness" (Str "live") <$> (insert "last_updated" (Str now) <$> rows df2).
Proof.
  intros He. unfold format_dataframe. rewrite He. fold (format_date_column df).
  destruct (foldR _ _ _) as [df2|] eqn:H2; simpl; [|done].
  destruct (insert_column 0 _ _ df2) as [df3|] eqn:H3; simpl; [|done].
  intros H4. exists df2. split; [done|].
  destruct (insert_column_Ok _ _ _ _ _ H3) as (_ & _ & Hr3).
  destruct (insert_column_Ok _ _ _ _ _ H4) as (_ & _ & Hr4).
  by rewrite Hr4, Hr3.
Qed.

(** The two metadata columns lead the formatted record set, the other columns
    keep their order, no row is added or lost, and every row carries the
    fetch time and the tag "live". *)
Theorem format_dataframe_metadata now df dimensions metrics out :
  empty df = false →
  format_dataframe now df dimensions metrics = Ok out →
  columns out = "last_updated" :: "data_freshness" :: columns df
  ∧ length (rows out) = length (rows df)
  ∧ ∀ r : row, r ∈ rows out →
      r !! "last_updated" = Some (Str now) ∧ r !! "data_freshness" = Some (Str "live").
Proof.
  intros He Hf.
  destruct (format_dataframe_Ok _ _ _ _ _ He Hf) as (_ & _ & Hc & Hl & _).
  destruct (format_dataframe_rows _ _ _ _ _ He Hf) as (df2 & _ & Hr).
  split; [done|]. split; [done|].
  intros r. rewrite Hr. intros (r1 & -> & Hr1)%list_elem_of_fmap.
  apply list_elem_of_fmap in Hr1 as (r0 & -> & _).
  split; [|by rewrite lookup_insert_eq].
  rewrite lookup_insert_ne by done. by rewrite lookup_insert_eq.
Qed.

Lemma format_dataframe_metadata_witness :
  ∃ out, format_dataframe "2024-03-16 08:00:00" raw_report
           ["date"; "country"] ["sessions"; "bounceRate"] = Ok out
    ∧ columns out
      = ["last_updated"; "data_freshness"; "date"; "country"; "sessions"; "bounceRate"]
    ∧ length (rows out) = 3%nat.
Proof.
  eexists. split; [vm_compute; reflexivity|].
  destruct (format_dataframe_metadata "2024-03-16 08:00:00" raw_report
              ["date"; "country"] ["sessions"; "bounceRate"] _ eq_refl eq_refl)
    as (Hc & Hl & _).
  split; [exact Hc|exact Hl].
Defined.

(** A column that is neither 'date' nor a declared metric is not changed by
    the formatting: the dimension values are kept as they were received. *)
Theorem format_dataframe_keeps_dimensions now df dimensions metrics out c :
  empty df = false →
  format_dataframe now df dimensions metrics = Ok out →
  c ∈ columns df → c ≠ "date" → c ∉ metrics →
  column c out = column c df.
Proof.
  intros He Hf Hc Hd Hm.
  destruct (format_dataframe_Ok _ _ _ _ _ He Hf) as (df2 & H2 & _ & _ & Ho).
  rewrite (Ho c Hc).
  destruct (foldR_convert_metric_Ok _ _ _ H2) as (_ & _ & _ & ->); [|done].
  by apply format_date_column_other.
Qed.

Lemma format_dataframe_keeps_dimensions_witness :
  ∃ out, format_dataframe "2024-03-16 08:00:00" raw_report
           ["date"; "country"] ["sessions"; "bounceRate"] = Ok out
    ∧ column "country" out = [Some (Str "US"); Some (Str "DE"); Some (Str "FR")]
    ∧ column "country" out = column "country" raw_report.
Proof.
  eexists. split; [vm_compute; reflexivity|]. split; [vm_compute; reflexivity|].
  apply (format_dataframe_keeps_dimensions "2024-03-16 08:00:00" raw_report
           ["date"; "country"] ["sessions"; "bounceRate"]).
  - vm_compute; reflexivity.
  - vm_compute; reflexivity.
  - apply (bool_decide_unpack _). vm_compute. exact I.
  - discriminate.
  - apply (bool_decide_unpack _). vm_compute. exact I.
Defined.

(** ** When [format_dataframe] returns, and what the fetcher raises *)

Lemma parse_number_in_int64 s z : parse_number s = Some (Int z) → in_int64 z = true.
Proof.
  unfold parse_number. destruct (parse_decimal _) as [v|] eqn:E.
  - intros [= ->]. revert E. unfold parse_decimal.
    destruct (read_sign _) as [neg s0].
    destruct (read_digits s0 0 0) as [[ip ni] s1].
    destruct s1 as [|c s2].
    { destruct ni; [done|]. destruct (in_int64 _) eqn:Hi; naive_solver. }
    assert (∀ m k, ((λ e, Flt (scale m k e)) <$> read_exponent (String c s2)) ≠ Some (Int z)) as He.
    { intros m k. by destruct (read_exponent _). }
    destruct (decide (c = "."%char)) as [->|Hc].
    + destruct (read_digits s2 ip 0) as [[m nf] s3].
      destruct (ni + nf)%nat; [done|]. by destruct (read_exponent s3).
    + destruct c as [[] [] [] [] [] [] [] []]; try done; destruct ni; try done;
        intros E; by apply He in E.
  - unfold parse_special. destruct (read_sign _). by case_match.
Qed.

Lemma castable_spec x n :
  raw_cell x → numeric_of x n → is_Ok (astype_Int64 (fillna0 n)) = castable x.
Proof.
  intros Hx Hn. unfold castable.
  pose proof (to_numeric_scalar_not_Str x) as Hs.
  destruct x as [[s|z|f]|]; try (by destruct Hx as [?|?]).
  - simpl in *.
    destruct (parse_number s) as [[t|z|[m k|neg]]|] eqn:Hp;
      destruct Hn as [->| ->]; simpl; rewrite ?Hp; simpl; try done.
    all: try (by destruct (Hs t)).
    all: try (by case_match).
    rewrite Z.mod_1_r, Z.div_1_r. simpl. by rewrite (parse_number_in_int64 _ _ Hp).
  - by destruct Hn as [->| ->].
Qed.

Lemma mapR_is_Ok {A B} (f : A → result B) l :
  Forall (λ x, is_Ok (f x) = true) l → is_Ok (mapR f l) = true.
Proof.
  induction 1 as [|x l Hx _ IH]; [done|]. simpl.
  destruct (f x); [|done]. simpl. by destruct (mapR f l).
Qed.

Lemma mapR_Raise {A B} (f : A → result B) l e :
  mapR f l = Raise e → ∃ x, x ∈ l ∧ f x = Raise e.
Proof.
  induction l as [|x l IH]; [done|]. simpl.
  destruct (f x) eqn:Hx; simpl.
  - destruct (mapR f l); simpl; [done|]. intros [= ->].
    destruct IH as (y & ? & ?); [done|]. exists y. split; [by right|done].
  - intros [= ->]. exists x. split; [by left|done].
Qed.

Lemma convert_metric_Raise df metric e :
  convert_metric df metric = Raise e →
  ((metric ∉ columns df) ∧ e = KeyError) ∨ e = TypeError.
Proof.
  unfold convert_metric, has_column. case_bool_decide as Hc; [|intros [= <-]; by left].
  case_bool_decide; [done|].
  destruct (mapR _ _) as [vals|e'] eqn:Hm; simpl; [done|]. intros [= ->]. right.
  apply mapR_Raise in Hm as (y & Hy & He).
  apply list_elem_of_fmap in Hy as (n & -> & Hn).
  assert (Forall (λ n : cell, ∀ t, n ≠ Some (Str t)) (to_numeric (column metric df))) as Hall.
  { apply (Forall2_right _ _ _ _ (to_numeric_Forall2 (column metric df))).
    intros x n' [->| ->] t.
    - apply to_numeric_scalar_not_Str.
    - pose proof (to_numeric_scalar_not_Str x) as Hs.
      destruct (to_numeric_scalar x) as [[]|]; naive_solver. }
  rewrite Forall_forall in Hall. specialize (Hall _ Hn).
  destruct n as [[t|z|[m k|neg]]|]; simpl in He; try done.
  - by destruct (Hall t).
  - by case_match; simplify_eq.
  - by simplify_eq.
Qed.

Lemma foldR_convert_metric_Raise df metrics e :
  foldR convert_metric df metrics = Raise e →
  Forall (λ m, m ∈ columns df) metrics → e = TypeError.
Proof.
  revert df. induction metrics as [|m ms IH]; intros df; [done|]. simpl.
  intros Hf [Hm Hms]%Forall_cons.
  destruct (convert_metric df m) as [df1|e1] eqn:H1; simpl in Hf.
  - destruct (convert_metric_Ok _ _ _ H1) as (_ & Hc & _).
    apply (IH df1 Hf). by rewrite Hc.
  - simplify_eq. by destruct (convert_metric_Raise _ _ _ H1) as [[? _]| ->].
Qed.

Lemma foldR_convert_metric_succeeds df metrics :
  NoDup metrics →
  Forall (λ m, m ∈ columns df) metrics →
  (∀ m, m ∈ metrics → m ∉ ratio_metrics →
     Forall raw_cell (column m df) ∧ forallb castable (column m df) = true) →
  is_Ok (foldR convert_metric df metrics) = true.
Proof.
  revert df. induction metrics as [|m ms IH]; intros df; [done|].
  intros [Hm Hnd]%NoDup_cons [Hc Hcs]%Forall_cons Hall. simpl.
  assert (is_Ok (convert_metric df m) = true) as H1.
  { unfold convert_metric, has_column. rewrite bool_decide_true by done.
    case_bool_decide as Hr; [done|].
    destruct (Hall m) as [Hraw Hcast]; [by left|done|].
    assert (is_Ok (mapR astype_Int64 (fillna0 <$> to_numeric (column m df))) = true) as Hk.
    { apply mapR_is_Ok, Forall_fmap.
      apply Is_true_true_2 in Hcast. rewrite forallb_True in Hcast.
      pose proof (to_numeric_Forall2 (column m df)) as HF.
      revert Hraw Hcast. induction HF as [|x n l l' Hn _ IH']; intros Hraw Hcast; [done|].
      apply Forall_cons in Hraw as [Hx Hraw]. apply Forall_cons in Hcast as [Hy Hcast].
      constructor; [|by apply IH']. simpl.
      rewrite (castable_spec _ _ Hx Hn). by destruct (castable x). }
    by destruct (mapR _ _). }
  destruct (convert_metric df m) as [df1|] eqn:E1; [|done]. simpl.
  destruct (convert_metric_Ok _ _ _ E1) as (_ & Hc1 & _ & Ho & _).
  apply IH; [done| |].
  - by rewrite Hc1.
  - intros m' Hm' Hr'. rewrite Ho by (intros ->; done). apply Hall; [by right|done].
Qed.





(** * Further properties of the reader *)

Lemma dropna_rows_elem (r : row) df :
  r ∈ rows (dropna_rows df) ↔ has_value (columns df) r ∧ r ∈ rows df.
Proof.
  unfold dropna_rows, has_value. cbn [rows]. rewrite list_elem_of_filter, existb_True, Exists_exists.
  by setoid_rewrite bool_decide_spec.
Qed.

Lemma dropna_columns_elem c df :
  c ∈ columns (dropna_columns df) ↔ holds_value (rows df) c ∧ c ∈ columns df.
Proof.
  unfold dropna_columns, holds_value. cbn [columns].
  rewrite list_elem_of_filter, existb_True, Exists_exists.
  by setoid_rewrite bool_decide_spec.
Qed.

Lemma existing_of_clean env sh :
  let d := existing_of env sh in
  (d = empty_frame ∨ empty d = false)
  ∧ rows d `sublist_of` rows sh
  ∧ columns d `sublist_of` columns sh
  ∧ Forall (has_value (columns d)) (rows d)
  ∧ Forall (holds_value (rows d)) (columns d)
  ∧ (get_as_dataframe env = None →
     ∀ r : row, r ∈ rows sh → has_value (columns sh) r → r ∈ rows d).
Proof.
  unfold existing_of. destruct (get_as_dataframe env) as [e|].
  { cbn. repeat split; try (by left); try apply sublist_nil_l; try done. }
  set (E := dropna_columns (dropna_rows sh)).
  assert (∀ r : row, r ∈ rows E ↔ has_value (columns sh) r ∧ r ∈ rows sh) as HR.
  { intros r. exact (dropna_rows_elem r sh). }
  assert (∀ c, c ∈ columns E ↔ holds_value (rows E) c ∧ c ∈ columns sh) as HC.
  { intros c. exact (dropna_columns_elem c (dropna_rows sh)). }
  assert (Forall (has_value (columns E)) (rows E)) as HvR.
  { apply Forall_forall. intros r Hr. pose proof Hr as Hr'.
    apply HR in Hr as [(c & Hc & Hv) _]. exists c. split; [|done].
    apply HC. split; [|done]. by exists r. }
  assert (Forall (holds_value (rows E)) (columns E)) as HvC.
  { apply Forall_forall. intros c Hc. by apply HC in Hc as [? _]. }
  destruct (empty E) eqn:He; cbn zeta.
  - split; [by left|]. split; [apply sublist_nil_l|]. split; [apply sublist_nil_l|].
    split; [done|]. split; [done|]. intros _ r Hr Hv. exfalso.
    assert (r ∈ rows E) as HrE by (by apply HR).
    rewrite Forall_forall in HvR. destruct (HvR r HrE) as (c & Hc & _).
    unfold empty in He. destruct (columns E); [by apply elem_of_nil in Hc|].
    destruct (rows E); [by apply elem_of_nil in HrE|done].
  - split; [by right|]. split; [apply sublist_filter|]. split; [apply sublist_filter|].
    split; [done|]. split; [done|]. intros _ r Hr Hv. by apply HR.
Qed.

(** What the reader hands to the reconciler is [pd.DataFrame()] or a record
    set with a row and a column; its rows are rows of the sheet, in their
    order and each with a value under one of the labels that are kept; its
    labels are labels of the sheet, each with a value in one of the rows; no
    row of the sheet that has a value is lost when the read succeeds; and the
    sheet is left as it was. *)
Theorem get_existing_sheet_data_clean env w :
  ∃ d w', get_existing_sheet_data env w = (Ok d, w')
    ∧ sheet w' = sheet w
    ∧ (d = empty_frame ∨ empty d = false)
    ∧ rows d `sublist_of` rows (sheet w)
    ∧ columns d `sublist_of` columns (sheet w)
    ∧ Forall (has_value (columns d)) (rows d)
    ∧ Forall (holds_value (rows d)) (columns d)
    ∧ (get_as_dataframe env = None →
       ∀ r : row, r ∈ rows (sheet w) → has_value (columns (sheet w)) r → r ∈ rows d).
Proof.
  destruct (get_existing_sheet_data_run env w) as (w' & Hrun & Hs & _).
  exists (existing_of env (sheet w)), w'. split; [done|]. split; [done|].
  apply existing_of_clean.
Qed.

(** A sheet with a blank row and a column without values: the reader drops
    both. *)
Example get_existing_sheet_data_drops_blanks :
  let sh := mkDF ["date"; "note"; "sessions"]
                 [ {[ "date" := Str "2024-01-02"; "sessions" := Int 5 ]}; ∅;
                   {[ "sessions" := Int 7 ]} ] in
  ∃ w', get_existing_sheet_data (quiet_env []) (mkWorld sh [] [])
        = (Ok (mkDF ["date"; "sessions"]
                 [ {[ "date" := Str "2024-01-02"; "sessions" := Int 5 ]};
                   {[ "sessions" := Int 7 ]} ]), w').
Proof. eexists. vm_compute. reflexivity. Qed.

(** * Further properties of the reconciler and the writer *)

Lemma drop_duplicate_dates_sublist df existing_df :
  rows (drop_duplicate_dates df existing_df) `sublist_of` rows existing_df.
Proof.
  unfold drop_duplicate_dates. repeat case_match; try done. cbn [rows]. apply sublist_filter.
Qed.

Lemma combine_shape df existing_df :
  rows (combine df existing_df)
    = rows df ++ (if empty existing_df then [] else rows existing_df)
  ∧ columns (combine df existing_df)
    = columns df ++ (if empty existing_df then []
                     else filter (λ c, c ∉ columns df) (columns existing_df)).
Proof. unfold combine. destruct (empty existing_df); cbn; by rewrite ?app_nil_r. Qed.

Lemma reconcile_shape df existing_df :
  ∃ kept, rows (reconcile df existing_df) = rows df ++ kept
    ∧ kept `sublist_of` rows existing_df
    ∧ columns df `prefix_of` columns (reconcile df existing_df)
    ∧ (kept ≠ [] → ∀ c, c ∈ columns existing_df → c ∈ columns (reconcile df existing_df)).
Proof.
  unfold reconcile.
  destruct (combine_shape df (drop_duplicate_dates df existing_df)) as [Hr Hc].
  eexists. split; [exact Hr|]. split; [|split; [rewrite Hc; by eexists|]].
  - case_match; [apply sublist_nil_l|apply drop_duplicate_dates_sublist].
  - rewrite Hc, drop_duplicate_dates_columns. case_match; [done|]. intros _ c Hin.
    apply elem_of_app. destruct (decide (c ∈ columns df)); [by left|right].
    by apply list_elem_of_filter.
Qed.

Lemma reconcile_rows_dates df existing_df :
  has_column "date" df = true →
  empty existing_df = true ∨ has_column "date" existing_df = true →
  ∃ kept, rows (reconcile df existing_df) = rows df ++ kept
    ∧ Forall (λ r : row, cell_in (r !! "date") (column "date" df) = false) kept.
Proof.
  intros Hd [He|Hx]; unfold reconcile.
  - exists []. rewrite combine_empty_existing by done. by rewrite app_nil_r.
  - destruct (empty existing_df) eqn:He.
    { exists []. rewrite combine_empty_existing by done. by rewrite app_nil_r. }
    exists (surviving df existing_df). split.
    + rewrite combine_rows, drop_duplicate_dates_rows by
        (rewrite ?drop_duplicate_dates_columns; eauto using has_column_nonempty). done.
    + apply Forall_forall. intros r [Hr _]%list_elem_of_filter.
      by apply negb_prop_elim, Is_true_false_1 in Hr.
Qed.

Lemma filter_none {A} (P : A → bool) (l : list A) :
  (∀ x, x ∈ l → P x = false) → filter (λ x, P x) l = [].
Proof.
  intros H. induction l as [|x l IH]; [done|].
  rewrite filter_cons, decide_False by (rewrite H; [exact id|left]).
  apply IH. intros; apply H. by right.
Qed.

Lemma reconcile_over df written news kept :
  has_column "date" df = true →
  has_column "date" written = true →
  rows written ≡ₚ news ++ kept →
  Forall (λ r : row, r ∈ rows df) news →
  Forall (λ r : row, cell_in (r !! "date") (column "date" df) = false) kept →
  rows (reconcile df written) ≡ₚ rows df ++ kept.
Proof.
  intros Hd Hdw Hp Hn Hk.
  destruct (empty written) eqn:Hew.
  - unfold reconcile. rewrite combine_empty_existing by done.
    assert (rows written = []) as Hnil.
    { unfold empty in Hew. pose proof (has_column_nonempty _ _ Hdw).
      destruct (columns written); [done|]. by destruct (rows written). }
    rewrite Hnil in Hp. apply Permutation_nil_l in Hp. symmetry in Hp.
    apply app_eq_nil in Hp as [_ ->]. by rewrite app_nil_r.
  - unfold reconcile.
    rewrite combine_rows, drop_duplicate_dates_rows by
      (rewrite ?drop_duplicate_dates_columns; eauto using has_column_nonempty).
    apply Permutation_app_head. unfold surviving. rewrite Hp, filter_app.
    rewrite (filter_all _ kept).
    2: { intros r Hr'. rewrite Forall_forall in Hk. by rewrite (Hk r Hr'). }
    rewrite (filter_none _ news); [done|].
    intros r Hr'. rewrite Forall_forall in Hn.
    by rewrite (cell_in_column r "date" df (Hn r Hr')).
Qed.

(** Reconciling the same new rows a second time, with what the first
    reconciliation produced (in any order of its rows) as the content of the
    sheet, gives the same rows again: the new rows are not duplicated and no
    other row is lost. *)
Theorem reconcile_again df existing_df written :
  has_column "date" df = true →
  empty existing_df = true ∨ has_column "date" existing_df = true →
  has_column "date" written = true →
  rows written ≡ₚ rows (reconcile df existing_df) →
  rows (reconcile df written) ≡ₚ rows (reconcile df existing_df).
Proof.
  intros Hd Hx Hdw Hp.
  destruct (reconcile_rows_dates df existing_df Hd Hx) as (kept & Hr & Hk).
  rewrite Hr in Hp |- *.
  apply (reconcile_over df written (rows df) kept); try done.
  by apply Forall_forall.
Qed.

Lemma reconcile_again_witness :
  rows (reconcile new_rows (reconcile new_rows old_sheet))
  ≡ₚ rows (reconcile new_rows old_sheet)
  ∧ length (rows (reconcile new_rows (reconcile new_rows old_sheet))) = 5%nat.
Proof.
  split; [|vm_compute; reflexivity].
  apply (reconcile_again new_rows old_sheet (reconcile new_rows old_sheet)).
  - vm_compute; reflexivity.
  - right. vm_compute; reflexivity.
  - vm_compute; reflexivity.
  - reflexivity.
Defined.

Lemma update_google_sheet_Found `{ArgSort} env df worksheet_name w w' :
  empty df = false →
  worksheet env = Found →
  update_google_sheet env df worksheet_name w = (Ok (), w') →
  sort_by_date (reconcile df (existing_of env (sheet w))) = Ok (sheet w').
Proof.
  intros He Hf Hrun.
  destruct (update_google_sheet_run env df worksheet_name w He) as (r & w1 & Hrun1 & Ho).
  rewrite Hrun in Hrun1. simplify_eq. unfold update_outcome, select_outcome in Ho.
  rewrite Hf in Ho. unfold reconcile.
  destruct (open_by_key env); [done|].
  destruct (sort_by_date _) as [final_df|]; [|done].
  destruct (clear env); [done|]. destruct (set_with_dataframe env); [done|].
  by destruct Ho as (_ & -> & _).
Qed.

(** What the writer writes: every new row is in the sheet afterwards; every
    row of the sheet afterwards is a new row or was in the sheet before; the
    labels of the new rows come first, in their order; and the number of rows
    is at least that of the new rows and at most that of the new and the old
    rows together. *)
Theorem update_google_sheet_contents `{ArgSort} env df worksheet_name w w' :
  empty df = false →
  update_google_sheet env df worksheet_name w = (Ok (), w') →
  (∀ r : row, r ∈ rows df → r ∈ rows (sheet w'))
  ∧ (∀ r : row, r ∈ rows (sheet w') → r ∈ rows df ∨ r ∈ rows (sheet w))
  ∧ columns df `prefix_of` columns (sheet w')
  ∧ (length (rows df) ≤ length (rows (sheet w'))
     ≤ length (rows df) + length (rows (sheet w)))%nat.
Proof.
  intros He Hrun.
  destruct (update_google_sheet_Ok _ _ _ _ _ He Hrun) as (sh & Hsh & Hsort & _).
  destruct (sort_by_date_same_rows _ _ Hsort) as (Hc & Hp & _).
  fold (reconcile df (existing_of env sh)) in Hc, Hp.
  destruct (reconcile_shape df (existing_of env sh)) as (kept & Hr & Hk & Hpre & _).
  destruct (existing_of_clean env sh) as (_ & Hsub & _).
  assert (kept `sublist_of` rows (sheet w)) as Hkw.
  { destruct Hsh as [->| ->]; [by etrans|].
    cbn in Hsub. apply sublist_nil_r in Hsub. rewrite Hsub in Hk.
    apply sublist_nil_r in Hk as ->. apply sublist_nil_l. }
  rewrite Hr in Hp. split; [|split; [|split]].
  - intros r Hr'. rewrite Hp. apply elem_of_app. by left.
  - intros r Hr'. rewrite Hp in Hr'. apply elem_of_app in Hr' as [?|Hr']; [by left|].
    right. by eapply sublist_subseteq.
  - by rewrite Hc.
  - rewrite Hp, length_app. apply sublist_length in Hkw. lia.
Qed.

Lemma update_google_sheet_contents_witness :
  ∃ w', @update_google_sheet stable_sort (quiet_env []) new_rows None
          (mkWorld old_sheet [] []) = (Ok (), w')
    ∧ length (rows (sheet w')) = 5%nat
    ∧ (length (rows new_rows) ≤ length (rows (sheet w'))
       ≤ length (rows new_rows) + length (rows old_sheet))%nat.
Proof.
  eexists. split; [vm_compute; reflexivity|]. split; [vm_compute; reflexivity|].
  apply (@update_google_sheet_contents stable_sort (quiet_env []) new_rows None
           (mkWorld old_sheet [] []) _ eq_refl eq_refl).
Defined.

Lemma existing_of_no_dates env sh :
  Forall (λ r : row, r !! "date" = None) (rows sh) →
  has_column "date" (existing_of env sh) = false.
Proof.
  intros Hn. destruct (existing_of_clean env sh) as (_ & Hsub & _ & _ & Hv & _).
  unfold has_column. apply bool_decide_eq_false. intros Hd.
  rewrite Forall_forall in Hv. destruct (Hv _ Hd) as (r & Hr & Hs).
  rewrite Forall_forall in Hn. rewrite (Hn r) in Hs; [by destruct Hs|].
  by eapply sublist_subseteq.
Qed.

(** When no row of the sheet has a date, nothing is superseded: the sheet
    afterwards holds the new rows and every row of the sheet that had a
    value, so that the same rows fetched again are written again beside the
    old ones. When the new rows have no 'date' label either, the new rows
    come first and the old rows follow, all in their order. *)
Theorem update_google_sheet_without_dates `{ArgSort} env df worksheet_name w w' :
  empty df = false →
  worksheet env = Found →
  Forall (λ r : row, r !! "date" = None) (rows (sheet w)) →
  update_google_sheet env df worksheet_name w = (Ok (), w') →
  rows (sheet w') ≡ₚ rows df ++ rows (existing_of env (sheet w))
  ∧ (has_column "date" df = false →
     rows (sheet w') = rows df ++ rows (existing_of env (sheet w))).
Proof.
  intros He Hf Hn Hrun.
  pose proof (update_google_sheet_Found _ _ _ _ _ He Hf Hrun) as Hsort.
  pose proof (existing_of_no_dates env _ Hn) as Hx.
  set (E := existing_of env (sheet w)) in *.
  assert (drop_duplicate_dates df E = E) as Hdrop.
  { unfold drop_duplicate_dates. rewrite Hx. by rewrite andb_false_r. }
  assert (rows (reconcile df E) = rows df ++ rows E) as Hrows.
  { unfold reconcile. rewrite Hdrop. destruct (combine_shape df E) as [-> _].
    destruct (empty E) eqn:HeE; [|done].
    destruct (existing_of_clean env (sheet w)) as ([HE|HE] & _); fold E in HE.
    - by rewrite HE.
    - by rewrite HE in HeE. }
  destruct (sort_by_date_same_rows _ _ Hsort) as (_ & Hp & Hsame & _).
  split; [by rewrite Hp, Hrows|].
  intros Hd. rewrite Hsame; [done|].
  unfold reconcile. rewrite Hdrop. unfold has_column in *.
  rewrite bool_decide_eq_false in *. destruct (combine_shape df E) as [_ ->].
  intros [?|Hin]%elem_of_app; [done|]. destruct (empty E); [by apply elem_of_nil in Hin|].
  by apply list_elem_of_filter in Hin as [_ ?].
Qed.

Lemma update_google_sheet_without_dates_witness :
  let sh := mkDF ["date"; "sessions"] [ ({[ "sessions" := Int 9 ]} : row) ] in
  let df := mkDF ["date"; "sessions"] [ ({[ "sessions" := Int 9 ]} : row) ] in
  ∃ w', @update_google_sheet stable_sort (quiet_env []) df None (mkWorld sh [] [])
        = (Ok (), w')
    ∧ rows (sheet w') = [ {[ "sessions" := Int 9 ]}; {[ "sessions" := Int 9 ]} ]
    ∧ rows (sheet w') ≡ₚ rows df ++ rows (existing_of (quiet_env []) sh).
Proof.
  eexists. split; [vm_compute; reflexivity|]. split; [vm_compute; reflexivity|].
  apply (@update_google_sheet_without_dates stable_sort (quiet_env [])
           (mkDF ["date"; "sessions"] [ ({[ "sessions" := Int 9 ]} : row) ]) None
           (mkWorld (mkDF ["date"; "sessions"] [ ({[ "sessions" := Int 9 ]} : row) ]) [] [])
           _ eq_refl eq_refl).
  - repeat constructor.
  - vm_compute; reflexivity.
Defined.

(** Running the writer a second time with the same new rows leaves the same
    rows in the sheet: when the sheet was empty or had a 'date' column, and
    one of the new rows has a date, the second run supersedes exactly the rows
    the first run wrote and keeps the others. *)
Theorem update_google_sheet_twice `{ArgSort} env env' df worksheet_name w w1 w2 :
  empty df = false →
  has_column "date" df = true →
  Exists (λ r : row, is_Some (r !! "date")) (rows df) →
  empty (existing_of env (sheet w)) = true
    ∨ has_column "date" (existing_of env (sheet w)) = true →
  worksheet env = Found → worksheet env' = Found →
  get_as_dataframe env' = None →
  update_google_sheet env df worksheet_name w = (Ok (), w1) →
  update_google_sheet env' df worksheet_name w1 = (Ok (), w2) →
  rows (sheet w2) ≡ₚ rows (sheet w1).
Proof.
  intros He Hd Hex Hx Hf Hf' Hread Hrun1 Hrun2.
  pose proof (update_google_sheet_Found _ _ _ _ _ He Hf Hrun1) as Hs1.
  pose proof (update_google_sheet_Found _ _ _ _ _ He Hf' Hrun2) as Hs2.
  destruct (sort_by_date_same_rows _ _ Hs1) as (Hc1 & Hp1 & _).
  destruct (sort_by_date_same_rows _ _ Hs2) as (_ & Hp2 & _).
  set (E1 := existing_of env (sheet w)) in *.
  destruct (reconcile_rows_dates df E1 Hd Hx) as (kept & Hr & Hk).
  destruct (reconcile_shape df E1) as (kept' & Hr' & Hsub & [cs Hpre] & Hcols).
  assert (kept' = kept) as -> by (rewrite Hr in Hr'; by apply app_inv_head in Hr').
  rewrite Hr in Hp1. rewrite Hp2, Hp1.
  assert ("date" ∈ columns (sheet w1)) as Hdate.
  { rewrite Hc1, Hpre. apply elem_of_app. left.
    unfold has_column in Hd. by rewrite bool_decide_eq_true in Hd. }
  apply Exists_exists in Hex as (r0 & Hr0 & Hv0).
  assert (r0 ∈ rows (sheet w1)) as Hr0w by (rewrite Hp1; apply elem_of_app; by left).
  set (D2 := dropna_columns (dropna_rows (sheet w1))).
  assert (r0 ∈ rows D2) as Hr0D.
  { apply (dropna_rows_elem r0 (sheet w1)). split; [by exists "date"|done]. }
  assert ("date" ∈ columns D2) as HdD.
  { apply (dropna_columns_elem "date" (dropna_rows (sheet w1))). split; [by exists r0|done]. }
  assert (existing_of env' (sheet w1) = D2) as ->.
  { unfold existing_of. rewrite Hread. fold D2. unfold empty.
    destruct (columns D2); [by apply elem_of_nil in HdD|].
    destruct (rows D2); [by apply elem_of_nil in Hr0D|done]. }
  apply (reconcile_over df D2
           (filter (λ r : row, existsb (λ c, bool_decide (is_Some (r !! c)))
                                 (columns (sheet w1))) (rows df)) kept); try done.
  - unfold has_column. by apply bool_decide_eq_true.
  - change (rows D2) with (rows (dropna_rows (sheet w1))). unfold dropna_rows. cbn [rows].
    rewrite Hp1, filter_app. apply Permutation_app_head.
    rewrite filter_all; [done|]. intros r Hrk.
    destruct (existing_of_clean env (sheet w)) as (_ & _ & _ & Hv & _). fold E1 in Hv.
    rewrite Forall_forall in Hv.
    destruct (Hv r) as (c & Hc & Hs); [by eapply sublist_subseteq|].
    apply Is_true_true_1, existb_True, Exists_exists. exists c. split.
    + rewrite Hc1. apply Hcols; [|done]. intros ->. by apply elem_of_nil in Hrk.
    + by apply bool_decide_pack.
  - apply Forall_forall. by intros r [_ ?]%list_elem_of_filter.
Qed.

Lemma update_google_sheet_twice_witness :
  ∃ w1 w2,
    @update_google_sheet stable_sort (quiet_env []) new_rows None (mkWorld old_sheet [] [])
      = (Ok (), w1)
    ∧ @update_google_sheet stable_sort (quiet_env []) new_rows None w1 = (Ok (), w2)
    ∧ length (rows (sheet w1)) = 5%nat
    ∧ rows (sheet w2) ≡ₚ rows (sheet w1).
Proof.
  eexists _, _. split; [vm_compute; reflexivity|]. split; [vm_compute; reflexivity|].
  split; [vm_compute; reflexivity|].
  apply (@update_google_sheet_twice stable_sort (quiet_env []) (quiet_env []) new_rows None
           (mkWorld old_sheet [] [])).
  - vm_compute; reflexivity.
  - vm_compute; reflexivity.
  - apply Exists_cons_hd. by eexists.
  - right. vm_compute; reflexivity.
  - reflexivity.
  - reflexivity.
  - reflexivity.
  - vm_compute; reflexivity.
  - vm_compute; reflexivity.
Defined.

(** * Further properties of the writer's calls *)

Lemma format_sheet_header_calls env w :
  ∃ w', format_sheet_header env w = (Ok (), w')
    ∧ sheet w' = sheet w
    ∧ calls w' = calls w ++ FormatHeader ::
        match format env with None => [AutoResize] | Some _ => [] end.
Proof.
  run. destruct (format env), (columns_auto_resize env); simpl;
    eexists; (split; [reflexivity|]); (split; [done|]); simpl;
    by rewrite <-?(assoc_L (++)).
Qed.

(** The calls of a run of the writer that returns, in their order: the
    spreadsheet is opened and the worksheet looked up (and created when it was
    missing), the sheet is read before it is cleared, it is cleared before it
    is written, it is written once, with the record set it holds afterwards,
    and the header is formatted last; the columns are resized only when the
    formatting call succeeded. *)
Theorem update_google_sheet_calls `{ArgSort} env df worksheet_name w w' :
  empty df = false →
  update_google_sheet env df worksheet_name w = (Ok (), w') →
  calls w' = calls w ++ [OpenByKey; GetWorksheet]
    ++ match worksheet env with Found => [] | _ => [AddWorksheet] end
    ++ [ReadAll; Clear; Write (sheet w'); FormatHeader]
    ++ match format env with None => [AutoResize] | Some _ => [] end.
Proof.
  intros He. run_update. rewrite He.
  destruct (open_by_key env) as [e|]; simpl; [done|].
  destruct worksheet_name as [name|], (worksheet env) as [| |[]];
    simpl; try done; try (destruct (add_worksheet env); simpl; try done);
    run_reader;
    (destruct (sort_by_date _) as [final_df|]; simpl; [|done]);
    (destruct (clear env); simpl; [done|]);
    (destruct (set_with_dataframe env); simpl; [done|]);
    match goal with
    | |- context [format_sheet_header ?e ?w0] =>
        destruct (format_sheet_header_calls e w0) as (w2 & -> & Hs2 & Hc2)
    end;
    cbn [sheet calls log] in Hs2, Hc2; simpl; intros [= <-];
    cbn [sheet calls log]; rewrite Hc2, Hs2, Hc; by rewrite <-?(assoc_L (++)).
Qed.

Lemma update_google_sheet_calls_witness :
  ∃ w', @update_google_sheet stable_sort (quiet_env []) new_rows None
          (mkWorld old_sheet [] []) = (Ok (), w')
    ∧ calls w' = [OpenByKey; GetWorksheet; ReadAll; Clear; Write (sheet w');
                  FormatHeader; AutoResize].
Proof.
  eexists. split; [vm_compute; reflexivity|].
  apply (@update_google_sheet_calls stable_sort (quiet_env []) new_rows None
           (mkWorld old_sheet [] []) _ eq_refl eq_refl).
Defined.

(** A run of the writer that raises leaves the sheet as it was, or cleared:
    it is cleared exactly when the clearing call succeeded and the writing
    call raised, and then the old rows are lost and the new rows are not
    written. The header is not formatted, and the error is logged. *)
Theorem update_google_sheet_raises `{ArgSort} env df worksheet_name w e w' :
  empty df = false →
  worksheet env = Found →
  update_google_sheet env df worksheet_name w = (Raise e, w') →
  (ERROR, "Error updating Google Sheet") ∈ log w'
  ∧ (FormatHeader ∉ drop (length (calls w)) (calls w'))
  ∧ ((clear env = None ∧ set_with_dataframe env = Some e ∧ sheet w' = empty_frame
      ∧ ∃ final_df, last (calls w') = Some (Write final_df))
     ∨ (sheet w' = sheet w ∧ ∀ final_df, Write final_df ∉ drop (length (calls w)) (calls w'))).
Proof.
  intros He Hf. run_update. rewrite He, Hf.
  assert (∀ l : list (level * string), (ERROR, "Error updating Google Sheet")
            ∈ l ++ [(ERROR, "Error updating Google Sheet")]) as Hlog.
  { intros l. apply elem_of_app. right. by left. }
  destruct (open_by_key env) as [e0|]; simpl.
  { intros [= <- <-]. cbn [sheet calls log]. rewrite drop_app_length.
    split; [done|]. split; [set_solver|]. right. split; [done|]. set_solver. }
  destruct worksheet_name as [name|]; simpl;
    run_reader;
    (destruct (sort_by_date _) as [final_df|]; simpl;
     [|intros [= <- <-]; cbn [sheet calls log]; rewrite Hc, Hs; cbn [sheet calls log];
       rewrite <-?(assoc_L (++)), drop_app_length;
       split; [done|]; split; [set_solver|]; right; split; [done|]; set_solver]);
    (destruct (clear env) as [e1|]; simpl;
     [intros [= <- <-]; cbn [sheet calls log]; rewrite Hc, Hs; cbn [sheet calls log];
       rewrite <-?(assoc_L (++)), drop_app_length;
       split; [done|]; split; [set_solver|]; right; split; [done|]; set_solver|]);
    (destruct (set_with_dataframe env) as [e2|]; simpl;
     [intros [= <- <-]; cbn [sheet calls log]; rewrite Hc; cbn [sheet calls log];
       rewrite <-?(assoc_L (++)), drop_app_length;
       split; [done|]; split; [set_solver|]; left;
       split; [done|]; split; [done|]; split; [done|];
       exists final_df; by rewrite ?(assoc_L (++)), last_snoc|]);
    run_header; simpl; done.
Qed.

Lemma update_google_sheet_raises_witness :
  ∃ w', @update_google_sheet stable_sort write_fails_env new_rows None
          (mkWorld old_sheet [] []) = (Raise (ExternalError "write"), w')
    ∧ sheet w' = empty_frame
    ∧ (ERROR, "Error updating Google Sheet") ∈ log w'.
Proof.
  eexists. split; [vm_compute; reflexivity|]. split; [vm_compute; reflexivity|].
  apply (@update_google_sheet_raises stable_sort write_fails_env new_rows None
           (mkWorld old_sheet [] []) (ExternalError "write") _ eq_refl eq_refl eq_refl).
Defined.

Lemma update_google_sheet_Raise_sheet `{ArgSort} env df worksheet_name w e w' :
  update_google_sheet env df worksheet_name w = (Raise e, w') →
  sheet w' = sheet w ∨ sheet w' = empty_frame.
Proof.
  run_update. destruct (empty df); [done|].
  destruct (open_by_key env) as [e0|]; simpl; [intros [= <- <-]; by left|].
  destruct worksheet_name as [name|], (worksheet env) as [| |[]];
    simpl; try (intros [= <- <-]; by left);
    try (destruct (add_worksheet env); simpl; [intros [= <- <-]; by left|]);
    run_reader;
    (destruct (sort_by_date _) as [final_df|]; simpl;
     [|intros [= <- <-]; cbn [sheet]; rewrite Hs; auto]);
    (destruct (clear env) as [e1|]; simpl;
     [intros [= <- <-]; cbn [sheet]; rewrite Hs; auto|]);
    (destruct (set_with_dataframe env) as [e2|]; simpl;
     [intros [= <- <-]; cbn [sheet]; auto|]);
    run_header; simpl; done.
Qed.

(** * Further properties of the driver *)

(** When the clients cannot be set up, or the fetch raises, the sync raises
    the same exception, logs the failure, and makes no call on the
    spreadsheet: the sheet is left as it was. *)
Theorem sync_data_fails_before_writer `{ArgSort}
    env dimensions metrics worksheet_name w e :
  setup env = Some e
    ∨ (setup env = None ∧ (fetch_ga4_data env dimensions metrics w).1 = Raise e) →
  ∃ w', sync_data env dimensions metrics worksheet_name w = (Raise e, w')
    ∧ sheet w' = sheet w ∧ calls w' = calls w
    ∧ (ERROR, "Sync failed") ∈ log w'.
Proof.
  intros Hfail.
  unfold sync_data, setup_clients, try_except, logger, raise, mbind, M_bind, mret, M_ret.
  cbn [sheet calls log].
  destruct Hfail as [->|[-> Hf]]; simpl.
  { eexists. split; [reflexivity|]. cbn. split; [done|]. split; [done|]. set_solver. }
  match goal with
  | |- context [fetch_ga4_data ?e ?d ?m ?w0] =>
      destruct (fetch_ga4_data_run e d m w0) as (w1 & Hrun & Hs1 & Hc1)
  end.
  destruct (fetch_ga4_data_run env dimensions metrics w) as (w2 & Hrun2 & _).
  rewrite Hrun2 in Hf. simpl in Hf. rewrite Hf in Hrun. rewrite Hrun. simpl.
  eexists. split; [reflexivity|]. cbn. cbn in Hs1, Hc1.
  split; [done|]. split; [done|]. set_solver.
Qed.

Lemma sync_data_fails_before_writer_witness :
  let env := mkEnv "2024-03-16 08:00:00" None (Raise (ExternalError "quota")) None Found
               None None None None None None in
  ∃ w', @sync_data stable_sort env None None None (mkWorld old_sheet [] [])
        = (Raise (ExternalError "quota"), w')
    ∧ sheet w' = old_sheet ∧ calls w' = []
    ∧ (ERROR, "Sync failed") ∈ log w'.
Proof.
  apply (@sync_data_fails_before_writer stable_sort
           (mkEnv "2024-03-16 08:00:00" None (Raise (ExternalError "quota")) None Found
              None None None None None None) None None None (mkWorld old_sheet [] [])).
  right. split; vm_compute; reflexivity.
Defined.


(** ** A count that is no whole number *)

Lemma make_row_lookup cols vals i c v :
  NoDup cols → cols !! i = Some c → vals !! i = Some v →
  make_row cols vals !! c = Some (Str v).
Proof.
  unfold make_row. revert vals i.
  induction cols as [|c0 cols IH]; intros vals i Hnd Hc Hv; [by destruct i|].
  apply NoDup_cons in Hnd as [Hc0 Hnd].
  destruct vals as [|v0 vals]; [destruct i; done|]. cbn [fmap list_fmap zip zip_with list_to_map foldr].
  destruct i as [|i]; simplify_eq/=.
  - change (<[c:=Str v]> (list_to_map (zip cols (Str <$> vals)) : row) !! c = Some (Str v)).
    apply lookup_insert_eq.
  - change (<[c0:=Str v0]> (list_to_map (zip cols (Str <$> vals)) : row) !! c = Some (Str v)).
    rewrite lookup_insert_ne; [by eapply IH|].
    intros ->. apply Hc0. by eapply list_elem_of_lookup_2.
Qed.

Lemma make_row_raw cols vals c : raw_cell (make_row cols vals !! c).
Proof.
  unfold make_row. destruct (list_to_map _ !! c) as [v|] eqn:Hv; [|by left]. right.
  apply elem_of_list_to_map_2, elem_of_zip_r in Hv.
  by apply list_elem_of_fmap in Hv as (s & -> & _).
Qed.



(** * One fetch per date *)

Lemma one_fetch_per_date_empty_frame : well_formed empty_frame ∧ one_fetch_per_date empty_frame.
Proof. split; [intros r c Hr|intros r1 r2 s Hr]; by apply elem_of_nil in Hr. Qed.

Lemma set_column_well_formed c vals df :
  c ∈ columns df → well_formed df → well_formed (set_column c vals df).
Proof.
  intros Hc Hwf r c' Hr Hs. unfold set_column in Hr. cbn [rows columns] in *.
  apply elem_of_zip_with in Hr as (v & r0 & -> & _ & Hr0).
  destruct (decide (c = c')) as [<-|Hne]; [done|].
  rewrite set_cell_lookup_ne in Hs by done. by eapply Hwf.
Qed.

Lemma convert_metric_well_formed df metric df' :
  convert_metric df metric = Ok df' → well_formed df → well_formed df'.
Proof.
  unfold convert_metric, has_column. case_bool_decide as Hc; [|done].
  case_bool_decide.
  - intros [= <-]. by apply set_column_well_formed.
  - destruct (mapR _ _); simpl; [|done]. intros [= <-]. by apply set_column_well_formed.
Qed.

Lemma foldR_convert_metric_well_formed df metrics df' :
  foldR convert_metric df metrics = Ok df' → well_formed df → well_formed df'.
Proof.
  revert df. induction metrics as [|m ms IH]; intros df; simpl; [by intros [= <-]|].
  destruct (convert_metric df m) as [df1|] eqn:H1; simpl; [|done].
  intros Hf Hwf. eapply IH; [done|]. by eapply convert_metric_well_formed.
Qed.

Lemma format_date_column_well_formed df :
  well_formed df → well_formed (format_date_column df).
Proof.
  unfold format_date_column, has_column. case_bool_decide; [|done].
  by apply set_column_well_formed.
Qed.

Lemma insert_column_well_formed loc c v df df' :
  insert_column loc c v df = Ok df' → well_formed df → well_formed df'.
Proof.
  intros Hi Hwf. destruct (insert_column_Ok _ _ _ _ _ Hi) as (_ & Hc & Hr).
  intros r c' Hin Hs. rewrite Hr in Hin. rewrite Hc.
  apply list_elem_of_fmap in Hin as (r0 & -> & Hr0).
  apply elem_of_app. rewrite elem_of_cons.
  destruct (decide (c' = c)) as [->|Hne]; [by right; left|].
  rewrite lookup_insert_ne in Hs by done.
  pose proof (Hwf _ _ Hr0 Hs) as Hcol.
  rewrite <-(take_drop loc (columns df)) in Hcol.
  apply elem_of_app in Hcol as [?|?]; [by left|by right; right].
Qed.

Lemma DataFrame_of_well_formed data cols df :
  DataFrame_of data cols = Ok df → well_formed df.
Proof.
  unfold DataFrame_of. case_bool_decide; [|done]. intros [= <-] r c Hr [v Hv].
  cbn [rows columns] in *. apply list_elem_of_fmap in Hr as (vals & -> & _).
  unfold make_row in Hv. by apply elem_of_list_to_map_2, elem_of_zip_l in Hv.
Qed.

Lemma format_dataframe_well_formed now df dimensions metrics out :
  format_dataframe now df dimensions metrics = Ok out → well_formed df → well_formed out.
Proof.
  unfold format_dataframe. destruct (empty df); [by intros [= <-]|].
  fold (format_date_column df).
  destruct (foldR _ _ _) as [df2|] eqn:H2; simpl; [|done].
  destruct (insert_column 0 _ _ df2) as [df3|] eqn:H3; simpl; [|done].
  intros H4 Hwf. eapply insert_column_well_formed; [exact H4|].
  eapply insert_column_well_formed; [exact H3|].
  eapply foldR_convert_metric_well_formed; [exact H2|].
  by apply format_date_column_well_formed.
Qed.

Lemma fetch_outcome_stamped env dimensions metrics df :
  fetch_outcome env dimensions metrics = Ok df →
  well_formed df
  ∧ (empty df = false →
     ∀ r : row, r ∈ rows df → r !! "last_updated" = Some (Str (now env))).
Proof.
  unfold fetch_outcome. destruct (run_report env) as [response|]; simpl; [|done].
  destruct response as [|r0 response].
  { intros [= <-]. split; [apply one_fetch_per_date_empty_frame|done]. }
  destruct (DataFrame_of _ _) as [raw|] eqn:Hraw; simpl; [|done].
  intros Hf. split.
  - eapply format_dataframe_well_formed; [exact Hf|]. by eapply DataFrame_of_well_formed.
  - intros He r Hr. destruct (empty raw) eqn:Her.
    + rewrite format_dataframe_empty in Hf by done. simplify_eq. by rewrite Her in He.
    + destruct (format_dataframe_rows _ _ _ _ _ Her Hf) as (df2 & _ & Hrows).
      rewrite Hrows in Hr. apply list_elem_of_fmap in Hr as (r1 & -> & Hr1).
      apply list_elem_of_fmap in Hr1 as (r2 & -> & _).
      rewrite lookup_insert_ne by done. by rewrite lookup_insert_eq.
Qed.

Lemma existing_of_label env sh (r : row) c :
  r ∈ rows (existing_of env sh) → is_Some (r !! c) → c ∈ columns sh →
  c ∈ columns (existing_of env sh).
Proof.
  unfold existing_of. destruct (get_as_dataframe env); [by intros ?%elem_of_nil|].
  destruct (empty _); [by intros ?%elem_of_nil|].
  intros Hr Hs Hc. apply (dropna_columns_elem c (dropna_rows sh)). split; [|done].
  by exists r.
Qed.

Lemma reconcile_keeps_one_fetch_per_date `{ArgSort} env df sh out stamp :
  well_formed df →
  (∀ r : row, r ∈ rows df → r !! "last_updated" = Some stamp) →
  well_formed sh → one_fetch_per_date sh →
  sort_by_date (reconcile df (existing_of env sh)) = Ok out →
  well_formed out ∧ one_fetch_per_date out.
Proof.
  intros Hwf Hst Hwfs Hone Hsort.
  destruct (sort_by_date_same_rows _ _ Hsort) as (Hc & Hp & _).
  set (E := existing_of env sh) in *.
  destruct (reconcile_shape df E) as (kept & Hr & Hsub & [cs Hpre] & Hcols).
  destruct (existing_of_clean env sh) as (_ & HsubE & _). fold E in HsubE.
  assert (∀ r : row, r ∈ kept → r ∈ rows E) as HkE.
  { intros r Hr'. by eapply sublist_subseteq. }
  assert (∀ r : row, r ∈ rows E → r ∈ rows sh) as HEs.
  { intros r Hr'. by eapply sublist_subseteq. }
  assert (∀ r : row, r ∈ rows out ↔ r ∈ rows df ∨ r ∈ kept) as Hin.
  { intros r. by rewrite Hp, Hr, elem_of_app. }
  split.
  - intros r c [Hd|Hk]%Hin Hs; rewrite Hc.
    + rewrite Hpre. apply elem_of_app. left. by eapply Hwf.
    + apply Hcols; [intros ->; by apply elem_of_nil in Hk|].
      eapply existing_of_label; [by apply HkE|done|]. eapply Hwfs; [|done]. auto.
  - assert (∀ (r1 r2 : row) s, r1 ∈ rows df → r2 ∈ kept →
              r1 !! "date" = Some (Str s) → r2 !! "date" = Some (Str s) → False) as Hmix.
    { intros r1 r2 s H1 H2 Hd1 Hd2.
      assert (has_column "date" df = true) as Hhd.
      { apply bool_decide_eq_true. eapply Hwf; [done|]. by rewrite Hd1. }
      assert (has_column "date" E = true) as HhE.
      { apply bool_decide_eq_true.
        eapply existing_of_label; [by apply HkE|by rewrite Hd2|].
        eapply Hwfs; [apply HEs, HkE, H2|]. by rewrite Hd2. }
      destruct (reconcile_rows_dates df E Hhd (or_intror HhE)) as (kept' & Hr' & Hk').
      rewrite Hr in Hr'. apply app_inv_head in Hr' as <-.
      rewrite Forall_forall in Hk'. specialize (Hk' _ H2).
      rewrite Hd2, <-Hd1 in Hk'. by rewrite (cell_in_column r1 "date" df H1) in Hk'. }
    intros r1 r2 s [H1|H1]%Hin [H2|H2]%Hin Hd1 Hd2.
    + by rewrite !Hst.
    + by destruct (Hmix r1 r2 s).
    + by destruct (Hmix r2 r1 s).
    + eapply Hone; eauto.
Qed.

Lemma update_google_sheet_keeps_one_fetch_per_date `{ArgSort}
    env df worksheet_name w r w' stamp :
  empty df = false →
  well_formed df →
  (∀ r : row, r ∈ rows df → r !! "last_updated" = Some stamp) →
  well_formed (sheet w) → one_fetch_per_date (sheet w) →
  update_google_sheet env df worksheet_name w = (r, w') →
  well_formed (sheet w') ∧ one_fetch_per_date (sheet w').
Proof.
  intros He Hwf Hst Hwfs Hone Hrun. destruct r as [[]|e].
  - destruct (update_google_sheet_Ok _ _ _ _ _ He Hrun) as (sh & Hsh & Hsort & _).
    fold (reconcile df (existing_of env sh)) in Hsort.
    destruct Hsh as [->| ->].
    + exact (reconcile_keeps_one_fetch_per_date env df (sheet w) (sheet w') stamp
               Hwf Hst Hwfs Hone Hsort).
    + exact (reconcile_keeps_one_fetch_per_date env df empty_frame (sheet w') stamp
               Hwf Hst (proj1 one_fetch_per_date_empty_frame)
               (proj2 one_fetch_per_date_empty_frame) Hsort).
  - destruct (update_google_sheet_Raise_sheet _ _ _ _ _ _ Hrun) as [->| ->]; [done|].
    apply one_fetch_per_date_empty_frame.
Qed.

Lemma sync_data_sheet `{ArgSort} env dimensions metrics worksheet_name w r w' :
  sync_data env dimensions metrics worksheet_name w = (r, w') →
  sheet w' = sheet w
  ∨ ∃ df w1 r1 w2, fetch_outcome env dimensions metrics = Ok df
      ∧ empty df = false ∧ sheet w1 = sheet w
      ∧ update_google_sheet env df worksheet_name w1 = (r1, w2)
      ∧ sheet w' = sheet w2.
Proof.
  unfold sync_data, setup_clients, try_except, logger, raise, mbind, M_bind, mret, M_ret.
  cbn [sheet calls log].
  destruct (setup env) as [e|]; simpl; [intros [= <- <-]; by left|].
  match goal with
  | |- context [fetch_ga4_data ?e ?d ?m ?w0] =>
      destruct (fetch_ga4_data_run e d m w0) as (w1 & -> & Hs1 & Hc1)
  end.
  cbn [sheet calls log] in Hs1, Hc1.
  destruct (fetch_outcome env dimensions metrics) as [df|e] eqn:Hf; simpl;
    [|intros [= <- <-]; by left].
  destruct (empty df) eqn:He; simpl; [intros [= <- <-]; by left|].
  destruct (update_google_sheet env df worksheet_name w1) as [r1 w2] eqn:Hu.
  intros Hres. right. exists df, w1, r1, w2.
  split; [done|]. split; [done|]. split; [done|]. split; [done|].
  destruct r1 as [[]|e1]; simpl in Hres; by simplify_eq.
Qed.

Lemma sync_data_keeps `{ArgSort} env dimensions metrics worksheet_name w r w' :
  well_formed (sheet w) → one_fetch_per_date (sheet w) →
  sync_data env dimensions metrics worksheet_name w = (r, w') →
  well_formed (sheet w') ∧ one_fetch_per_date (sheet w').
Proof.
  intros Hwf Hone Hrun.
  destruct (sync_data_sheet _ _ _ _ _ _ _ Hrun)
    as [->|(df & w1 & r1 & w2 & Hf & He & Hs1 & Hu & ->)]; [done|].
  destruct (fetch_outcome_stamped _ _ _ _ Hf) as [Hwfd Hst].
  eapply update_google_sheet_keeps_one_fetch_per_date; try exact Hu; try done.
  - by apply Hst.
  - by rewrite Hs1.
  - by rewrite Hs1.
Qed.

(** The sync keeps the sheet a record set in which the rows of one date all
    come from one fetch: when the values of the sheet are under its labels and
    the rows of each date carry one 'last_updated', the same holds after the
    sync, whether it returns or raises. *)
Theorem sync_data_one_fetch_per_date `{ArgSort}
    env dimensions metrics worksheet_name w r w' :
  well_formed (sheet w) → one_fetch_per_date (sheet w) →
  sync_data env dimensions metrics worksheet_name w = (r, w') →
  well_formed (sheet w') ∧ one_fetch_per_date (sheet w').
Proof. apply sync_data_keeps. Qed.

Lemma sync_data_one_fetch_per_date_witness :
  ∃ r w', @sync_data stable_sort (quiet_env report) (Some ["date"; "country"])
            (Some ["sessions"; "bounceRate"]) None (mkWorld old_sheet [] []) = (r, w')
    ∧ length (rows (sheet w')) = 6%nat
    ∧ well_formed (sheet w') ∧ one_fetch_per_date (sheet w').
Proof.
  eexists _, _. split; [vm_compute; reflexivity|]. split; [vm_compute; reflexivity|].
  eapply (@sync_data_one_fetch_per_date stable_sort (quiet_env report)
           (Some ["date"; "country"]) (Some ["sessions"; "bounceRate"]) None
           (mkWorld old_sheet [] [])).
  - intros r c Hr Hs. cbn [sheet columns rows old_sheet] in *.
    apply elem_of_dom in Hs. revert Hs.
    repeat (apply elem_of_cons in Hr as [->|Hr];
            [rewrite ?dom_insert_L, ?dom_singleton_L, ?dom_empty_L; set_solver|]).
    by apply elem_of_nil in Hr.
  - intros r1 r2 s H1 H2 _ _. cbn [sheet rows old_sheet] in *.
    assert (∀ r : row, r ∈ rows old_sheet → r !! "last_updated" = None) as Hnone.
    { intros r Hr. cbn [rows old_sheet] in Hr.
      repeat (apply elem_of_cons in Hr as [->|Hr]; [vm_compute; reflexivity|]).
      by apply elem_of_nil in Hr. }
    by rewrite !Hnone.
  - vm_compute; reflexivity.
Defined.

(** * The loop of [continuous_sync] *)

Lemma main_run `{ArgSort} env w :
  ∃ r w1 w', sync_data env (Some CONFIG_DIMENSIONS) (Some CONFIG_METRICS) None w = (r, w1)
    ∧ main env w = (Ok (), w') ∧ sheet w' = sheet w1 ∧ calls w' = calls w1.
Proof.
  unfold main, try_except, logger.
  destruct (sync_data _ _ _ _ w) as [[[]|e] w1]; by eexists _, _, _.
Qed.


(** The loop keeps the sheet a record set in which the rows of one date all
    come from one fetch, however many turns it makes and whichever of them
    fail. *)
Theorem continuous_sync_one_fetch_per_date `{ArgSort} runs w :
  well_formed (sheet w) → one_fetch_per_date (sheet w) →
  ∃ w', continuous_sync runs w = (Ok (), w')
    ∧ well_formed (sheet w') ∧ one_fetch_per_date (sheet w').
Proof.
  assert (∀ w0, well_formed (sheet w0) → one_fetch_per_date (sheet w0) →
            ∃ w', continuous_sync_loop runs w0 = (Ok (), w')
              ∧ well_formed (sheet w') ∧ one_fetch_per_date (sheet w')) as Hloop.
  { induction runs as [|env runs IH]; intros w0 Hwf Hone.
    - eexists. split; [reflexivity|]. done.
    - cbn [continuous_sync_loop]. unfold try_except, mbind, M_bind.
      destruct (main_run env w0) as (r & w1 & w2 & Hsync & -> & Hs & _).
      unfold logger at 1. apply IH; cbn [sheet]; rewrite Hs;
        eapply sync_data_keeps; eauto. }
  intros Hwf Hone. unfold continuous_sync, mbind, M_bind, logger at 1. by apply Hloop.
Qed.

Lemma old_sheet_well_formed : well_formed old_sheet.
Proof.
  intros r c Hr Hs. cbn [columns rows old_sheet] in *.
  apply elem_of_dom in Hs. revert Hs.
  repeat (apply elem_of_cons in Hr as [->|Hr];
          [rewrite ?dom_insert_L, ?dom_singleton_L, ?dom_empty_L; set_solver|]).
  by apply elem_of_nil in Hr.
Qed.

Lemma old_sheet_one_fetch_per_date : one_fetch_per_date old_sheet.
Proof.
  intros r1 r2 s H1 H2 _ _.
  assert (∀ r : row, r ∈ rows old_sheet → r !! "last_updated" = None) as Hnone.
  { intros r Hr. cbn [rows old_sheet] in Hr.
    repeat (apply elem_of_cons in Hr as [->|Hr]; [vm_compute; reflexivity|]).
    by apply elem_of_nil in Hr. }
  by rewrite !Hnone.
Qed.

(** Two turns: a fetch of one row that is written, then a fetch that fails. *)
Lemma continuous_sync_one_fetch_per_date_witness :
  let row := (["20240103"; "US"; "desktop"; "google"; "organic"],
              ["3"; "2"; "1"; "0.5"; "12.25"; "7"; "0"; "12"]) in
  let failing := mkEnv "2024-01-03 10:00:00" None (Raise (ExternalError "quota")) None
                   Found None None None None None None in
  ∃ w', @continuous_sync stable_sort [quiet_env [row]; failing] (mkWorld old_sheet [] [])
        = (Ok (), w')
    ∧ length (rows (sheet w')) = 3%nat
    ∧ well_formed (sheet w') ∧ one_fetch_per_date (sheet w').
Proof.
  intros row failing.
  destruct (@continuous_sync_one_fetch_per_date stable_sort [quiet_env [row]; failing]
              (mkWorld old_sheet [] []) old_sheet_well_formed old_sheet_one_fetch_per_date)
    as (w' & Hrun & Hinv).
  exists w'. split; [exact Hrun|]. split; [|exact Hinv].
  assert (∃ w0, @continuous_sync stable_sort [quiet_env [row]; failing]
                  (mkWorld old_sheet [] []) = (Ok (), w0)
                ∧ length (rows (sheet w0)) = 3%nat) as (w0 & Hrun0 & Hlen).
  { eexists. split; vm_compute; reflexivity. }
  rewrite Hrun in Hrun0. by injection Hrun0 as ->.
Defined.

(** * [get_credentials] *)

Lemma first_local_file_Ok h paths w creds :
  (first_local_file h paths w).1 = Ok creds →
  ∃ i path, creds = from_service_account_file path
    ∧ paths !! i = Some path ∧ path_exists h path = true
    ∧ ∀ j q, (j < i)%nat → paths !! j = Some q → path_exists h q = false.
Proof.
  induction paths as [|p ps IH]; [done|]. cbn [first_local_file].
  destruct (path_exists h p) eqn:Hp.
  - unfold mbind, M_bind, logger, raise, mret, M_ret.
    destruct (file_raises h p); [done|]. simpl. intros [= <-].
    exists 0%nat, p. repeat split; try done. intros j q Hj. lia.
  - intros (i & path & -> & Hi & He & Hbefore)%IH.
    exists (S i), path. repeat split; try done.
    intros [|j] q Hj; simpl; [by intros [= <-]|]. apply Hbefore. lia.
Qed.

Lemma first_local_file_none h paths w :
  Forall (λ p, path_exists h p = false) paths →
  (first_local_file h paths w).1 = Raise ValueError.
Proof.
  induction 1 as [|p ps Hp _ IH]; [done|]. cbn [first_local_file]. by rewrite Hp.
Qed.

(** Where the credentials come from. A variable GOOGLE_CREDENTIALS_JSON that
    is set and not empty is the only source that is tried: credentials are
    then made from its text, and a text that is no JSON document is a
    [ValueError] even when a credentials file exists. A variable that is not
    set, or empty, leaves the local files: the credentials are made from the
    first of the four paths that exists, and when none exists a [ValueError] is
    raised. *)
Theorem get_credentials_first_match h w :
  (∀ creds, (get_credentials h w).1 = Ok creds →
     match creds with
     | from_service_account_info s =>
         getenv h = Some s ∧ s ≠ "" ∧ json_loads h s = true
     | from_service_account_file path =>
         (getenv h = None ∨ getenv h = Some "")
         ∧ ∃ i, local_paths h !! i = Some path ∧ path_exists h path = true
             ∧ ∀ j q, (j < i)%nat → local_paths h !! j = Some q → path_exists h q = false
     end)
  ∧ (∀ s, getenv h = Some s → s ≠ "" → json_loads h s = false →
       (get_credentials h w).1 = Raise ValueError)
  ∧ (getenv h = None ∨ getenv h = Some "" →
     Forall (λ p, path_exists h p = false) (local_paths h) →
     (get_credentials h w).1 = Raise ValueError).
Proof.
  unfold get_credentials, mbind, M_bind, logger at 1.
  split; [|split].
  - intros creds. destruct (getenv h) as [[|c s]|] eqn:Hg.
    + intros (i & path & -> & Hi & He & Hb)%first_local_file_Ok.
      split; [by right|]. by exists i.
    + unfold logger, raise, mret, M_ret.
      destruct (json_loads h (String c s)) eqn:Hj; [|done].
      destruct (info_raises h (String c s)); [done|]. by intros [= <-].
    + intros (i & path & -> & Hi & He & Hb)%first_local_file_Ok.
      split; [by left|]. by exists i.
  - intros s -> Hs Hj. destruct s as [|c s]; [done|]. unfold logger, raise.
    by rewrite Hj.
  - intros [-> | ->] Hnone; by apply first_local_file_none.
Qed.

(** The variable holds a text that is no JSON document, and 'credentials.json'
    exists: the file is not used. *)
Example get_credentials_malformed_variable :
  let h := mkHost (Some "{not json") (λ _, false) (λ _, None)
             (λ p, bool_decide (p = "credentials.json")) (λ _, None)
             "/srv/app/credentials.json" in
  (get_credentials h fresh_world).1 = Raise ValueError.
Proof. reflexivity. Qed.

(** The variable is empty, and only 'service_account.json' exists. *)
Example get_credentials_second_path :
  let h := mkHost (Some "") (λ _, true) (λ _, None)
             (λ p, bool_decide (p = "service_account.json")) (λ _, None)
             "/srv/app/credentials.json" in
  (get_credentials h fresh_world).1 = Ok (from_service_account_file "service_account.json").
Proof. vm_compute. reflexivity. Qed.

(** * Further properties of the sort *)

Lemma split_nulls_rows (rs pre : list row) key :
  (λ j, (pre ++ rs) !!! j) <$> (split_nulls (length pre) ((λ r : row, r !! key) <$> rs)).2
  = filter (λ r : row, r !! key = None) rs.
Proof.
  revert pre. induction rs as [|r rs IH]; intros pre; [done|]. csimpl.
  specialize (IH (pre ++ [r])).
  rewrite length_app, Nat.add_1_r, <-(assoc_L (++)) in IH. simpl in IH.
  destruct (split_nulls (S (length pre)) _) as [nn na]. simpl in IH.
  assert ((pre ++ r :: rs) !!! length pre = r) as Hr.
  { apply list_lookup_total_correct. by rewrite lookup_app_r, Nat.sub_diag by lia. }
  destruct (r !! key) as [v|] eqn:Hk; simpl.
  - rewrite filter_cons_False by (by rewrite Hk). done.
  - rewrite filter_cons_True by done. rewrite Hr. f_equal. exact IH.
Qed.

Lemma sort_values_nulls_last `{ArgSort} key df out :
  sort_values key df = Ok out →
  ∃ dated, rows out = dated ++ filter (λ r : row, r !! key = None) (rows df)
    ∧ Forall (λ r : row, is_Some (r !! key)) dated.
Proof.
  unfold sort_values. case_match; [|done]. intros [= <-]. cbn [rows].
  unfold nargsort. destruct (split_nulls 0 (column key df)) as [nn na] eqn:E.
  rewrite fmap_app. eexists. split.
  - f_equal. pose proof (split_nulls_rows (rows df) [] key) as Hn.
    simpl in Hn. fold (column key df) in Hn. by rewrite E in Hn.
  - destruct (split_nulls_spec [] (column key df) nn na E) as (H1 & _ & _ & _).
    simpl in H1. rewrite Forall_forall in H1.
    apply Forall_forall. intros r (i & -> & Hi)%list_elem_of_fmap.
    apply elem_of_reverse, list_elem_of_fmap in Hi as (j & -> & Hj).
    rewrite (argsort_perm (reverse nn.*2)) in Hj. apply elem_of_seq in Hj.
    rewrite length_reverse, length_fmap in Hj.
    assert (j < length (reverse nn.*1))%nat as Hlt by (rewrite length_reverse, length_fmap; lia).
    destruct (lookup_lt_is_Some_2 _ _ Hlt) as [k Hk].
    rewrite (list_lookup_total_correct _ _ _ Hk).
    apply list_elem_of_lookup_2, elem_of_reverse, list_elem_of_fmap in Hk as ([k' v] & -> & Hkv).
    specialize (H1 _ Hkv). simpl in H1. unfold column in H1.
    rewrite list_lookup_fmap in H1.
    destruct (rows df !! k') as [r|] eqn:Hr; [|done]. simpl in H1.
    rewrite (list_lookup_total_correct _ _ _ Hr). injection H1 as ->. done.
Qed.

(** The rows without a date are written last, in the order they had before
    the sort, whatever the sorting routine does with equal dates; the rows
    before them all have a date. *)
Theorem sort_by_date_nulls_last `{ArgSort} final_df out :
  has_column "date" final_df = true →
  sort_by_date final_df = Ok out →
  ∃ dated, rows out = dated ++ filter (λ r : row, r !! "date" = None) (rows final_df)
    ∧ Forall (λ r : row, is_Some (r !! "date")) dated.
Proof. unfold sort_by_date. intros ->. apply sort_values_nulls_last. Qed.

Lemma sort_by_date_nulls_last_witness :
  ∃ out dated, @sort_by_date tie_reversing_sort three_days = Ok out
    ∧ rows out = dated ++ [ ({[ "sessions" := Int 1 ]} : row) ]
    ∧ Forall (λ r : row, is_Some (r !! "date")) dated.
Proof.
  destruct (@sort_by_date_nulls_last tie_reversing_sort three_days _ eq_refl eq_refl)
    as (dated & Hr & Hd).
  eexists _, dated. split; [reflexivity|]. split; [|exact Hd].
  rewrite Hr. f_equal.
Defined.

Lemma value_eqb_num v v' : is_num v = true → value_eqb v v' = true → is_num v' = true.
Proof. by destruct v, v'. Qed.

Lemma comparable_mixed ks s v :
  Str s ∈ ks → v ∈ ks → is_num v = true → comparable ks = false.
Proof.
  intros Hs Hv Hn. unfold comparable. apply orb_false_intro.
  - apply not_true_is_false. intros Hall. rewrite forallb_forall in Hall.
    specialize (Hall v). rewrite <-list_elem_of_In in Hall. specialize (Hall Hv).
    simpl in Hall. by rewrite Hn in Hall.
  - apply not_true_is_false. intros Hall. rewrite forallb_forall in Hall.
    specialize (Hall (Str s)). rewrite <-list_elem_of_In in Hall. by specialize (Hall Hs).
Qed.

(** When the new rows have a date that is a text, and a row of the sheet has
    a date that is a number, the sort of the reconciled record set raises a
    [TypeError], and so does the writer, before it clears the sheet: the sheet
    is left as it was. *)
Theorem update_google_sheet_mixed_dates `{ArgSort} env df worksheet_name w (r1 r2 : row) s :
  empty df = false →
  has_column "date" df = true →
  open_by_key env = None →
  worksheet env = Found →
  r1 ∈ rows df → r1 !! "date" = Some (Str s) →
  r2 ∈ rows (existing_of env (sheet w)) →
  (∃ v, r2 !! "date" = Some v ∧ is_num v = true) →
  ∃ w', update_google_sheet env df worksheet_name w = (Raise TypeError, w')
    ∧ sheet w' = sheet w
    ∧ Clear ∉ drop (length (calls w)) (calls w').
Proof.
  intros He Hd Hopen Hfound H1 Hd1 H2 (v & Hd2 & Hnum).
  set (E := existing_of env (sheet w)) in *.
  assert (columns E ≠ []) as HcE.
  { destruct (existing_of_clean env (sheet w)) as ([HE|HE] & _); fold E in HE.
    - rewrite HE in H2. by apply elem_of_nil in H2.
    - unfold empty in HE. by destruct (columns E). }
  assert (empty E = false) as HeE.
  { unfold empty. destruct (columns E); [done|].
    destruct (rows E); [by apply elem_of_nil in H2|done]. }
  assert (∀ r : row, r ∈ rows df → r ∈ rows (reconcile df E)) as Hnew.
  { intros r Hr. destruct (reconcile_shape df E) as (kept & -> & _).
    apply elem_of_app. by left. }
  assert (∃ (r : row) v', r ∈ rows (reconcile df E) ∧ r !! "date" = Some v'
                          ∧ is_num v' = true) as (r & v' & Hr & Hdr & Hn').
  { destruct (cell_in (r2 !! "date") (column "date" df)) eqn:Hin.
    - rewrite Hd2 in Hin. apply cell_in_true in Hin as (d & Hdin & Heq).
      apply list_elem_of_fmap in Hdin as (r & -> & Hr).
      destruct (r !! "date") as [v'|] eqn:Hv'; [|done]. simpl in Heq.
      exists r, v'. split; [by apply Hnew|]. split; [done|]. by eapply value_eqb_num.
    - exists r2, v. split; [|done]. unfold reconcile.
      rewrite combine_rows by (by rewrite drop_duplicate_dates_columns).
      apply elem_of_app. right.
      destruct (has_column "date" E) eqn:HdE.
      + rewrite drop_duplicate_dates_rows by done.
        apply list_elem_of_filter. split; [|done]. by rewrite Hin.
      + unfold drop_duplicate_dates. by rewrite HdE, andb_false_r. }
  assert (sort_by_date (reconcile df E) = Raise TypeError) as Hsort.
  { unfold sort_by_date.
    assert (has_column "date" (reconcile df E) = true) as ->.
    { destruct (reconcile_shape df E) as (_ & _ & _ & [cs Hpre] & _).
      unfold has_column in *. rewrite bool_decide_eq_true in *.
      rewrite Hpre. apply elem_of_app. by left. }
    unfold sort_values.
    rewrite (comparable_mixed _ s v'); [done| | |done].
    - apply list_elem_of_omap. exists (Some (Str s)). split; [|done].
      apply list_elem_of_fmap. exists r1. split; [done|by apply Hnew].
    - apply list_elem_of_omap. exists (Some v'). split; [|done].
      apply list_elem_of_fmap. by exists r. }
  unfold reconcile in Hsort. subst E. clear -He Hopen Hfound Hsort.
  run_update. rewrite He, Hopen, Hfound.
  destruct worksheet_name as [name|]; simpl; run_reader;
    cbn [sheet] in Hsort |- *; rewrite Hsort; simpl;
    eexists; (split; [reflexivity|]); cbn [sheet calls log];
    (split; [done|]); rewrite Hc; cbn [calls];
    rewrite <-?(assoc_L (++)), drop_app_length; set_solver.
Qed.

Lemma update_google_sheet_mixed_dates_witness :
  let sh := mkDF ["date"; "sessions"]
              [ ({[ "date" := Int 20240102; "sessions" := Int 5 ]} : row) ] in
  ∃ w', @update_google_sheet stable_sort (quiet_env []) new_rows None (mkWorld sh [] [])
        = (Raise TypeError, w')
    ∧ sheet w' = sh
    ∧ Clear ∉ drop (length (calls (mkWorld sh [] []))) (calls w').
Proof.
  apply (@update_google_sheet_mixed_dates stable_sort (quiet_env []) new_rows None
           (mkWorld (mkDF ["date"; "sessions"]
                       [ ({[ "date" := Int 20240102; "sessions" := Int 5 ]} : row) ]) [] [])
           {[ "date" := Str "2024-01-03"; "sessions" := Int 9 ]}
           {[ "date" := Int 20240102; "sessions" := Int 5 ]} "2024-01-03").
  - vm_compute; reflexivity.
  - vm_compute; reflexivity.
  - reflexivity.
  - reflexivity.
  - by left.
  - vm_compute; reflexivity.
  - vm_compute. by left.
  - exists (Int 20240102). split; vm_compute; reflexivity.
Defined.

(** * The shape of what is fetched *)

(** A fetch that returns rows returns one row for each row of the response,
    in the order of the response, under the labels 'last_updated',
    'data_freshness', the dimensions and the metrics, in this order; and a
    dimension other than 'date' has, in each row, the value of the
    response. *)
Theorem fetch_ga4_data_shape env dimensions metrics w out w' response :
  let ds := default default_dimensions dimensions in
  let ms := default default_metrics metrics in
  run_report env = Ok response →
  fetch_ga4_data env dimensions metrics w = (Ok out, w') →
  empty out = false →
  columns out = "last_updated" :: "data_freshness" :: ds ++ ms
  ∧ length (rows out) = length response
  ∧ ∀ i j c (r : list string * list string) v,
      NoDup (ds ++ ms) → c ≠ "date" → c ∉ ms →
      (ds ++ ms) !! j = Some c → response !! i = Some r → (r.1 ++ r.2) !! j = Some v →
      column c out !! i = Some (Some (Str v)).
Proof.
  intros ds ms Hresp Hrun He.
  destruct (fetch_ga4_data_run env dimensions metrics w) as (w1 & Hrun1 & _).
  rewrite Hrun in Hrun1. injection Hrun1 as Ho _. symmetry in Ho. revert Ho.
  unfold fetch_outcome. rewrite Hresp. simpl. fold ds ms.
  destruct response as [|r0 response]; [intros [= <-]; done|].
  unfold DataFrame_of. case_bool_decide; [|done]. simpl.
  set (data := (λ r : list string * list string, r.1 ++ r.2) <$> r0 :: response).
  set (raw := mkDF (ds ++ ms) (make_row (ds ++ ms) <$> data)).
  intros Hf. change (format_dataframe (now env) raw ds ms = Ok out) in Hf.
  assert (empty raw = false) as Her.
  { destruct (empty raw) eqn:Her; [|done].
    rewrite format_dataframe_empty in Hf by done. simplify_eq. by rewrite Her in He. }
  destruct (format_dataframe_Ok _ _ _ _ _ Her Hf) as (df2 & H2 & Hc & Hl & Hcol).
  split; [done|]. split.
  { rewrite Hl. unfold raw, data. cbn [rows]. by rewrite !length_fmap. }
  intros i j c r v Hnd Hdate Hm Hj Hi Hv.
  rewrite Hcol by (cbn [columns raw]; by eapply list_elem_of_lookup_2).
  destruct (foldR_convert_metric_Ok _ _ _ H2) as (_ & _ & _ & ->); [|done].
  rewrite format_date_column_other by done.
  unfold column, raw, data. cbn [rows].
  rewrite !list_lookup_fmap, Hi. simpl. f_equal. by eapply make_row_lookup.
Qed.

Lemma fetch_ga4_data_shape_witness :
  ∃ out w', fetch_ga4_data (quiet_env report) (Some ["date"; "country"])
              (Some ["sessions"; "bounceRate"]) fresh_world = (Ok out, w')
    ∧ columns out
      = ["last_updated"; "data_freshness"; "date"; "country"; "sessions"; "bounceRate"]
    ∧ length (rows out) = 3%nat
    ∧ column "country" out !! 1%nat = Some (Some (Str "DE")).
Proof.
  eexists _, _. split; [vm_compute; reflexivity|].
  destruct (fetch_ga4_data_shape (quiet_env report) (Some ["date"; "country"])
              (Some ["sessions"; "bounceRate"]) fresh_world _ _ report
              eq_refl eq_refl eq_refl) as (Hc & Hl & Hv).
  split; [exact Hc|]. split; [exact Hl|].
  apply (Hv 1%nat 1%nat "country" (["20240314"; "DE"], ["abc"; ""]) "DE");
    try reflexivity; try discriminate;
    apply (bool_decide_unpack _); vm_compute; exact I.
Defined.
